(** * LLM_WebSearch: the answer pipeline and the tool loop

    A shallow embedding of [LLM_WebSearch_Updated.py] (the class
    [LLMWebSearchPipeline]) and of [MCP_test.py] (the function
    [call_claude_with_tools]).

    Python's effects are written out: every call that leaves the process
    (the completion service, the search provider, an HTTP request) is a
    function of an explicit world state and is recorded in a trace; an
    exception is a result of its own, so that [try]/[except] and an
    uncaught exception can be told apart.  [print] calls write to the
    terminal only and are left out. *)

From Stdlib Require Import ZArith List Bool Ascii String Lia Permutation Sorted QArith_base.
From stdpp Require Import base option list strings pretty gmap.

Close Scope Q_scope.
Import ListNotations.
Local Open Scope Z_scope.
Local Open Scope string_scope.

(** ** Exceptions and the state-and-exception monad *)

Module Py.

(** The exception classes the two programs can meet.  [ExternalError]
    stands for whatever a library outside the repository raises (an HTTP
    failure, an API error). *)
Inductive exn_kind : Type :=
  | KeyError | TypeError | IndexError | AttributeError
  | StopIteration | JSONDecodeError | ExternalError.

(** An exception with the text [str(e)] gives. *)
Record exn : Type := Exn { exn_class : exn_kind; exn_msg : string }.

Inductive outcome (A : Type) : Type :=
  | Ok (a : A)
  | Raise (e : exn).
Arguments Ok {A} a.
Arguments Raise {A} e.

(** A computation over a state [S] that returns or raises; the state it
    leaves behind is kept in both cases, as Python keeps the effects that
    happened before an exception. *)
Definition M (S A : Type) : Type := S -> outcome A * S.

Definition ret {S A} (a : A) : M S A := fun s => (Ok a, s).
Definition raise {S A} (e : exn) : M S A := fun s => (Raise e, s).
Definition bind {S A B} (m : M S A) (k : A -> M S B) : M S B :=
  fun s => match m s with
           | (Ok a, s') => k a s'
           | (Raise e, s') => (Raise e, s')
           end.
Definition lift {S A} (o : outcome A) : M S A := fun s => (o, s).

(** [try: m except Exception as e: h e] *)
Definition try_except {S A} (m : M S A) (h : exn -> M S A) : M S A :=
  fun s => match m s with
           | (Ok a, s') => (Ok a, s')
           | (Raise e, s') => h e s'
           end.

(** The computation returned; it did not raise. *)
Definition returned {A} (o : outcome A) : bool :=
  match o with Ok _ => true | Raise _ => false end.

Definition obind {A B} (o : outcome A) (k : A -> outcome B) : outcome B :=
  match o with Ok a => k a | Raise e => Raise e end.

End Py.
Export Py.

Declare Scope py_scope.
Delimit Scope py_scope with py.
Notation "x <- m ;; k" := (bind m (fun x => k))
  (at level 100, m at next level, right associativity) : py_scope.
Notation "m ;;; k" := (bind m (fun _ => k))
  (at level 100, right associativity) : py_scope.
Notation "x <~ o ;; k" := (obind o (fun x => k))
  (at level 100, o at next level, right associativity) : py_scope.

(** ** Python values

    The values that flow through the source are what [json.loads] returns
    and what the code builds from string and integer literals; one type
    carries both.  A number is an [int] or a [float]. *)

Module Value.

(** A [float].  A finite one is given by its value: every double is a
    rational, and the comparisons below are exact on rationals, as
    Python's are on doubles and between an [int] and a [float]. *)
Inductive float : Type :=
  | NaN
  | Inf (negative : bool)
  | NegZero
  | Finite (q : Q).

#[warnings="-register-all"] Inductive json : Type :=
  | JNull
  | JBool (b : bool)
  | JNum (n : Z)
  | JFloat (f : float)
  | JStr (s : string)
  | JArr (l : list json)
  | JObj (kvs : list (string * json)).

(** A [dict] read off as its items in insertion order; the keys of a
    [dict] are distinct, and [assoc] finds the one entry of a key. *)
Fixpoint assoc {A} (k : string) (kvs : list (string * A)) : option A :=
  match kvs with
  | [] => None
  | (k', v) :: rest => if String.eqb k k' then Some v else assoc k rest
  end.

(** [repr] of a string key, as [str(KeyError(k))] shows it. *)
Definition quoted (k : string) : string := "'" ++ k ++ "'".

(** [type(v).__name__] *)
Definition class_name (v : json) : string :=
  match v with
  | JNull => "NoneType"
  | JBool _ => "bool"
  | JNum _ => "int"
  | JFloat _ => "float"
  | JStr _ => "str"
  | JArr _ => "list"
  | JObj _ => "dict"
  end.

(** [v[k]] for a string [k]. *)
Definition getitem (v : json) (k : string) : outcome json :=
  match v with
  | JObj kvs =>
      match assoc k kvs with
      | Some x => Ok x
      | None => Raise (Exn KeyError (quoted k))
      end
  | JArr _ => Raise (Exn TypeError "list indices must be integers or slices, not str")
  | JStr _ => Raise (Exn TypeError "string indices must be integers, not 'str'")
  | _ => Raise (Exn TypeError (quoted (class_name v) ++ " object is not subscriptable"))
  end.

(** [d.get(k, default)] on a [dict]. *)
Definition dict_get {A} (kvs : list (string * A)) (k : string) (default : A) : A :=
  match assoc k kvs with Some x => x | None => default end.

Definition chars (s : string) : list json :=
  map (fun c => JStr (String c EmptyString)) (list_ascii_of_string s).

(** [for x in v]: the items a [for] loop visits. *)
Definition iterate (v : json) : outcome (list json) :=
  match v with
  | JArr l => Ok l
  | JStr s => Ok (chars s)
  | JObj kvs => Ok (map (fun kv => JStr (fst kv)) kvs)
  | _ => Raise (Exn TypeError (quoted (class_name v) ++ " object is not iterable"))
  end.

(** Truth value, as [if v:] takes it. *)
Definition truthy (v : json) : bool :=
  match v with
  | JNull => false
  | JBool b => b
  | JNum n => negb (n =? 0)%Z
  | JFloat f =>
      match f with
      | NaN | Inf _ => true
      | NegZero => false
      | Finite q => negb (Qeq_bool q 0)
      end
  | JStr s => negb (String.eqb s "")
  | JArr l => match l with [] => false | _ => true end
  | JObj kvs => match kvs with [] => false | _ => true end
  end.

(** The integer behind a value of class [int]; [bool] is a subclass of
    [int] with [True] = 1 and [False] = 0. *)
Definition as_int (v : json) : option Z :=
  match v with
  | JNum n => Some n
  | JBool true => Some 1
  | JBool false => Some 0
  | _ => None
  end.

(** The number behind a value of class [int] or [float]. *)
Definition as_number (v : json) : option float :=
  match v with
  | JFloat f => Some f
  | _ => match as_int v with Some n => Some (Finite (inject_Z n)) | None => None end
  end.

(** *** Comparisons

    [NaN] is neither below nor above nor equal to any number; the
    infinities lie outside all finite numbers; the two zeros are
    equal. *)

Definition float_value (f : float) : Q :=
  match f with Finite q => q | _ => 0%Q end.

Definition float_lt (x y : float) : bool :=
  match x, y with
  | NaN, _ | _, NaN => false
  | Inf nx, Inf ny => nx && negb ny
  | Inf nx, _ => nx
  | _, Inf ny => negb ny
  | _, _ => match Qcompare (float_value x) (float_value y) with
            | Lt => true
            | _ => false
            end
  end.

Definition float_le (x y : float) : bool :=
  match x, y with
  | NaN, _ | _, NaN => false
  | Inf nx, Inf ny => nx || negb ny
  | Inf nx, _ => nx
  | _, Inf ny => negb ny
  | _, _ => match Qcompare (float_value x) (float_value y) with
            | Gt => false
            | _ => true
            end
  end.

(** [x is y or x == y] on numbers that [json.loads] made: its [NaN] is
    one object, so [NaN] is the same as [NaN] here though not equal to
    it. *)
Definition float_same (x y : float) : bool :=
  match x, y with
  | NaN, NaN => true
  | NaN, _ | _, NaN => false
  | Inf nx, Inf ny => Bool.eqb nx ny
  | Inf _, _ | _, Inf _ => false
  | _, _ => Qeq_bool (float_value x) (float_value y)
  end.

(** [x is y or x == y], the test by which a [list] or a [dict] tells
    whether two of its items differ. *)
Fixpoint same (a b : json) {struct a} : bool :=
  match as_number a, as_number b with
  | Some x, Some y => float_same x y
  | _, _ =>
      match a, b with
      | JNull, JNull => true
      | JStr s, JStr t => String.eqb s t
      | JArr l1, JArr l2 =>
          (fix items (l1 l2 : list json) {struct l1} : bool :=
             match l1, l2 with
             | [], [] => true
             | x :: r1, y :: r2 => same x y && items r1 r2
             | _, _ => false
             end) l1 l2
      | JObj kvs1, JObj kvs2 =>
          (length kvs1 =? length kvs2)%nat
          && (fix items (kvs : list (string * json)) {struct kvs} : bool :=
                match kvs with
                | [] => true
                | (k, v) :: rest =>
                    match assoc k kvs2 with
                    | Some v' => same v v'
                    | None => false
                    end && items rest
                end) kvs1
      | _, _ => false
      end
  end.

Definition unorderable (op : string) (a b : json) : exn :=
  Exn TypeError (quoted op ++ " not supported between instances of "
                 ++ quoted (class_name a) ++ " and " ++ quoted (class_name b)).

(** [a < b] ([strict]) and [a <= b].  Numbers compare by value and
    strings by code point; two lists are compared at the first position
    where their items differ, and by length when one is a prefix of the
    other; [None], a [dict] and a pair of different classes raise
    [TypeError]. *)
Fixpoint compare_with (strict : bool) (a b : json) {struct a} : outcome bool :=
  match as_number a, as_number b with
  | Some x, Some y => Ok (if strict then float_lt x y else float_le x y)
  | _, _ =>
      match a, b with
      | JStr s, JStr t => Ok (if strict then String.ltb s t else String.leb s t)
      | JArr l1, JArr l2 =>
          (fix items (l1 l2 : list json) {struct l1} : outcome bool :=
             match l1, l2 with
             | x :: r1, y :: r2 =>
                 if same x y then items r1 r2 else compare_with strict x y
             | [], [] => Ok (negb strict)
             | [], _ :: _ => Ok true
             | _ :: _, [] => Ok false
             end) l1 l2
      | _, _ => Raise (unorderable (if strict then "<" else "<=") a b)
      end
  end.

Definition py_lt (a b : json) : outcome bool := compare_with true a b.
Definition py_le (a b : json) : outcome bool := compare_with false a b.

(** A number other than [NaN]. *)
Definition real_number (v : json) : bool :=
  match as_number v with
  | Some NaN | None => false
  | Some _ => true
  end.

End Value.
Export Value.

(** ** Strings

    A Python [str] is modelled as a [string] whose characters are the code
    points below 256. *)

Module Str.

Definition len (s : string) : Z := Z.of_nat (String.length s).

(** [s[:n]], with Python's reading of a negative bound. *)
Definition slice_to (n : Z) (s : string) : string :=
  if (0 <=? n)%Z then String.substring 0 (Z.to_nat n) s
  else String.substring 0 (Z.to_nat (len s + n)) s.

(** [l[:n]] on a list. *)
Definition list_slice_to {A} (n : Z) (l : list A) : list A :=
  if (0 <=? n)%Z then firstn (Z.to_nat n) l
  else firstn (Z.to_nat (Z.of_nat (length l) + n)) l.

(** [sep.join(parts)] *)
Fixpoint join (sep : string) (parts : list string) : string :=
  match parts with
  | [] => ""
  | [p] => p
  | p :: rest => p ++ sep ++ join sep rest
  end.

(** The double quote, which the prompts contain. *)
Definition dq : string := String "034"%char EmptyString.
(** The line feed. *)
Definition nl : string := String "010"%char EmptyString.

(** [str(n)] for an integer. *)
Definition str_of_Z (n : Z) : string := pretty n.

(** *** [re.search(r'(\{.*\})', content, re.DOTALL)]

    With [DOTALL] the greedy [.*] runs over line ends, so the match goes
    from the first opening brace to the last closing brace after it. *)
Fixpoint from_first_open (s : string) : option string :=
  match s with
  | EmptyString => None
  | String c r => if Ascii.eqb c "{" then Some s else from_first_open r
  end.

Fixpoint upto_last_close (s : string) : option string :=
  match s with
  | EmptyString => None
  | String c r =>
      match upto_last_close r with
      | Some p => Some (String c p)
      | None => if Ascii.eqb c "}" then Some (String c EmptyString) else None
      end
  end.

Definition search_braces (content : string) : option string :=
  match from_first_open content with
  | Some (String c r) =>
      match upto_last_close r with
      | Some p => Some (String c p)
      | None => None
      end
  | _ => None
  end.

(** *** The clean-up of [scrape_webpage] *)

(** [c.isspace()] *)
Definition is_space (c : ascii) : bool :=
  let n := N_of_ascii c in
  ((9 <=? n) && (n <=? 13) || (28 <=? n) && (n <=? 32) || (n =? 133) || (n =? 160))%N.

(** The line boundaries of [str.splitlines] apart from CR LF. *)
Definition is_linebreak (c : ascii) : bool :=
  let n := N_of_ascii c in
  ((10 <=? n) && (n <=? 13) || (28 <=? n) && (n <=? 30) || (n =? 133))%N.

(** [cur] is the line being read, last character first; [after_cr] says
    that the previous character was a carriage return, whose line feed
    belongs to the same boundary. *)
Fixpoint splitlines_from (cur : list ascii) (after_cr : bool) (l : list ascii)
  : list (list ascii) :=
  match l with
  | [] => match cur with [] => [] | _ => [reverse cur] end
  | c :: r =>
      if after_cr && Ascii.eqb c "010" then splitlines_from cur false r
      else if is_linebreak c then reverse cur :: splitlines_from [] (Ascii.eqb c "013") r
      else splitlines_from (c :: cur) false r
  end.

Definition splitlines (l : list ascii) : list (list ascii) :=
  splitlines_from [] false l.

Fixpoint lstrip (l : list ascii) : list ascii :=
  match l with
  | c :: r => if is_space c then lstrip r else l
  | [] => []
  end.

(** [s.strip()] *)
Definition strip (l : list ascii) : list ascii := reverse (lstrip (reverse (lstrip l))).

(** [line.split("  ")]: cut at each pair of spaces, leftmost first. *)
Fixpoint split_two_spaces (cur : list ascii) (l : list ascii) : list (list ascii) :=
  match l with
  | [] => [reverse cur]
  | c :: r =>
      match r with
      | d :: r' =>
          if Ascii.eqb c " " && Ascii.eqb d " "
          then reverse cur :: split_two_spaces [] r'
          else split_two_spaces (c :: cur) r
      | [] => [reverse (c :: cur)]
      end
  end.

Definition nonempty (l : list ascii) : bool :=
  match l with [] => false | _ => true end.

(** Lines 271-273 of [scrape_webpage]: strip each line, cut it at double
    spaces, strip the pieces, drop the empty ones, join with line feeds. *)
Definition clean_text (text : string) : string :=
  let lines := map strip (splitlines (list_ascii_of_string text)) in
  let chunks := flat_map (fun line => map strip (split_two_spaces [] line)) lines in
  join nl (map string_of_list_ascii (List.filter nonempty chunks)).

End Str.
Export Str.


(** ** The Python runtime the programs call into *)

(** [json.loads] ([None] when it raises [JSONDecodeError]), [json.dumps]
    and [repr] are library code outside the repository.  So is the
    algorithm of [list.sort]: when [<] puts the keys in one order, the
    result is that order in every interpreter, but when it does not (a key
    is [NaN], or two keys do not compare), the comparisons the algorithm
    happens to make decide whether the sort raises and where the items end
    up.  [sort_exchanges keys] is what the interpreter makes of such keys
    under [reverse=True]: an exception, or the exchanges of positions it
    ends up with. *)
Class Runtime : Type := {
  json_loads : string -> option json;
  json_dumps : json -> string;
  repr : json -> string;
  sort_exchanges : list json -> outcome (list (nat * nat))
}.

(** ** [list.sort(key=..., reverse=True)]

    The keys are computed first, one call of [key] per item from left to
    right.  With keys that [<] puts in one order the items come out in
    non-increasing key order, items with equal keys keeping their order;
    a list of fewer than two items is left as it is without a
    comparison.  Otherwise the runtime decides. *)

Module Sorting.

(** [a < b] holds. *)
Definition below (a b : json) : bool :=
  match py_lt a b with Ok true => true | _ => false end.

(** A tie as Python sees it: both [a < b] and [b < a] are false. *)
Definition tie (a b : json) : bool :=
  match py_lt a b, py_lt b a with
  | Ok false, Ok false => true
  | _, _ => false
  end.

(** [<] puts the keys in one order: any two of them compare, never both
    [a < b] and [b < a], and when neither [a < b] nor [b < c] then not
    [a < c] (so that ties are ties with the same keys). *)
Definition ordered (keys : list json) : bool :=
  forallb (fun a =>
    forallb (fun b =>
      returned (py_lt a b)
      && negb (below a b && below b a)
      && forallb (fun c =>
           implb (negb (below a b) && negb (below b c)) (negb (below a c)))
         keys)
    keys)
  keys.

(** The items at two positions change places. *)
Definition exchange {A} (l : list A) (ij : nat * nat) : list A :=
  match l !! fst ij, l !! snd ij with
  | Some a, Some b => <[snd ij := a]> (<[fst ij := b]> l)
  | _, _ => l
  end.

Definition exchanged {A} (swaps : list (nat * nat)) (l : list A) : list A :=
  fold_left exchange swaps l.

Section Keyed.
Context {rt : Runtime} {A : Type} (key : A -> json).

  (** [x] came before every item of [acc]: it moves right only past items
      strictly greater than it. *)
Fixpoint place_desc (x : A) (acc : list A) : list A :=
  match acc with
  | [] => [x]
  | y :: ys =>
      if below (key x) (key y) then y :: place_desc x ys
      else x :: y :: ys
  end.

(** The stable sort in non-increasing order, as an insertion from the
    right. *)
Fixpoint sorted_desc (l : list A) : list A :=
  match l with
  | [] => []
  | x :: xs => place_desc x (sorted_desc xs)
  end.

Definition sort_desc (l : list A) : outcome (list A) :=
  if (length l <? 2)%nat || ordered (map key l) then Ok (sorted_desc l)
  else (swaps <~ sort_exchanges (map key l) ;; Ok (exchanged swaps l))%py.

(** [a] may stand before [b] in a non-increasing list: [a < b] does not
    hold. *)
Definition not_below (a b : A) : Prop := py_lt (key a) (key b) <> Ok true.
End Keyed.

(** [f(x)] for each item in turn, stopping at the first exception. *)
Fixpoint map_outcome {A B} (f : A -> outcome B) (l : list A) : outcome (list B) :=
  match l with
  | [] => Ok []
  | x :: xs => (y <~ f x ;; ys <~ map_outcome f xs ;; Ok (y :: ys))%py
  end.

Definition sort_by_key_desc {rt : Runtime} {A} (key : A -> outcome json)
  (l : list A) : outcome (list A) :=
  (ks <~ map_outcome key l ;;
   s <~ sort_desc fst (combine ks l) ;;
   Ok (map snd s))%py.

End Sorting.
Export Sorting.

Definition loads {rt : Runtime} (s : string) : outcome json :=
  match json_loads s with
  | Some v => Ok v
  | None => Raise (Exn JSONDecodeError "Expecting value")
  end.

(** [str(v)], as an f-string formats a value. *)
Definition py_str {rt : Runtime} (v : json) : string :=
  match v with JStr s => s | _ => repr v end.

(** * [LLM_WebSearch_Updated.py] *)

Module Pipeline.

(** The arguments of [self.client.messages.create]. *)
Record request : Type := Request {
  model : string;
  max_tokens : Z;
  temperature : Q;
  system : string;
  messages : list (string * string)   (* role, content *)
}.

(** {title, url, snippet}, as [search_web] builds it. *)
Record SearchResult : Type := {
  title : string;
  url : string;
  snippet : string
}.

(** A search result with the two keys the ranker adds. *)
Record RankedResult : Type := {
  base : SearchResult;
  relevance_score : json;
  explanation : json
}.

(** What leaves the process, in the order it happens. *)
Inductive event : Type :=
  | Completion (r : request)
  | WebSearch (query : string) (max_results : Z)
  | PageFetch (page : string).

(** The services behind the pipeline.  A call takes the state of the world
    and returns the next one with either a value or the exception raised.
    - [messages_create]: the completion service; the value is the text of
      each block of [response.content];
    - [ddgs_text]: [list(DDGS().text(query, max_results=n))], each hit a
      [dict] of strings;
    - [page_text]: [requests.get], [raise_for_status] and BeautifulSoup's
      [get_text] after the script, style, header, footer and nav elements
      are taken out. *)
Class Services : Type := {
  W : Type;
  messages_create : request -> W -> outcome (list string) * W;
  ddgs_text : string -> Z -> W -> outcome (list (list (string * string))) * W;
  page_text : string -> W -> outcome string * W
}.

(** The prompts, word for word. *)

Definition decide_prompt (query : string) : string :=
  "Determine if external information from a web search is necessary to accurately answer this query:

Query: "
  ++ query
  ++ "

Consider the following factors:
1. Does the query ask about current events, recent news, or time-sensitive information?
2. Does the query ask for specific data, statistics, or facts that may not be part of your training data?
3. Does the query ask about specific products, services, or websites?
4. Does the query ask about content from specific sources or publications?
5. Is the query about obscure or niche topics that may not be well-covered in your training data?

Output your decision as a JSON object with the following structure:
{
  "
  ++ dq
  ++ "search_needed"
  ++ dq
  ++ ": true/false,
  "
  ++ dq
  ++ "reasoning"
  ++ dq
  ++ ": "
  ++ dq
  ++ "Explanation of why search is or isn't needed"
  ++ dq
  ++ ",
  "
  ++ dq
  ++ "confidence"
  ++ dq
  ++ ": 0-10 (where 10 is highest confidence)
}".

Definition follow_up_prompt (query : string) (answer : string) : string :=
  "Analyze this question and answer pair to generate potential follow-up questions:

Original Question: "
  ++ query
  ++ "

Answer: "
  ++ answer
  ++ "

Generate 3 relevant follow-up questions that:
1. Address gaps or ambiguities in the current answer
2. Explore related aspects not covered in the original query
3. Request clarification or additional details on specific points

For each follow-up question, explain why it would be valuable to ask.

Output your suggestions as a JSON array with the following structure:
{
  "
  ++ dq
  ++ "follow_up_questions"
  ++ dq
  ++ ": [
    {
      "
  ++ dq
  ++ "question"
  ++ dq
  ++ ": "
  ++ dq
  ++ "Text of the follow-up question"
  ++ dq
  ++ ",
      "
  ++ dq
  ++ "rationale"
  ++ dq
  ++ ": "
  ++ dq
  ++ "Why this question would be valuable"
  ++ dq
  ++ ",
      "
  ++ dq
  ++ "priority"
  ++ dq
  ++ ": 1-5 (where 5 is highest priority)
    }
  ]
}".

Definition evaluate_prompt (query : string) (answer : string) (context : string) : string :=
  "Evaluate this answer to the user's query and suggest refinements:

Query: "
  ++ query
  ++ "

Answer: "
  ++ answer
  ++ "

The answer was generated based on this context information:
"
  ++ (slice_to 3000 context)
  ++ "... [context truncated if necessary]

Assess the answer on these dimensions:
1. Accuracy: Does it correctly reflect the information in the context?
2. Completeness: Does it address all aspects of the query?
3. Clarity: Is it easy to understand?
4. Conciseness: Is it appropriately detailed without unnecessary information?
5. Evidence: Does it cite sources appropriately?

Then, provide a refined version of the answer that addresses any issues you identified.

Output your evaluation as a JSON object with the following structure:
{
  "
  ++ dq
  ++ "evaluation"
  ++ dq
  ++ ": {
    "
  ++ dq
  ++ "accuracy"
  ++ dq
  ++ ": 0-10,
    "
  ++ dq
  ++ "completeness"
  ++ dq
  ++ ": 0-10,
    "
  ++ dq
  ++ "clarity"
  ++ dq
  ++ ": 0-10,
    "
  ++ dq
  ++ "conciseness"
  ++ dq
  ++ ": 0-10,
    "
  ++ dq
  ++ "evidence"
  ++ dq
  ++ ": 0-10
  },
  "
  ++ dq
  ++ "issues"
  ++ dq
  ++ ": ["
  ++ dq
  ++ "List of specific issues identified"
  ++ dq
  ++ "],
  "
  ++ dq
  ++ "refined_answer"
  ++ dq
  ++ ": "
  ++ dq
  ++ "Improved version of the answer"
  ++ dq
  ++ "
}".

Definition rank_prompt (query : string) (results_text : string) : string :=
  "You are an expert search result evaluator. Your task is to rank the following search results based on their relevance to the query: "
  ++ dq
  ++ query
  ++ dq
  ++ "

Search Results:
"
  ++ results_text
  ++ "

For each result, provide:
1. A relevance score from 0-10 (where 10 is most relevant)
2. A brief explanation of why you assigned that score

Format your response as a JSON array with objects containing 'index' (0-based), 'score', and 'explanation' fields.
".

Definition answer_prompt (query : string) (context : string) : string :=
  "I need you to answer the following question using the provided context information. If the context doesn't contain relevant information, you can use your general knowledge but clearly indicate when you're doing so.

Question: "
  ++ query
  ++ "

Context Information:
"
  ++ context
  ++ "

Please provide a comprehensive, accurate answer based primarily on the context provided.
".

Definition direct_prompt (query : string) : string :=
  "Please answer this question using your existing knowledge:

Question: "
  ++ query
  ++ "

Provide a comprehensive, accurate answer. If you're uncertain about any details, clearly indicate this.
".

Section Program.
Context {rt : Runtime} {sv : Services}.

  (** The world and the trace of calls so far. *)
Definition St : Type := W * list event.

Definition create (r : request) : M St (list string) :=
    fun s => let '(o, w') := messages_create r (fst s) in
             (o, (w', (snd s ++ [Completion r])%list)).

Definition ddgs (query : string) (n : Z)
    : M St (list (list (string * string))) :=
    fun s => let '(o, w') := ddgs_text query n (fst s) in
             (o, (w', (snd s ++ [WebSearch query n])%list)).

Definition fetch (page : string) : M St string :=
    fun s => let '(o, w') := page_text page (fst s) in
             (o, (w', (snd s ++ [PageFetch page])%list)).

(** The state a completion call leaves behind. *)
Definition after_completion (r : request) (s : St) : St :=
  (snd (messages_create r (fst s)), (snd s ++ [Completion r])%list).

  (** [response.content[0].text] *)
Definition first_text (content : list string) : outcome string :=
    match content with
    | t :: _ => Ok t
    | [] => Raise (Exn IndexError "list index out of range")
    end.

Definition self_model : string := "claude-3-7-sonnet-20250219".

Definition user_turn (prompt : string) : list (string * string) :=
    [("user", prompt)].

(** *** [decide_if_search_needed] *)

Definition decide_request (query : string) : request :=
  Request self_model 1000 0%Q
    "You analyze queries to determine if they require external information from web search. Always respond in valid JSON format."
    (user_turn (decide_prompt query)).

(** The body of the [try]. *)
Definition decide_attempt (query : string) : M St (json * json) :=
  (content <- create (decide_request query) ;;
   text <- lift (first_text content) ;;
   let text := match search_braces text with Some m => m | None => text end in
   decision <- lift (loads text) ;;
   search_needed <- lift (getitem decision "search_needed") ;;
   reasoning <- lift (getitem decision "reasoning") ;;
   ret (search_needed, reasoning))%py.

Definition decide_default : json * json :=
  (JBool true, JStr "Error in decision process, defaulting to search").

Definition decide_if_search_needed (query : string) : M St (json * json) :=
  try_except (decide_attempt query) (fun _ => ret decide_default).

(** *** [generate_follow_up_questions] *)

Definition follow_up_request (query : string) (answer : json) : request :=
  Request self_model 2000 0.7%Q
    "You are an expert at identifying valuable follow-up questions that could enhance understanding or provide additional context. Always respond in valid JSON format."
    (user_turn (follow_up_prompt query (py_str answer))).

Definition follow_up_attempt (query : string) (answer : json) : M St json :=
  (content <- create (follow_up_request query answer) ;;
   text <- lift (first_text content) ;;
   parsed <- lift (loads text) ;;
   follow_ups <- lift (getitem parsed "follow_up_questions") ;;
   match follow_ups with
   | JArr l =>
       sorted <- lift (sort_by_key_desc (fun x => getitem x "priority") l) ;;
       ret (JArr sorted)
   | _ => raise (Exn AttributeError (quoted (class_name follow_ups)
                                     ++ " object has no attribute 'sort'"))
   end)%py.

Definition generate_follow_up_questions (query : string) (answer : json)
  : M St json :=
  try_except (follow_up_attempt query answer) (fun _ => ret (JArr [])).

(** *** [evaluate_and_refine_answer] *)

Definition evaluate_request (query answer context : string) : request :=
  Request self_model 4000 0.2%Q
    "You are an expert at evaluating and improving answers based on search context. Always respond in valid JSON format."
    (user_turn (evaluate_prompt query answer context)).

Definition evaluate_attempt (query answer context : string) : M St json :=
  (content <- create (evaluate_request query answer context) ;;
   text <- lift (first_text content) ;;
   evaluation <- lift (loads text) ;;
   ret evaluation)%py.

Definition evaluate_default (answer : string) : json :=
  JObj [("evaluation",
         JObj [("accuracy", JNum 5); ("completeness", JNum 5);
               ("clarity", JNum 5); ("conciseness", JNum 5);
               ("evidence", JNum 5)]);
        ("issues", JArr [JStr "Error in evaluation process"]);
        ("refined_answer", JStr answer)].

Definition evaluate_and_refine_answer (query answer context : string)
  : M St json :=
  try_except (evaluate_attempt query answer context)
             (fun _ => ret (evaluate_default answer)).

(** *** [search_web] *)

Definition format_hit (hit : list (string * string)) : SearchResult :=
  {| title := dict_get hit "title" "";
     url := dict_get hit "href" "";
     snippet := dict_get hit "body" "" |}.

Definition search_web (query : string) (num_results : Z)
  : M St (list SearchResult) :=
  try_except
    (results <- ddgs query num_results ;; ret (map format_hit results))%py
    (fun _ => ret []).

(** *** [scrape_webpage] *)

Definition truncation_marker : string := "...[content truncated]".

(** Lines 275-277: the bound on the cleaned text. *)
Definition truncate (text : string) : string :=
  if (len text >? 15000)%Z then slice_to 15000 text ++ truncation_marker
  else text.

Definition scrape_webpage (link : string) : M St string :=
  try_except
    (text <- fetch link ;; ret (truncate (clean_text text)))%py
    (fun e => ret ("Failed to scrape content from " ++ link ++ ": " ++ exn_msg e)).

(** *** [rank_search_results] *)

Definition results_text (results : list SearchResult) : string :=
  join (nl ++ nl)
    (imap (fun i result =>
             "Result " ++ pretty (i + 1)%nat ++ ":" ++ nl
             ++ "Title: " ++ title result ++ nl
             ++ "URL: " ++ url result ++ nl
             ++ "Snippet: " ++ snippet result) results).

(** One turn of the loop of lines 333-339: [None] when the entry is
    skipped. *)
Definition attach (results : list SearchResult) (rank : json)
  : outcome (option RankedResult) :=
  (idx <~ getitem rank "index" ;;
   lo <~ py_le (JNum 0) idx ;;
   if lo then
     (hi <~ py_lt idx (JNum (Z.of_nat (length results))) ;;
      if hi then
        match as_int idx with
        | Some i =>
            match results !! Z.to_nat i with
            | Some result =>
                score <~ getitem rank "score" ;;
                expl <~ getitem rank "explanation" ;;
                Ok (Some {| base := result;
                            relevance_score := score;
                            explanation := expl |})
            | None => Raise (Exn IndexError "list index out of range")
            end
        | None => Raise (Exn TypeError ("list indices must be integers or slices, not "
                                        ++ class_name idx))
        end
      else Ok None)
   else Ok None)%py.

Fixpoint attach_all (results : list SearchResult) (rankings : list json)
  : outcome (list RankedResult) :=
  match rankings with
  | [] => Ok []
  | rank :: rest =>
      (r <~ attach results rank ;;
       rs <~ attach_all results rest ;;
       Ok (match r with Some x => x :: rs | None => rs end))%py
  end.

Definition rank_request (results : list SearchResult) (query : string) : request :=
  Request self_model 8000 0%Q
    "You are an expert search result evaluator that always responds in valid JSON format."
    (user_turn (rank_prompt query (results_text results))).

(** Lines 329-343: from the parsed response to the sorted list. *)
Definition rank_parsed (results : list SearchResult) (parsed : json)
  : outcome (list RankedResult) :=
  (rankings <~ getitem parsed "rankings" ;;
   entries <~ iterate rankings ;;
   ranked_results <~ attach_all results entries ;;
   sort_desc relevance_score ranked_results)%py.

(** The body of the [try], from the completion call to the sort. *)
Definition rank_attempt (results : list SearchResult) (query : string)
  : M St (list RankedResult) :=
  (content <- create (rank_request results query) ;;
   text <- lift (first_text content) ;;
   parsed <- lift (loads text) ;;
   lift (rank_parsed results parsed))%py.

Definition ranking_failed (result : SearchResult) : RankedResult :=
  {| base := result;
     relevance_score := JNum 5;
     explanation := JStr "Ranking failed" |}.

Definition rank_search_results (results : list SearchResult) (query : string)
  : M St (list RankedResult) :=
  match results with
  | [] => ret []
  | _ => try_except (rank_attempt results query)
                    (fun _ => ret (map ranking_failed results))
  end.

(** *** [get_context_from_results] *)

Definition source_section (i : nat) (result : RankedResult) (content : string)
  : string :=
  "Source " ++ pretty (i + 1)%nat ++ ": " ++ title (base result)
  ++ " (" ++ url (base result) ++ ")" ++ nl ++ nl ++ content ++ nl ++ nl.

(** The loop over [enumerate(top_results)], from index [i] on. *)
Fixpoint gather (i : nat) (top_results : list RankedResult)
  : M St (list string) :=
  match top_results with
  | [] => ret []
  | result :: rest =>
      (content <- scrape_webpage (url (base result)) ;;
       later <- gather (S i) rest ;;
       ret (if String.eqb content "" then later
            else source_section i result content :: later))%py
  end.

Definition get_context_from_results (ranked_results : list RankedResult)
  (max_results : Z) : M St string :=
  (context <- gather 0 (list_slice_to max_results ranked_results) ;;
   ret (join nl context))%py.

(** *** [answer_with_context] *)

Definition apology (e : exn) : string :=
  "Sorry, I encountered an error while generating your answer: " ++ exn_msg e.

Definition answer_request (query context : string) : request :=
  Request self_model 8000 0.9%Q
    "You are a helpful assistant that provides accurate, comprehensive answers based on the context provided."
    (user_turn (answer_prompt query context)).

Definition answer_with_context (query context : string) : M St string :=
  try_except
    (content <- create (answer_request query context) ;;
     lift (first_text content))%py
    (fun e => ret (apology e)).

(** *** [process_query] *)

Definition no_results_answer : string :=
  "I couldn't find any relevant information on the web for your query.".

(** The [dict] of lines 424-432. *)
Definition initial_result (query : string) : gmap string json :=
  <["reasoning" := JStr ""]>
  (<["refined_answer" := JStr ""]>
  (<["evaluation" := JObj []]>
  (<["follow_up_questions" := JArr []]>
  (<["answer" := JStr ""]>
  (<["search_performed" := JBool false]>
  (<["original_query" := JStr query]> ∅)))))).

(** Lines 495-500. *)
Definition follow_up_step (query : string) (result : gmap string json)
  : M St (gmap string json) :=
  match result !! "answer" with
  | Some answer =>
      (follow_ups <- generate_follow_up_questions query answer ;;
       ret (<["follow_up_questions" := follow_ups]> result))%py
  | None => raise (Exn KeyError (quoted "answer"))
  end.

(** Lines 447-468: the branch with search results at hand. *)
Definition searched_branch (query : string) (max_context_results : Z)
  (search_results : list SearchResult) (result : gmap string json)
  : M St (gmap string json) :=
  (ranked_results <- rank_search_results search_results query ;;
   context <- get_context_from_results ranked_results max_context_results ;;
   initial_answer <- answer_with_context query context ;;
   let result := <["initial_answer" := JStr initial_answer]> result in
   evaluation <- evaluate_and_refine_answer query initial_answer context ;;
   scores <- lift (getitem evaluation "evaluation") ;;
   let result := <["evaluation" := scores]> result in
   issues <- lift (getitem evaluation "issues") ;;
   let result := <["issues" := issues]> result in
   refined <- lift (getitem evaluation "refined_answer") ;;
   let result := <["refined_answer" := refined]> result in
   let result := <["answer" := refined]> result in
   ret (<["context" := JStr context]> result))%py.

Definition direct_request (query : string) : request :=
  Request self_model 4000 0.7%Q
    "You are a helpful assistant that provides accurate, comprehensive answers based on your knowledge."
    (user_turn (direct_prompt query)).

(** Lines 470-493: the answer from the model's own knowledge. *)
Definition direct_branch (query : string) (result : gmap string json)
  : M St (gmap string json) :=
  try_except
    (content <- create (direct_request query) ;;
     text <- lift (first_text content) ;;
     let result := <["answer" := JStr text]> result in
     ret (<["initial_answer" := JStr text]> result))%py
    (fun e => ret (<["answer" := JStr (apology e)]> result)).

Definition process_query (query : string) (num_search_results : Z)
  (max_context_results : Z) : M St (gmap string json) :=
  (let result := initial_result query in
   decision <- decide_if_search_needed query ;;
   let search_needed := fst decision in
   let reasoning := snd decision in
   let result := <["search_decision_reasoning" := reasoning]> result in
   if truthy search_needed then
     let result := <["search_performed" := JBool true]> result in
     search_results <- search_web query num_search_results ;;
     match search_results with
     | [] => ret (<["answer" := JStr no_results_answer]> result)
     | _ =>
         result <- searched_branch query max_context_results search_results result ;;
         follow_up_step query result
     end
   else
     result <- direct_branch query result ;;
     follow_up_step query result)%py.

End Program.

End Pipeline.

(** * [MCP_test.py] *)

Module MCP.

(** [class MCPTool] *)
Record MCPTool : Type := {
  name : string;
  description : string;
  server_url : string
}.

(** The module-level registry [tools]. *)
Definition file_system : MCPTool :=
  {| name := "file_system";
     description := "Access files on the local system";
     server_url := "http://localhost:8080/files" |}.

Definition database : MCPTool :=
  {| name := "database";
     description := "Query a SQL database";
     server_url := "http://localhost:8081/query" |}.

Definition tools : list MCPTool := [file_system; database].

(** What the completion service returns: [message.content] and
    [message.tool_use]. *)
Record message : Type := {
  content : json;
  tool_use : json
}.

(** An entry of [tool_configs]. *)
Record tool_config : Type := {
  config_name : string;
  config_description : string
}.

(** An entry of [tool_responses]. *)
Record tool_response : Type := {
  tool_call_id : json;
  output : string
}.

(** An entry of the [messages] argument. *)
Inductive turn : Type :=
  | User (text : string)
  | Echo (m : message)
  | Assistant (text : json) (requested : json)
  | ToolResults (results : list tool_response).

(** The arguments of [client.messages.create]. *)
Record request : Type := {
  model : string;
  max_tokens : Z;
  system : string;
  messages : list turn;
  manifest : list tool_config
}.

Inductive event : Type :=
  | Create (r : request)
  | Post (endpoint : string) (payload : json).

(** The completion service and the HTTP client.  [requests_post] stands
    for [requests.post(url, json=payload, headers={"Content-Type":
    "application/json"})] followed by [response.json()]. *)
Class Services : Type := {
  W : Type;
  client_messages_create : request -> W -> outcome message * W;
  requests_post : string -> json -> W -> outcome json * W
}.

Section Program.
Context {rt : Runtime} {sv : Services}.

Definition St : Type := W * list event.

Definition create (r : request) : M St message :=
  fun s => let '(o, w') := client_messages_create r (fst s) in
           (o, (w', (snd s ++ [Create r])%list)).

Definition post (endpoint : string) (payload : json) : M St json :=
  fun s => let '(o, w') := requests_post endpoint payload (fst s) in
           (o, (w', (snd s ++ [Post endpoint payload])%list)).

(** [MCPTool.execute] *)
Definition request_data (method params : json) : json :=
  JObj [("method", method); ("params", params);
        ("jsonrpc", JStr "2.0"); ("id", JNum 1)].

Definition execute (self : MCPTool) (method params : json) : M St json :=
  post (server_url self) (request_data method params).

(** [t.name == v] *)
Definition name_is (t : MCPTool) (v : json) : bool :=
  match v with JStr s => String.eqb (name t) s | _ => false end.

(** [next(t for t in registry if t.name == tool_call["name"])] *)
Fixpoint lookup_tool (registry : list MCPTool) (tool_call : json)
  : outcome MCPTool :=
  match registry with
  | [] => Raise (Exn StopIteration "")
  | t :: rest =>
      (requested <~ getitem tool_call "name" ;;
       if name_is t requested then Ok t else lookup_tool rest tool_call)%py
  end.

(** [v.get(k, default)] *)
Definition get (v : json) (k : string) (default : json) : outcome json :=
  match v with
  | JObj kvs => Ok (dict_get kvs k default)
  | _ => Raise (Exn AttributeError (quoted (class_name v)
                                    ++ " object has no attribute 'get'"))
  end.

(** The body of the [for] loop, lines 73-85. *)
Definition run_call (tool_call : json) : M St tool_response :=
  (tool <- lift (lookup_tool tools tool_call) ;;
   parameters <- lift (getitem tool_call "parameters") ;;
   method <- lift (get parameters "method" (JStr "")) ;;
   parameters' <- lift (getitem tool_call "parameters") ;;
   params <- lift (get parameters' "params" (JObj [])) ;;
   result <- execute tool method params ;;
   id <- lift (getitem tool_call "id") ;;
   ret {| tool_call_id := id; output := json_dumps result |})%py.

Fixpoint run_calls (tool_calls : list json) : M St (list tool_response) :=
  match tool_calls with
  | [] => ret []
  | tool_call :: rest =>
      (r <- run_call tool_call ;;
       rs <- run_calls rest ;;
       ret (r :: rs))%py
  end.

Definition tool_configs (tools_to_use : list MCPTool) : list tool_config :=
  map (fun tool => {| config_name := name tool;
                      config_description := description tool |}) tools_to_use.

Definition system_prompt : string :=
  "You are an assistant with access to tools. Use the tools when appropriate.".

Definition first_request (prompt : string) (tools_to_use : list MCPTool)
  : request :=
  {| model := "claude-3-7-sonnet-20250219";
     max_tokens := 1000;
     system := system_prompt;
     messages := [User prompt];
     manifest := tool_configs tools_to_use |}.

Definition next_request (prompt : string) (tools_to_use : list MCPTool)
  (m : message) (tool_responses : list tool_response) : request :=
  {| model := "claude-3-7-sonnet-20250219";
     max_tokens := 1000;
     system := system_prompt;
     messages := [User prompt; Echo m;
                  Assistant (content m) (tool_use m);
                  ToolResults tool_responses];
     manifest := tool_configs tools_to_use |}.

(** The [while] loop of lines 68-99.  It has no bound of its own: [fuel]
    counts the turns still allowed, and [None] says that they ran out with
    the loop still going. *)
Fixpoint tool_loop (fuel : nat) (prompt : string)
  (tools_to_use : list MCPTool) (m : message) : M St (option json) :=
  if truthy (tool_use m) then
    match fuel with
    | O => ret None
    | S fuel' =>
        (tool_calls <- lift (iterate (tool_use m)) ;;
         tool_responses <- run_calls tool_calls ;;
         m' <- create (next_request prompt tools_to_use m tool_responses) ;;
         tool_loop fuel' prompt tools_to_use m')%py
    end
  else ret (Some (content m)).

Definition call_claude_with_tools (fuel : nat) (prompt : string)
  (tools_to_use : list MCPTool) : M St (option json) :=
  (m <- create (first_request prompt tools_to_use) ;;
   tool_loop fuel prompt tools_to_use m)%py.

End Program.

End MCP.

(** * Failure conditions and kept entries, in the words of the specification *)

Module PipelineSpec.
Import Pipeline.

Section Conditions.
Context {rt : Runtime} {sv : Services}.

(** The text the completion service gives back to request [r] in world
    [w]: what [response.content[0].text] evaluates to, or the exception
    of the call or of the indexing. *)
Definition reply (r : request) (w : W) : outcome string :=
  (content <~ fst (messages_create r w) ;; first_text content)%py.

(** The text handed to [json.loads] by the classifier. *)
Definition json_part (text : string) : string :=
  match search_braces text with Some m => m | None => text end.

(** The classifier fails: the call fails (or answers with no block), the
    text is not JSON, or a key is missing from the parsed value. *)
Inductive classifier_fails (query : string) (w : W) : Prop :=
  | classifier_call_fails (e : exn) :
      reply (decide_request query) w = Raise e ->
      classifier_fails query w
  | classifier_json_malformed (text : string) :
      reply (decide_request query) w = Ok text ->
      json_loads (json_part text) = None ->
      classifier_fails query w
  | classifier_key_missing (text : string) (decision : json) (k : string) (e : exn) :
      reply (decide_request query) w = Ok text ->
      json_loads (json_part text) = Some decision ->
      k = "search_needed" \/ k = "reasoning" ->
      getitem decision k = Raise e ->
      classifier_fails query w.

(** The critic fails: the call fails or the text is not JSON. *)
Inductive critic_fails (query answer context : string) (w : W) : Prop :=
  | critic_call_fails (e : exn) :
      reply (evaluate_request query answer context) w = Raise e ->
      critic_fails query answer context w
  | critic_json_malformed (text : string) :
      reply (evaluate_request query answer context) w = Ok text ->
      json_loads text = None ->
      critic_fails query answer context w.

(** The ranker fails: the call fails, the text is not JSON, or the parsed
    value cannot be turned into a ranking (no [rankings], an entry without
    its keys, an index that is not a number, scores that do not
    compare). *)
Inductive ranker_fails (results : list SearchResult) (query : string) (w : W)
  : Prop :=
  | ranker_call_fails (e : exn) :
      reply (rank_request results query) w = Raise e ->
      ranker_fails results query w
  | ranker_json_malformed (text : string) :
      reply (rank_request results query) w = Ok text ->
      json_loads text = None ->
      ranker_fails results query w
  | ranker_response_unusable (text : string) (parsed : json) (e : exn) :
      reply (rank_request results query) w = Ok text ->
      json_loads text = Some parsed ->
      rank_parsed results parsed = Raise e ->
      ranker_fails results query w.

(** The entries of a successfully parsed ranking response. *)
Definition ranking_entries (results : list SearchResult) (query : string)
  (w : W) (entries : list json) : Prop :=
  exists text parsed rankings,
    reply (rank_request results query) w = Ok text /\
    json_loads text = Some parsed /\
    getitem parsed "rankings" = Ok rankings /\
    iterate rankings = Ok entries.

End Conditions.

(** The input position an entry points at, if its index is a valid 0-based
    position of [results]. *)
Definition valid_position (results : list SearchResult) (entry : json)
  : option nat :=
  match getitem entry "index" with
  | Ok idx =>
      match as_int idx with
      | Some i =>
          if ((0 <=? i) && (i <? Z.of_nat (length results)))%Z
          then Some (Z.to_nat i) else None
      | None => None
      end
  | Raise _ => None
  end.

(** The ranked result an entry stands for: the input item at its index with
    the entry's score and explanation. *)
Definition resolved (results : list SearchResult) (entry : json)
  : option RankedResult :=
  match valid_position results entry, getitem entry "score",
        getitem entry "explanation" with
  | Some i, Ok score, Ok expl =>
      match results !! i with
      | Some result => Some {| base := result;
                               relevance_score := score;
                               explanation := expl |}
      | None => None
      end
  | _, _, _ => None
  end.

(** The entries with a valid index, in the order of the response. *)
Definition resolve (results : list SearchResult) (entries : list json)
  : list RankedResult :=
  omap (resolved results) entries.

End PipelineSpec.

(** * Scripted services

    Stand-ins for the services, used to run the programs on concrete
    inputs: the completion service answers from a script, one reply per
    call; the search provider returns a fixed list of hits; a page is
    looked up in a fixed table. *)

Module Mock.

Definition q (s : string) : string := dq ++ s ++ dq.

(** Replies of the completion service and the values [json.loads] makes
    of them. *)
Definition decide_yes : json :=
  JObj [("search_needed", JBool true); ("reasoning", JStr "needs current data")].

Definition decide_yes_text : string :=
  "{" ++ q "search_needed" ++ ": true, " ++ q "reasoning" ++ ": "
  ++ q "needs current data" ++ "}".

Definition decide_no : json :=
  JObj [("search_needed", JBool false); ("reasoning", JStr "general knowledge")].

Definition decide_no_text : string :=
  "{" ++ q "search_needed" ++ ": false, " ++ q "reasoning" ++ ": "
  ++ q "general knowledge" ++ "}".

Definition entry (i score : Z) (why : string) : json :=
  JObj [("index", JNum i); ("score", JNum score); ("explanation", JStr why)].

Definition rankings : json :=
  JObj [("rankings",
         JArr [entry 1 7 "good"; entry 5 9 "stray";
               entry 0 9 "best"; entry 2 7 "fair"])].

Definition rankings_text : string :=
  "{" ++ q "rankings" ++ ": [{" ++ q "index" ++ ": 1, " ++ q "score"
  ++ ": 7, " ++ q "explanation" ++ ": " ++ q "good" ++ "}, {"
  ++ q "index" ++ ": 5, " ++ q "score" ++ ": 9, " ++ q "explanation"
  ++ ": " ++ q "stray" ++ "}, {" ++ q "index" ++ ": 0, " ++ q "score"
  ++ ": 9, " ++ q "explanation" ++ ": " ++ q "best" ++ "}, {"
  ++ q "index" ++ ": 2, " ++ q "score" ++ ": 7, " ++ q "explanation"
  ++ ": " ++ q "fair" ++ "}]}".

Definition evaluation : json :=
  JObj [("evaluation",
         JObj [("accuracy", JNum 8); ("completeness", JNum 7);
               ("clarity", JNum 9); ("conciseness", JNum 6);
               ("evidence", JNum 7)]);
        ("issues", JArr [JStr "minor"]);
        ("refined_answer", JStr "Refined answer.")].

Definition evaluation_text : string :=
  "{" ++ q "evaluation" ++ ": {" ++ q "accuracy" ++ ": 8, "
  ++ q "completeness" ++ ": 7, " ++ q "clarity" ++ ": 9, "
  ++ q "conciseness" ++ ": 6, " ++ q "evidence" ++ ": 7}, "
  ++ q "issues" ++ ": [" ++ q "minor" ++ "], " ++ q "refined_answer"
  ++ ": " ++ q "Refined answer." ++ "}".

Definition question (text why : string) (priority : Z) : json :=
  JObj [("question", JStr text); ("rationale", JStr why);
        ("priority", JNum priority)].

Definition follow_ups : json :=
  JObj [("follow_up_questions",
         JArr [question "Why?" "depth" 2; question "What next?" "scope" 5])].

Definition follow_ups_text : string :=
  "{" ++ q "follow_up_questions" ++ ": [{" ++ q "question" ++ ": "
  ++ q "Why?" ++ ", " ++ q "rationale" ++ ": " ++ q "depth" ++ ", "
  ++ q "priority" ++ ": 2}, {" ++ q "question" ++ ": " ++ q "What next?"
  ++ ", " ++ q "rationale" ++ ": " ++ q "scope" ++ ", " ++ q "priority"
  ++ ": 5}]}".

Definition tool_body : json := JObj [("result", JStr "report text")].

Definition tool_body_text : string :=
  "{" ++ q "result" ++ ": " ++ q "report text" ++ "}".

(** Rankings whose scores are not all integers, or not all there. *)
Definition scored (i : Z) (score : json) (why : string) : json :=
  JObj [("index", JNum i); ("score", score); ("explanation", JStr why)].

(** 7.5 *)
Definition seven_and_a_half : json := JFloat (Finite (Qmake 15 2)).

Definition fraction_rankings : json :=
  JObj [("rankings",
         JArr [scored 1 seven_and_a_half "good"; scored 5 (JNum 9) "stray";
               scored 0 (JFloat (Finite (Qmake 9 1))) "best";
               scored 2 seven_and_a_half "fair"])].

Definition fraction_rankings_text : string :=
  "{" ++ q "rankings" ++ ": [{" ++ q "index" ++ ": 1, " ++ q "score"
  ++ ": 7.5, " ++ q "explanation" ++ ": " ++ q "good" ++ "}, {"
  ++ q "index" ++ ": 5, " ++ q "score" ++ ": 9, " ++ q "explanation"
  ++ ": " ++ q "stray" ++ "}, {" ++ q "index" ++ ": 0, " ++ q "score"
  ++ ": 9.0, " ++ q "explanation" ++ ": " ++ q "best" ++ "}, {"
  ++ q "index" ++ ": 2, " ++ q "score" ++ ": 7.5, " ++ q "explanation"
  ++ ": " ++ q "fair" ++ "}]}".

Definition nan_rankings : json :=
  JObj [("rankings",
         JArr [scored 0 (JNum 5) "low"; scored 1 (JFloat NaN) "unknown";
               scored 2 (JNum 7) "high"])].

Definition nan_rankings_text : string :=
  "{" ++ q "rankings" ++ ": [{" ++ q "index" ++ ": 0, " ++ q "score"
  ++ ": 5, " ++ q "explanation" ++ ": " ++ q "low" ++ "}, {"
  ++ q "index" ++ ": 1, " ++ q "score" ++ ": NaN, " ++ q "explanation"
  ++ ": " ++ q "unknown" ++ "}, {" ++ q "index" ++ ": 2, " ++ q "score"
  ++ ": 7, " ++ q "explanation" ++ ": " ++ q "high" ++ "}]}".

Definition unexplained_rankings : json :=
  JObj [("rankings",
         JArr [entry 1 9 "best";
               JObj [("index", JNum 0); ("score", JNum 3)]])].

Definition unexplained_rankings_text : string :=
  "{" ++ q "rankings" ++ ": [{" ++ q "index" ++ ": 1, " ++ q "score"
  ++ ": 9, " ++ q "explanation" ++ ": " ++ q "best" ++ "}, {"
  ++ q "index" ++ ": 0, " ++ q "score" ++ ": 3}]}".

(** [json.loads] on the texts above; anything else is not JSON here.
    The sort makes no exchange on keys that [<] does not order: CPython's
    leaves the scores 5, NaN, 7 of [nan_rankings] where they are. *)
Definition runtime : Runtime :=
  {| json_loads := fun s =>
       assoc s [(decide_yes_text, decide_yes); (decide_no_text, decide_no);
                (rankings_text, rankings); (evaluation_text, evaluation);
                (follow_ups_text, follow_ups); (tool_body_text, tool_body);
                (fraction_rankings_text, fraction_rankings);
                (nan_rankings_text, nan_rankings);
                (unexplained_rankings_text, unexplained_rankings)];
     json_dumps := fun v =>
       match v with
       | JObj [("result", JStr "report text")] => tool_body_text
       | _ => "null"
       end;
     repr := fun v =>
       match v with
       | JNull => "None"
       | JBool true => "True"
       | JBool false => "False"
       | JNum n => pretty n
       | _ => "..."
       end;
     sort_exchanges := fun _ => Ok [] |}.

Definition network_down : exn := Exn ExternalError "Connection error.".

(** The pipeline's services: [W] is the script still to be played. *)
Definition scripted (hits : list (list (string * string)))
  (pages : string -> outcome string) : Pipeline.Services :=
  {| Pipeline.W := list (outcome (list string));
     Pipeline.messages_create := fun _ w =>
       match w with
       | o :: rest => (o, rest)
       | [] => (Raise network_down, [])
       end;
     Pipeline.ddgs_text := fun _ _ w => (Ok hits, w);
     Pipeline.page_text := fun link w => (pages link, w) |}.

Definition hits : list (list (string * string)) :=
  [[("title", "Alpha"); ("href", "http://a.example"); ("body", "first")];
   [("title", "Beta"); ("href", "http://b.example"); ("body", "second")];
   [("title", "Gamma"); ("href", "http://c.example"); ("body", "third")]].

Definition pages (link : string) : outcome string :=
  if String.eqb link "http://b.example"
  then Raise (Exn ExternalError "404 Client Error")
  else Ok ("  Page  text " ++ nl ++ "of " ++ link).

(** A page of 16384 characters. *)
Fixpoint doubled (n : nat) (s : string) : string :=
  match n with
  | O => s
  | S k => doubled k (s ++ s)
  end.

Definition long_pages (link : string) : outcome string := Ok (doubled 14 "a").

(** The provider finds nothing. *)
Definition no_hits : Pipeline.Services := scripted [] pages.
(** The provider finds three pages. *)
Definition three_hits : Pipeline.Services := scripted hits pages.
(** Every page is long. *)
Definition long_hits : Pipeline.Services := scripted hits long_pages.

Definition results : list Pipeline.SearchResult := map Pipeline.format_hit hits.

(** The tool loop's services: [W] counts the completion calls made. *)
Definition tool_script (first : MCP.message) : MCP.Services :=
  {| MCP.W := nat;
     MCP.client_messages_create := fun _ n =>
       match n with
       | O => (Ok first, 1%nat)
       | S _ => (Ok {| MCP.content := JStr "Summary of the report.";
                       MCP.tool_use := JArr [] |}, S n)
       end;
     MCP.requests_post := fun _ _ n => (Ok tool_body, n) |}.

Definition tool_call (id name : string) : json :=
  JObj [("id", JStr id); ("name", JStr name);
        ("parameters",
         JObj [("method", JStr "read");
               ("params", JObj [("path", JStr "quarterly_report.txt")])])].

Definition asks_for (name : string) : MCP.message :=
  {| MCP.content := JStr "Let me look that up.";
     MCP.tool_use := JArr [tool_call "call_1" name] |}.

End Mock.

(** * Further vocabulary for the properties below *)

Module More.
Import Pipeline.

(** [c in s] *)
Fixpoint occurs (c : ascii) (s : string) : bool :=
  match s with
  | EmptyString => false
  | String d r => Ascii.eqb c d || occurs c r
  end.

(** A chunk of cleaned text begins and ends with a character that is not
    white space. *)
Definition trimmed (l : list ascii) : bool :=
  match l with c :: _ => negb (is_space c) | [] => false end
  && match reverse l with d :: _ => negb (is_space d) | [] => false end.

(** No character of the chunk ends a line. *)
Definition one_line (l : list ascii) : bool :=
  forallb (fun c => negb (is_linebreak c)) l.

Section Steps.
Context {sv : Services}.

(** The state a search leaves behind. *)
Definition after_search (query : string) (n : Z) (s : St) : St :=
  (snd (ddgs_text query n (fst s)), (snd s ++ [WebSearch query n])%list).

(** The state a page fetch leaves behind. *)
Definition after_fetch (link : string) (s : St) : St :=
  (snd (page_text link (fst s)), (snd s ++ [PageFetch link])%list).

(** The state after fetching the pages of [links] one after the other. *)
Fixpoint after_fetches (links : list string) (s : St) : St :=
  match links with
  | [] => s
  | link :: rest => after_fetches rest (after_fetch link s)
  end.

End Steps.

(** The link of a ranked result. *)
Definition link_of (r : RankedResult) : string := url (base r).

(** The completion requests of a trace, in order. *)
Definition completions (tr : list event) : list request :=
  omap (fun e => match e with Completion r => Some r | _ => None end) tr.

(** The pages fetched in a trace, in order. *)
Definition fetches (tr : list event) : list string :=
  omap (fun e => match e with PageFetch l => Some l | _ => None end) tr.

(** The searches of a trace, in order. *)
Definition searches (tr : list event) : list (string * Z) :=
  omap (fun e => match e with WebSearch q n => Some (q, n) | _ => None end) tr.

(** The priority a follow-up question is sorted by, [JNull] standing in
    where the lookup raises. *)
Definition priority_of (x : json) : json :=
  match getitem x "priority" with Ok p => p | Raise _ => JNull end.

(** The entry points at a valid input position. *)
Definition valid_entry (results : list SearchResult) (entry : json) : bool :=
  match PipelineSpec.valid_position results entry with
  | Some _ => true
  | None => false
  end.

(** The text [scrape_webpage] returns for a page it could not fetch. *)
Definition scrape_failure (link : string) (e : exn) : string :=
  "Failed to scrape content from " ++ link ++ ": " ++ exn_msg e.

End More.

(** * [LLM_WebSearch.py]

    The first version of the pipeline.  [search_web], [scrape_webpage],
    [get_context_from_results] and [answer_with_context] are the same
    text as in [LLM_WebSearch_Updated.py] (the latter up to a comment) and
    are taken from [Pipeline]; [rank_search_results] differs in one
    argument of the completion call, and [process_query] has neither the
    classifier nor the critic nor the follow-ups and returns the answer
    alone. *)

Module Basic.
Import Pipeline.

(** [self.client.messages.create] called with
    [response_format={"type": "json_object"}], as the ranker of this
    version does. *)
Class JsonCompletion {sv : Services} : Type := {
  messages_create_json : request -> W -> outcome (list string) * W
}.

Section Program.
Context {rt : Runtime} {sv : Services} {jc : JsonCompletion}.

Definition create_json (r : request) : M St (list string) :=
  fun s => let '(o, w') := messages_create_json r (fst s) in
           (o, (w', (snd s ++ [Completion r])%list)).

(** The body of the ranker's [try], lines 129-156. *)
Definition rank_attempt (results : list SearchResult) (query : string)
  : M St (list RankedResult) :=
  (content <- create_json (rank_request results query) ;;
   text <- lift (first_text content) ;;
   parsed <- lift (loads text) ;;
   lift (rank_parsed results parsed))%py.

Definition rank_search_results (results : list SearchResult) (query : string)
  : M St (list RankedResult) :=
  match results with
  | [] => ret []
  | _ => try_except (rank_attempt results query)
                    (fun _ => ret (map ranking_failed results))
  end.

Definition process_query (query : string) (num_search_results : Z)
  (max_context_results : Z) : M St string :=
  (search_results <- search_web query num_search_results ;;
   match search_results with
   | [] => ret "I couldn't find any relevant information on the web for your query."
   | _ =>
       ranked_results <- rank_search_results search_results query ;;
       context <- get_context_from_results ranked_results max_context_results ;;
       answer <- answer_with_context query context ;;
       ret answer
   end)%py.

End Program.

End Basic.

(** * Vocabulary for the tool loop *)

Module MoreMCP.
Import MCP.

(** A tool call as the loop needs it: it names a registered tool and has
    its [parameters] object and its [id]. *)
Definition well_formed (tool_call : json) : Prop :=
  exists tool parameters id,
    In tool tools /\
    getitem tool_call "name" = Ok (JStr (name tool)) /\
    getitem tool_call "parameters" = Ok (JObj parameters) /\
    getitem tool_call "id" = Ok id.

(** The POST a tool call stands for: the JSON-RPC envelope of its method
    and params, sent to the endpoint of the tool it names. *)
Definition expected_post (tool_call : json) : option event :=
  match lookup_tool tools tool_call, getitem tool_call "parameters" with
  | Ok tool, Ok (JObj parameters) =>
      Some (Post (server_url tool)
              (request_data (dict_get parameters "method" (JStr ""))
                            (dict_get parameters "params" (JObj []))))
  | _, _ => None
  end.

(** The completion calls of a trace. *)
Definition creates (tr : list event) : list request :=
  omap (fun e => match e with Create r => Some r | _ => None end) tr.

(** The endpoints posted to in a trace. *)
Definition posted (tr : list event) : list string :=
  omap (fun e => match e with Post endpoint _ => Some endpoint | _ => None end) tr.

Section Replay.
Context {rt : Runtime} {sv : Services}.



End Replay.

End MoreMCP.

(** * More scripted services *)

Module MockMore.

(** Further replies of the completion service. *)
Definition decide_string_text : string :=
  "{" ++ Mock.q "search_needed" ++ ": " ++ Mock.q "false" ++ ", "
  ++ Mock.q "reasoning" ++ ": " ++ Mock.q "common knowledge" ++ "}".

Definition repeated_rankings_text : string :=
  "{" ++ Mock.q "rankings" ++ ": [{" ++ Mock.q "index" ++ ": 0, "
  ++ Mock.q "score" ++ ": 4, " ++ Mock.q "explanation" ++ ": "
  ++ Mock.q "ok" ++ "}, {" ++ Mock.q "index" ++ ": 0, "
  ++ Mock.q "score" ++ ": 8, " ++ Mock.q "explanation" ++ ": "
  ++ Mock.q "again" ++ "}, {" ++ Mock.q "index" ++ ": -1, "
  ++ Mock.q "score" ++ ": 9, " ++ Mock.q "explanation" ++ ": "
  ++ Mock.q "last" ++ "}, {" ++ Mock.q "index" ++ ": 0, "
  ++ Mock.q "score" ++ ": 6, " ++ Mock.q "explanation" ++ ": "
  ++ Mock.q "third" ++ "}, {" ++ Mock.q "index" ++ ": 2, "
  ++ Mock.q "score" ++ ": 8, " ++ Mock.q "explanation" ++ ": "
  ++ Mock.q "fine" ++ "}]}".

Definition partial_evaluation_text : string :=
  "{" ++ Mock.q "evaluation" ++ ": {" ++ Mock.q "accuracy" ++ ": 8}, "
  ++ Mock.q "issues" ++ ": []}".

Definition unranked_follow_ups_text : string :=
  "{" ++ Mock.q "follow_up_questions" ++ ": [{" ++ Mock.q "question"
  ++ ": " ++ Mock.q "Why?" ++ ", " ++ Mock.q "rationale" ++ ": "
  ++ Mock.q "depth" ++ ", " ++ Mock.q "priority" ++ ": 2}, {"
  ++ Mock.q "question" ++ ": " ++ Mock.q "How?" ++ ", "
  ++ Mock.q "rationale" ++ ": " ++ Mock.q "method" ++ "}]}".

Definition fraction_follow_ups_text : string :=
  "{" ++ Mock.q "follow_up_questions" ++ ": [{" ++ Mock.q "question"
  ++ ": " ++ Mock.q "Why?" ++ ", " ++ Mock.q "rationale" ++ ": "
  ++ Mock.q "depth" ++ ", " ++ Mock.q "priority" ++ ": 2.5}, {"
  ++ Mock.q "question" ++ ": " ++ Mock.q "What next?" ++ ", "
  ++ Mock.q "rationale" ++ ": " ++ Mock.q "scope" ++ ", "
  ++ Mock.q "priority" ++ ": 4}]}".

(** A follow-up question with any priority. *)
Definition asked (text why : string) (priority : json) : json :=
  JObj [("question", JStr text); ("rationale", JStr why);
        ("priority", priority)].

Definition fraction_follow_ups : json :=
  JObj [("follow_up_questions",
         JArr [asked "Why?" "depth" (JFloat (Finite (Qmake 5 2)));
               asked "What next?" "scope" (JNum 4)])].

Definition decide_string : json :=
  JObj [("search_needed", JStr "false"); ("reasoning", JStr "common knowledge")].

Definition repeated_rankings : json :=
  JObj [("rankings",
         JArr [Mock.entry 0 4 "ok"; Mock.entry 0 8 "again";
               Mock.entry (-1) 9 "last"; Mock.entry 0 6 "third";
               Mock.entry 2 8 "fine"])].

Definition partial_evaluation : json :=
  JObj [("evaluation", JObj [("accuracy", JNum 8)]); ("issues", JArr [])].

Definition unranked_follow_ups : json :=
  JObj [("follow_up_questions",
         JArr [Mock.question "Why?" "depth" 2;
               JObj [("question", JStr "How?"); ("rationale", JStr "method")]])].

(** [json.loads] on the texts of [Mock] and on the ones above. *)
Definition runtime : Runtime :=
  {| json_loads := fun s =>
       match json_loads (Runtime:=Mock.runtime) s with
       | Some v => Some v
       | None =>
           assoc s [(decide_string_text, decide_string);
                    (repeated_rankings_text, repeated_rankings);
                    (partial_evaluation_text, partial_evaluation);
                    (unranked_follow_ups_text, unranked_follow_ups);
                    (fraction_follow_ups_text, fraction_follow_ups)]
       end;
     json_dumps := json_dumps (Runtime:=Mock.runtime);
     repr := repr (Runtime:=Mock.runtime);
     sort_exchanges := sort_exchanges (Runtime:=Mock.runtime) |}.

(** The search provider is down. *)
Definition search_down : Pipeline.Services :=
  {| Pipeline.W := list (outcome (list string));
     Pipeline.messages_create :=
       Pipeline.messages_create (Services:=Mock.three_hits);
     Pipeline.ddgs_text := fun _ _ w =>
       (Raise (Exn ExternalError "Ratelimit"), w);
     Pipeline.page_text := Pipeline.page_text (Services:=Mock.three_hits) |}.

(** The first page holds white space only. *)
Definition blank_pages (link : string) : outcome string :=
  if String.eqb link "http://a.example"
  then Ok ("   " ++ nl ++ "  " ++ nl)
  else Mock.pages link.

Definition blank_first : Pipeline.Services := Mock.scripted Mock.hits blank_pages.

Definition ranked (title link : string) (score : Z) : Pipeline.RankedResult :=
  {| Pipeline.base := {| Pipeline.title := title; Pipeline.url := link;
                         Pipeline.snippet := "" |};
     Pipeline.relevance_score := JNum score;
     Pipeline.explanation := JStr "" |}.

Definition four_ranked : list Pipeline.RankedResult :=
  [ranked "Alpha" "http://a.example" 9; ranked "Beta" "http://b.example" 8;
   ranked "Gamma" "http://c.example" 7; ranked "Delta" "http://d.example" 6].

(** The ranker of the first version is served from the same script. *)
Definition json_from_script : Basic.JsonCompletion (sv:=Mock.three_hits) :=
  @Basic.Build_JsonCompletion Mock.three_hits
    (fun _ (w : list (outcome (list string))) =>
       match w with
       | o :: rest => (o, rest)
       | [] => (Raise Mock.network_down, [])
       end).

(** Tool services whose endpoints are down. *)
Definition endpoints_down (first : MCP.message) : MCP.Services :=
  {| MCP.W := nat;
     MCP.client_messages_create :=
       MCP.client_messages_create (Services:=Mock.tool_script first);
     MCP.requests_post := fun _ _ n =>
       (Raise (Exn ExternalError "Connection refused"), n) |}.

(** A model that asks for the same tool in every response. *)
Definition always_asks : MCP.Services :=
  {| MCP.W := nat;
     MCP.client_messages_create := fun _ n => (Ok (Mock.asks_for "database"), S n);
     MCP.requests_post := fun _ _ n => (Ok Mock.tool_body, n) |}.

Definition plain_answer : MCP.message :=
  {| MCP.content := JStr "Paris."; MCP.tool_use := JArr [] |}.

Definition call_without_id : json :=
  JObj [("name", JStr "file_system");
        ("parameters", JObj [("method", JStr "delete")])].

Definition call_with_bad_parameters : json :=
  JObj [("id", JStr "call_1"); ("name", JStr "database");
        ("parameters", JStr "SELECT 1")].

Definition asks (tool_calls : list json) : MCP.message :=
  {| MCP.content := JStr "Working on it."; MCP.tool_use := JArr tool_calls |}.

End MockMore.
(** * Properties *)

(** ** Strings *)

Example search_braces_ex1 :
  search_braces "Sure: {a: {b}} done } x" = Some "{a: {b}} done }".
Proof. reflexivity. Qed.

Example search_braces_ex2 : search_braces "} no { match" = None.
Proof. reflexivity. Qed.

Example clean_text_ex :
  clean_text ("  Title  " ++ nl ++ nl ++ "a  b   c " ++ nl) =
  "Title" ++ nl ++ "a" ++ nl ++ "b" ++ nl ++ "c".
Proof. reflexivity. Qed.

Example slice_to_ex : slice_to 3 "abcdef" = "abc" /\ slice_to (-2) "abcdef" = "abcd".
Proof. split; reflexivity. Qed.

(** ** The order of the sort keys *)

Lemma string_compare_refl (s : string) : String.compare s s = Eq.
Proof.
  induction s as [|c s IH]; simpl; [reflexivity|].
  unfold Ascii.compare. rewrite N.compare_refl. exact IH.
Qed.

Lemma string_compare_lt_trans (a b c : string) :
  String.compare a b = Lt -> String.compare b c = Lt -> String.compare a c = Lt.
Proof.
  revert b c. induction a as [|x a IH]; intros [|y b] [|z c]; simpl; try congruence.
  unfold Ascii.compare.
  destruct (N.compare_spec (N_of_ascii x) (N_of_ascii y)) as [Hxy|Hxy|Hxy];
    destruct (N.compare_spec (N_of_ascii y) (N_of_ascii z)) as [Hyz|Hyz|Hyz];
    try congruence; intros H1 H2.
  - rewrite Hxy, Hyz, N.compare_refl. eauto.
  - rewrite Hxy. apply N.compare_lt_iff in Hyz. rewrite Hyz. reflexivity.
  - rewrite <- Hyz. apply N.compare_lt_iff in Hxy. rewrite Hxy. reflexivity.
  - assert (Hxz : (N_of_ascii x < N_of_ascii z)%N) by lia.
    apply N.compare_lt_iff in Hxz. rewrite Hxz. reflexivity.
Qed.

Lemma string_ltb_irrefl (s : string) : String.ltb s s = false.
Proof. unfold String.ltb. rewrite string_compare_refl. reflexivity. Qed.

Lemma string_ltb_asym (a b : string) :
  String.ltb a b = true -> String.ltb b a = false.
Proof.
  unfold String.ltb. rewrite (String.compare_antisym b a).
  destruct (String.compare a b); simpl; congruence.
Qed.

(** [>=] on strings is transitive. *)
Lemma string_geb_trans (a b c : string) :
  String.ltb a b = false -> String.ltb b c = false -> String.ltb a c = false.
Proof.
  unfold String.ltb. intros Hab Hbc.
  destruct (String.compare a c) eqn:Hac; try reflexivity.
  destruct (String.compare a b) eqn:Eab; try discriminate.
  - apply String.compare_eq_iff in Eab. subst b. rewrite Hac in Hbc. discriminate.
  - destruct (String.compare b c) eqn:Ebc; try discriminate.
    + apply String.compare_eq_iff in Ebc. subst c. congruence.
    + (* a > b, b > c, a < c *)
      assert (Hca : String.compare c a = Gt)
        by (rewrite String.compare_antisym, Hac; reflexivity).
      assert (Hba : String.compare b a = Lt)
        by (rewrite String.compare_antisym, Eab; reflexivity).
      assert (Hcb : String.compare c b = Lt)
        by (rewrite String.compare_antisym, Ebc; reflexivity).
      pose proof (string_compare_lt_trans _ _ _ Hcb Hba). congruence.
Qed.

(** ** Numbers *)

Lemma float_lt_ints (a b : Z) :
  float_lt (Finite (inject_Z a)) (Finite (inject_Z b)) = (a <? b)%Z.
Proof.
  unfold float_lt, float_value, Qcompare, inject_Z. cbn [Qnum Qden].
  rewrite !Z.mul_1_r. unfold Z.ltb. reflexivity.
Qed.

Lemma float_le_ints (a b : Z) :
  float_le (Finite (inject_Z a)) (Finite (inject_Z b)) = (a <=? b)%Z.
Proof.
  unfold float_le, float_value, Qcompare, inject_Z. cbn [Qnum Qden].
  rewrite !Z.mul_1_r. unfold Z.leb. reflexivity.
Qed.

Lemma as_int_number (v : json) (n : Z) :
  as_int v = Some n -> as_number v = Some (Finite (inject_Z n)).
Proof.
  destruct v as [|[]| | | | |]; simpl; intros [= <-]; reflexivity.
Qed.

Lemma py_lt_numbers (a b : json) (x y : float) :
  as_number a = Some x -> as_number b = Some y ->
  py_lt a b = Ok (float_lt x y).
Proof.
  intros Ha Hb. unfold py_lt.
  destruct a; cbn [compare_with]; rewrite Ha, Hb; reflexivity.
Qed.

Lemma py_le_numbers (a b : json) (x y : float) :
  as_number a = Some x -> as_number b = Some y ->
  py_le a b = Ok (float_le x y).
Proof.
  intros Ha Hb. unfold py_le.
  destruct a; cbn [compare_with]; rewrite Ha, Hb; reflexivity.
Qed.

(** On integers (and booleans) [<] and [<=] are those of the integers. *)
Lemma py_lt_ints (a b : json) (x y : Z) :
  as_int a = Some x -> as_int b = Some y -> py_lt a b = Ok (x <? y)%Z.
Proof.
  intros Ha Hb.
  rewrite (py_lt_numbers _ _ _ _ (as_int_number _ _ Ha) (as_int_number _ _ Hb)).
  rewrite float_lt_ints. reflexivity.
Qed.

Lemma py_le_ints (a b : json) (x y : Z) :
  as_int a = Some x -> as_int b = Some y -> py_le a b = Ok (x <=? y)%Z.
Proof.
  intros Ha Hb.
  rewrite (py_le_numbers _ _ _ _ (as_int_number _ _ Ha) (as_int_number _ _ Hb)).
  rewrite float_le_ints. reflexivity.
Qed.

Lemma Qcompare_not_lt (p q : Q) :
  match Qcompare p q with Lt => true | _ => false end = false <-> Qle q p.
Proof.
  rewrite Qle_alt. rewrite <- (Qcompare_antisym p q).
  destruct (Qcompare p q); simpl; split; intros H; congruence.
Qed.

Lemma Qcompare_lt (p q : Q) :
  match Qcompare p q with Lt => true | _ => false end = true <-> Qlt p q.
Proof.
  rewrite Qlt_alt. destruct (Qcompare p q); split; congruence.
Qed.

Lemma float_lt_asym (x y : float) : float_lt x y = true -> float_lt y x = false.
Proof.
  destruct x as [|[]| |p], y as [|[]| |q]; cbn; try congruence;
    rewrite ?Qcompare_lt, ?Qcompare_not_lt; intros H;
    try (apply Qlt_le_weak; exact H).
Qed.

Lemma float_ge_trans (x y z : float) :
  y <> NaN ->
  float_lt x y = false -> float_lt y z = false -> float_lt x z = false.
Proof.
  destruct x as [|[]| |p], y as [|[]| |q], z as [|[]| |r]; cbn;
    try congruence;
    rewrite ?Qcompare_not_lt; intros _ H1 H2;
    try (eapply Qle_trans; eassumption).
Qed.

(** ** Keys in one order *)

Lemma below_not_below (a b : json) : below a b = false <-> py_lt a b <> Ok true.
Proof.
  unfold below. destruct (py_lt a b) as [[]|]; split; congruence.
Qed.

Lemma tie_below (a b : json) :
  tie a b = true -> below a b = false /\ below b a = false.
Proof.
  unfold tie, below.
  destruct (py_lt a b) as [[]|], (py_lt b a) as [[]|]; try discriminate; auto.
Qed.

Lemma below_tie (a b : json) :
  returned (py_lt a b) = true -> returned (py_lt b a) = true ->
  below a b = false -> below b a = false -> tie a b = true.
Proof.
  unfold tie, below.
  destruct (py_lt a b) as [[]|], (py_lt b a) as [[]|]; simpl; congruence.
Qed.

(** What [ordered] checks, read off for the keys of the list. *)
Lemma ordered_In (keys : list json) :
  ordered keys = true <->
  forall a b, In a keys -> In b keys ->
    returned (py_lt a b) = true /\
    (below a b = true -> below b a = false) /\
    forall c, In c keys ->
      below a b = false -> below b c = false -> below a c = false.
Proof.
  unfold ordered. rewrite forallb_forall. split.
  - intros H a b Ha Hb. specialize (H a Ha). rewrite forallb_forall in H.
    specialize (H b Hb). apply andb_prop in H. destruct H as [H Hneg].
    apply andb_prop in H. destruct H as [Hret Hasym].
    split; [exact Hret|]. split.
    + intros Hab. rewrite Hab in Hasym. simpl in Hasym.
      apply negb_true_iff in Hasym. exact Hasym.
    + intros c Hc Hab Hbc. rewrite forallb_forall in Hneg.
      specialize (Hneg c Hc). rewrite Hab, Hbc in Hneg. simpl in Hneg.
      apply negb_true_iff in Hneg. exact Hneg.
  - intros H a Ha. rewrite forallb_forall. intros b Hb.
    destruct (H a b Ha Hb) as (Hret & Hasym & Hneg).
    rewrite Hret. simpl. apply andb_true_intro. split.
    + destruct (below a b) eqn:Hab; [|reflexivity].
      rewrite (Hasym eq_refl). reflexivity.
    + rewrite forallb_forall. intros c Hc.
      destruct (below a b) eqn:Hab; [reflexivity|].
      destruct (below b c) eqn:Hbc; [reflexivity|].
      simpl. rewrite (Hneg c Hc eq_refl Hbc). reflexivity.
Qed.

Lemma ordered_perm (keys keys' : list json) :
  Permutation keys keys' -> ordered keys = true -> ordered keys' = true.
Proof.
  intros Hp. rewrite !ordered_In. intros H a b Ha Hb.
  apply (Permutation_in _ (Permutation_sym Hp)) in Ha, Hb.
  destruct (H a b Ha Hb) as (Hret & Hasym & Hneg).
  split; [exact Hret|]. split; [exact Hasym|].
  intros c Hc. apply Hneg. apply (Permutation_in _ (Permutation_sym Hp)). exact Hc.
Qed.

(** Numbers other than [NaN] are in one order, whether [int], [bool] or
    [float]; so are strings. *)
Lemma real_numbers_ordered (keys : list json) :
  Forall (fun v => real_number v = true) keys -> ordered keys = true.
Proof.
  intros Hall. rewrite List.Forall_forall in Hall. apply ordered_In.
  assert (Hnum : forall v, In v keys ->
            exists x, as_number v = Some x /\ x <> NaN).
  { intros v Hv. specialize (Hall v Hv). unfold real_number in Hall.
    destruct (as_number v) as [[]|]; try discriminate; eexists; split;
      try reflexivity; discriminate. }
  intros a b Ha Hb.
  destruct (Hnum a Ha) as (x & Hx & Hxn), (Hnum b Hb) as (y & Hy & Hyn).
  unfold below. rewrite (py_lt_numbers _ _ _ _ Hx Hy), (py_lt_numbers _ _ _ _ Hy Hx).
  split; [reflexivity|]. split.
  - intros Hab. destruct (float_lt x y) eqn:Hxy; [|discriminate].
    rewrite (float_lt_asym _ _ Hxy). reflexivity.
  - intros c Hc. destruct (Hnum c Hc) as (z & Hz & Hzn).
    rewrite (py_lt_numbers _ _ _ _ Hy Hz), (py_lt_numbers _ _ _ _ Hx Hz).
    intros Hab Hbc.
    destruct (float_lt x y) eqn:Hxy; [discriminate|].
    destruct (float_lt y z) eqn:Hyz; [discriminate|].
    rewrite (float_ge_trans _ _ _ Hyn Hxy Hyz). reflexivity.
Qed.

Lemma strings_ordered (keys : list json) :
  Forall (fun v => exists s, v = JStr s) keys -> ordered keys = true.
Proof.
  intros Hall. rewrite List.Forall_forall in Hall. apply ordered_In.
  intros a b Ha Hb.
  destruct (Hall a Ha) as [s ->], (Hall b Hb) as [t ->].
  unfold below, py_lt. cbn. split; [reflexivity|]. split.
  - intros Hab. destruct (String.ltb s t) eqn:Hst; [|discriminate].
    rewrite (string_ltb_asym _ _ Hst). reflexivity.
  - intros c Hc. destruct (Hall c Hc) as [u ->]. cbn. intros Hab Hbc.
    destruct (String.ltb s t) eqn:Hst; [discriminate|].
    destruct (String.ltb t u) eqn:Htu; [discriminate|].
    rewrite (string_geb_trans _ _ _ Hst Htu). reflexivity.
Qed.

(** ** The sort *)

Lemma exchange_perm {A} (l : list A) (ij : nat * nat) :
  Permutation l (exchange l ij).
Proof.
  unfold exchange. destruct ij as [i j]. cbn [fst snd].
  destruct (l !! i) as [a|] eqn:Hi; [|reflexivity].
  destruct (l !! j) as [b|] eqn:Hj; [|reflexivity].
  destruct (decide (i = j)) as [->|Hne].
  - rewrite list_insert_insert_eq.
    assert (a = b) by congruence. subst b.
    rewrite list_insert_id by exact Hi. reflexivity.
  - apply Permutation_inj. split.
    + rewrite !length_insert. reflexivity.
    + exists (fun k => if decide (k = i) then j else if decide (k = j) then i else k).
      split.
      * intros k1 k2. repeat case_decide; congruence.
      * intros k. repeat case_decide; subst.
        -- rewrite list_lookup_insert_eq; [exact Hi|].
           rewrite length_insert. eapply lookup_lt_Some. exact Hj.
        -- rewrite list_lookup_insert_ne by congruence.
           rewrite list_lookup_insert_eq; [exact Hj|].
           eapply lookup_lt_Some. exact Hi.
        -- rewrite !list_lookup_insert_ne by congruence. reflexivity.
Qed.

Lemma exchanged_perm {A} (swaps : list (nat * nat)) (l : list A) :
  Permutation l (exchanged swaps l).
Proof.
  unfold exchanged. revert l.
  induction swaps as [|ij swaps IH]; intros l; cbn [fold_left]; [reflexivity|].
  rewrite <- IH. apply exchange_perm.
Qed.

Section SortFacts.
Context {rt : Runtime} {A : Type} (key : A -> json).

Lemma place_desc_perm (x : A) (acc : list A) :
  Permutation (x :: acc) (place_desc key x acc).
Proof.
  induction acc as [|y ys IH]; simpl; [reflexivity|].
  destruct (below (key x) (key y)); [|reflexivity].
  rewrite perm_swap. apply perm_skip. exact IH.
Qed.

Lemma sorted_desc_perm (l : list A) : Permutation l (sorted_desc key l).
Proof.
  induction l as [|x xs IH]; simpl; [reflexivity|].
  rewrite <- place_desc_perm. apply perm_skip. exact IH.
Qed.

(** Whatever the keys, the sort rearranges and neither drops nor adds. *)
Lemma sort_desc_perm (l r : list A) :
  sort_desc key l = Ok r -> Permutation l r.
Proof.
  unfold sort_desc.
  destruct ((length l <? 2)%nat || ordered (map key l)).
  - intros [= <-]. apply sorted_desc_perm.
  - destruct (sort_exchanges (map key l)) as [swaps|e]; simpl; [|discriminate].
    intros [= <-]. apply exchanged_perm.
Qed.

Section Ordered.
Variable keys : list json.
Hypothesis Hordered : ordered keys = true.

Let keyed (l : list A) : Prop := Forall (fun a => In (key a) keys) l.

Lemma place_desc_sorted (x : A) (acc : list A) :
  In (key x) keys -> keyed acc ->
  StronglySorted (not_below key) acc ->
  StronglySorted (not_below key) (place_desc key x acc).
Proof.
  intros Hx. induction acc as [|y ys IH]; simpl; intros Hk Hs.
  - repeat constructor.
  - apply StronglySorted_inv in Hs. destruct Hs as [Hys Hall].
    inversion Hk as [|? ? Hy Hk']; subst.
    destruct (proj1 (ordered_In keys) Hordered _ _ Hx Hy) as (_ & Hasym & Hneg).
    destruct (below (key x) (key y)) eqn:Hxy.
    + constructor; [apply IH; assumption|].
      apply (Permutation_Forall (place_desc_perm x ys)).
      constructor; [|exact Hall].
      apply below_not_below, Hasym. reflexivity.
    + constructor; [constructor; assumption|].
      constructor; [apply below_not_below; exact Hxy|].
      rewrite List.Forall_forall in Hall, Hk'. apply List.Forall_forall.
      intros z Hz. apply below_not_below.
      apply (Hneg _ (Hk' z Hz) eq_refl). apply below_not_below. apply Hall, Hz.
Qed.

Lemma sorted_desc_sorted (l : list A) :
  keyed l -> StronglySorted (not_below key) (sorted_desc key l).
Proof.
  induction l as [|x xs IH]; simpl; intros Hk; [constructor|].
  inversion Hk; subst. apply place_desc_sorted; auto.
  apply (Permutation_Forall (sorted_desc_perm xs)). assumption.
Qed.

(** Items whose keys tie with [v] keep their order. *)
Lemma place_desc_stable (v : json) (x : A) (acc : list A) :
  In v keys -> In (key x) keys -> keyed acc ->
  List.filter (fun a => tie v (key a)) (place_desc key x acc) =
  List.filter (fun a => tie v (key a)) (x :: acc).
Proof.
  intros Hv Hx. induction acc as [|y ys IH]; intros Hk; [reflexivity|].
  inversion Hk as [|? ? Hy Hk']; subst.
  cbn [place_desc]. destruct (below (key x) (key y)) eqn:Hxy; [|reflexivity].
  cbn [List.filter] in *. rewrite (IH Hk').
  destruct (tie v (key x)) eqn:Hvx; [|reflexivity].
  destruct (tie v (key y)) eqn:Hvy; [|reflexivity].
  exfalso. apply tie_below in Hvx, Hvy.
  destruct Hvx as [_ Hxv], Hvy as [Hvy _].
  destruct (proj1 (ordered_In keys) Hordered _ _ Hx Hv) as (_ & _ & Hneg).
  rewrite (Hneg _ Hy Hxv Hvy) in Hxy. discriminate.
Qed.

Lemma sorted_desc_stable (v : json) (l : list A) :
  In v keys -> keyed l ->
  List.filter (fun a => tie v (key a)) (sorted_desc key l) =
  List.filter (fun a => tie v (key a)) l.
Proof.
  intros Hv. induction l as [|x xs IH]; intros Hk; [reflexivity|].
  inversion Hk; subst.
  cbn [sorted_desc]. rewrite place_desc_stable; auto.
  - cbn [List.filter]. rewrite IH by assumption. reflexivity.
  - apply (Permutation_Forall (sorted_desc_perm xs)). assumption.
Qed.

End Ordered.

(** With keys in one order the sort returns, and what it returns is the
    stable rearrangement in non-increasing key order. *)
Lemma sort_desc_spec (l : list A) :
  ordered (map key l) = true ->
  exists r,
    sort_desc key l = Ok r /\
    Permutation l r /\
    StronglySorted (not_below key) r /\
    forall x, In x l ->
      List.filter (fun a => tie (key x) (key a)) r =
      List.filter (fun a => tie (key x) (key a)) l.
Proof.
  intros Hord. exists (sorted_desc key l).
  assert (Hk : Forall (fun a => In (key a) (map key l)) l).
  { apply List.Forall_forall. intros a Ha. apply in_map. exact Ha. }
  split; [|split; [|split]].
  - unfold sort_desc. rewrite Hord, orb_true_r. reflexivity.
  - apply sorted_desc_perm.
  - apply (sorted_desc_sorted _ Hord). exact Hk.
  - intros x Hx. apply (sorted_desc_stable _ Hord); [|exact Hk].
    apply in_map. exact Hx.
Qed.

End SortFacts.

(** * The answer pipeline *)

Module PipelineFacts.
Import Pipeline PipelineSpec.

Section Facts.
Context {rt : Runtime} {sv : Services}.

Ltac run_create :=
  unfold bind, lift, ret, create, reply, after_completion; simpl;
  destruct (messages_create _ _) as [[content|e] w']; simpl;
  [destruct content as [|text rest]; simpl|]; try reflexivity.

(** ** Each [try] body as a function of the service's reply *)

Lemma decide_attempt_reply (query : string) (s : St) :
  decide_attempt query s =
  ((text <~ reply (decide_request query) (fst s) ;;
    decision <~ loads (json_part text) ;;
    search_needed <~ getitem decision "search_needed" ;;
    reasoning <~ getitem decision "reasoning" ;;
    Ok (search_needed, reasoning))%py,
   after_completion (decide_request query) s).
Proof.
  unfold decide_attempt. run_create.
  fold (json_part text). destruct (loads (json_part text)) as [d|e]; simpl; [|reflexivity].
  destruct (getitem d "search_needed"); simpl; [|reflexivity].
  destruct (getitem d "reasoning"); reflexivity.
Qed.

Lemma evaluate_attempt_reply (query answer context : string) (s : St) :
  evaluate_attempt query answer context s =
  ((text <~ reply (evaluate_request query answer context) (fst s) ;;
    loads text)%py,
   after_completion (evaluate_request query answer context) s).
Proof.
  unfold evaluate_attempt. run_create.
  destruct (loads text); reflexivity.
Qed.

Lemma rank_attempt_reply (results : list SearchResult) (query : string) (s : St) :
  rank_attempt results query s =
  ((text <~ reply (rank_request results query) (fst s) ;;
    parsed <~ loads text ;;
    rank_parsed results parsed)%py,
   after_completion (rank_request results query) s).
Proof.
  unfold rank_attempt. run_create.
  destruct (loads text) as [p|e]; simpl; [|reflexivity].
  destruct (rank_parsed results p); reflexivity.
Qed.

Lemma loads_None (text : string) :
  json_loads text = None -> exists e, loads text = Raise e.
Proof. unfold loads. intros ->. eauto. Qed.

Lemma loads_Some (text : string) (v : json) :
  json_loads text = Some v -> loads text = Ok v.
Proof. unfold loads. intros ->. reflexivity. Qed.

(** ** The failure conditions are exactly the ways a [try] body raises *)

Lemma classifier_fails_iff (query : string) (s : St) :
  classifier_fails query (fst s) <->
  exists e, fst (decide_attempt query s) = Raise e.
Proof.
  rewrite decide_attempt_reply. cbn [fst]. split.
  - intros [e He|text Ht Hj|text d k e Ht Hj Hk He].
    + rewrite He. simpl. eauto.
    + rewrite Ht. simpl. destruct (loads_None _ Hj) as [e ->]. simpl. eauto.
    + rewrite Ht. simpl. rewrite (loads_Some _ _ Hj). simpl.
      destruct Hk as [-> | ->].
      * rewrite He. simpl. eauto.
      * rewrite He. destruct (getitem d "search_needed"); simpl; eauto.
  - intros [e He].
    destruct (reply (decide_request query) (fst s)) as [text|e'] eqn:Ht.
    2: { eapply classifier_call_fails; eauto. }
    simpl in He. unfold loads in He.
    destruct (json_loads (json_part text)) as [d|] eqn:Hj.
    2: { eapply classifier_json_malformed; eauto. }
    simpl in He.
    destruct (getitem d "search_needed") as [v|e1] eqn:H1.
    2: { eapply (classifier_key_missing _ _ text d "search_needed"); eauto. }
    simpl in He.
    destruct (getitem d "reasoning") as [v2|e2] eqn:H2; [discriminate|].
    eapply (classifier_key_missing _ _ text d "reasoning"); eauto.
Qed.

Lemma critic_fails_iff (query answer context : string) (s : St) :
  critic_fails query answer context (fst s) <->
  exists e, fst (evaluate_attempt query answer context s) = Raise e.
Proof.
  rewrite evaluate_attempt_reply. cbn [fst]. split.
  - intros [e He|text Ht Hj]; rewrite ?He, ?Ht; simpl.
    + eauto.
    + apply loads_None. exact Hj.
  - intros [e He].
    destruct (reply _ (fst s)) as [text|e'] eqn:Ht;
      [|eapply critic_call_fails; eauto].
    simpl in He. unfold loads in He.
    destruct (json_loads text) as [d|] eqn:Hj;
      [discriminate|eapply critic_json_malformed; eauto].
Qed.

Lemma ranker_fails_iff (results : list SearchResult) (query : string) (s : St) :
  ranker_fails results query (fst s) <->
  exists e, fst (rank_attempt results query s) = Raise e.
Proof.
  rewrite rank_attempt_reply. cbn [fst]. split.
  - intros [e He|text Ht Hj|text p e Ht Hj He]; rewrite ?He, ?Ht; simpl.
    + eauto.
    + destruct (loads_None _ Hj) as [e ->]. simpl. eauto.
    + rewrite (loads_Some _ _ Hj). simpl. rewrite He. eauto.
  - intros [e He].
    destruct (reply _ (fst s)) as [text|e'] eqn:Ht;
      [|eapply ranker_call_fails; eauto].
    simpl in He. unfold loads in He.
    destruct (json_loads text) as [p|] eqn:Hj;
      [|eapply ranker_json_malformed; eauto].
    simpl in He. eapply ranker_response_unusable; eauto.
Qed.

(** ** The degraded results *)

(** C8: when the critic's completion call or the parsing of its reply
    fails, [evaluate_and_refine_answer] returns the five scores at 5, the
    single issue "Error in evaluation process" and the draft answer as
    [refined_answer]. *)
Theorem evaluate_failure_keeps_draft (query answer context : string) (s : St) :
  critic_fails query answer context (fst s) ->
  exists v,
    fst (evaluate_and_refine_answer query answer context s) = Ok v /\
    getitem v "evaluation" =
      Ok (JObj [("accuracy", JNum 5); ("completeness", JNum 5);
                ("clarity", JNum 5); ("conciseness", JNum 5);
                ("evidence", JNum 5)]) /\
    (forall dim,
        In dim ["accuracy"; "completeness"; "clarity"; "conciseness"; "evidence"] ->
        (scores <~ getitem v "evaluation" ;; getitem scores dim)%py = Ok (JNum 5)) /\
    getitem v "issues" = Ok (JArr [JStr "Error in evaluation process"]) /\
    getitem v "refined_answer" = Ok (JStr answer).
Proof.
  intros Hfail. apply critic_fails_iff in Hfail. destruct Hfail as [e He].
  exists (evaluate_default answer). split; [|split; [|split; [|split]]].
  - unfold evaluate_and_refine_answer, try_except.
    destruct (evaluate_attempt query answer context s) as [[v|e'] s1];
      simpl in He; [discriminate|reflexivity].
  - reflexivity.
  - intros dim Hin. simpl in Hin.
    destruct Hin as [<-|[<-|[<-|[<-|[<-|[]]]]]]; reflexivity.
  - reflexivity.
  - reflexivity.
Qed.

(** C7: when the ranking call or the reading of its reply fails, a
    non-empty input comes back item for item, in the input order, each
    item with [relevance_score] 5 and [explanation] "Ranking failed". *)
Theorem rank_failure_keeps_input (results : list SearchResult) (query : string)
  (s : St) :
  results <> [] ->
  ranker_fails results query (fst s) ->
  exists out,
    fst (rank_search_results results query s) = Ok out /\
    length out = length results /\
    forall (i : nat) (result : SearchResult),
      results !! i = Some result ->
      out !! i = Some {| base := result;
                         relevance_score := JNum 5;
                         explanation := JStr "Ranking failed" |}.
Proof.
  intros Hne Hfail. apply ranker_fails_iff in Hfail. destruct Hfail as [e He].
  exists (map ranking_failed results). split; [|split].
  - destruct results as [|r0 rest]; [congruence|].
    unfold rank_search_results, try_except.
    destruct (rank_attempt (r0 :: rest) query s) as [[v|e'] s1];
      simpl in He; [discriminate|reflexivity].
  - apply length_map.
  - intros i result Hi. rewrite list_lookup_fmap, Hi. reflexivity.
Qed.

(** ** What each stage leaves in the result *)

Lemma decide_on_failure (query : string) (s : St) :
  classifier_fails query (fst s) ->
  decide_if_search_needed query s =
  (Ok decide_default, after_completion (decide_request query) s).
Proof.
  intros Hfail. apply classifier_fails_iff in Hfail. destruct Hfail as [e He].
  unfold decide_if_search_needed, try_except.
  pose proof (decide_attempt_reply query s) as Hr.
  destruct (decide_attempt query s) as [[v|e'] s1]; simpl in He; [discriminate|].
  inversion Hr. reflexivity.
Qed.

Lemma follow_up_step_result (query : string) (result r : gmap string json)
  (s s' : St) :
  follow_up_step query result s = (Ok r, s') ->
  exists follow_ups, r = <["follow_up_questions" := follow_ups]> result.
Proof.
  unfold follow_up_step. destruct (result !! "answer") as [a|]; [|discriminate].
  unfold bind, ret.
  destruct (generate_follow_up_questions query a s) as [[f|e] s1]; [|discriminate].
  intros [= <- _]. eauto.
Qed.

Lemma searched_branch_result (query : string) (m : Z)
  (search_results : list SearchResult) (result r : gmap string json) (s s' : St) :
  searched_branch query m search_results result s = (Ok r, s') ->
  exists initial_answer scores issues refined context,
    r = <["context" := JStr context]>
        (<["answer" := refined]>
        (<["refined_answer" := refined]>
        (<["issues" := issues]>
        (<["evaluation" := scores]>
        (<["initial_answer" := JStr initial_answer]> result))))).
Proof.
  unfold searched_branch, bind, lift, ret.
  destruct (rank_search_results search_results query s) as [[ranked|e] s1];
    [|discriminate].
  destruct (get_context_from_results ranked m s1) as [[context|e] s2];
    [|discriminate].
  destruct (answer_with_context query context s2) as [[initial|e] s3];
    [|discriminate].
  destruct (evaluate_and_refine_answer query initial context s3)
    as [[evaluation|e] s4]; [|discriminate].
  destruct (getitem evaluation "evaluation") as [scores|e]; [|discriminate].
  destruct (getitem evaluation "issues") as [issues|e]; [|discriminate].
  destruct (getitem evaluation "refined_answer") as [refined|e]; [|discriminate].
  intros [= <- _]. eauto 10.
Qed.

(** C3: when the classifier's call, the parsing of its reply or a key
    lookup fails, [decide_if_search_needed] returns
    (True, "Error in decision process, defaulting to search"), and every
    result [process_query] then returns has [search_performed] set. *)
Theorem classifier_fails_open (query : string) (s : St) :
  classifier_fails query (fst s) ->
  fst (decide_if_search_needed query s) =
    Ok (JBool true, JStr "Error in decision process, defaulting to search") /\
  forall (num_search_results max_context_results : Z)
         (r : gmap string json) (s' : St),
    process_query query num_search_results max_context_results s = (Ok r, s') ->
    r !! "search_performed" = Some (JBool true).
Proof.
  intros Hfail. pose proof (decide_on_failure query s Hfail) as Hd.
  split; [rewrite Hd; reflexivity|].
  intros n m r s'. unfold process_query. unfold bind at 1. rewrite Hd.
  cbn [fst snd decide_default truthy].
  unfold bind at 1.
  destruct (search_web query n _) as [[results|e] s1]; [|discriminate].
  destruct results as [|r0 rest].
  - unfold ret. intros [= <- _]. reflexivity.
  - unfold bind.
    destruct (searched_branch _ _ _ _ _) as [[r1|e] s2] eqn:Hb; [|discriminate].
    intros Hf. apply searched_branch_result in Hb.
    destruct Hb as (ia & sc & iss & ref & ctx & ->).
    apply follow_up_step_result in Hf. destruct Hf as [f ->].
    reflexivity.
Qed.

(** ** The ranking loop against the entries it keeps *)

Lemma attach_resolved (results : list SearchResult) (entry : json)
  (o : option RankedResult) :
  attach results entry = Ok o -> o = resolved results entry.
Proof.
  unfold attach, resolved, valid_position.
  destruct (getitem entry "index") as [idx|e]; cbn [obind]; [|discriminate].
  destruct (as_int idx) as [i|] eqn:Hi.
  - rewrite (py_le_ints (JNum 0) idx 0 i eq_refl Hi). cbn [obind].
    destruct (0 <=? i)%Z eqn:Hlo; cbn [andb].
    2: { intros [= <-]. reflexivity. }
    rewrite (py_lt_ints idx (JNum (Z.of_nat (length results))) i _ Hi eq_refl).
    cbn [obind].
    destruct (i <? Z.of_nat (length results))%Z eqn:Hhi.
    2: { intros [= <-]. reflexivity. }
    destruct (results !! Z.to_nat i) as [result|] eqn:Hr; [|discriminate].
    destruct (getitem entry "score") as [score|e]; cbn [obind]; [|discriminate].
    destruct (getitem entry "explanation") as [expl|e]; cbn [obind];
      [|discriminate].
    intros [= <-]. reflexivity.
  - destruct idx as [|[]|n|f|t|l|kvs]; try discriminate Hi; try discriminate.
    rewrite (py_le_numbers (JNum 0) (JFloat f) _ f eq_refl eq_refl).
    cbn [obind]. destruct (float_le _ f); [|intros [= <-]; reflexivity].
    rewrite (py_lt_numbers (JFloat f) (JNum (Z.of_nat (length results))) f _
               eq_refl eq_refl).
    cbn [obind]. destruct (float_lt f _); [discriminate|].
    intros [= <-]. reflexivity.
Qed.

Lemma attach_all_resolve (results : list SearchResult) (entries : list json)
  (kept : list RankedResult) :
  attach_all results entries = Ok kept -> kept = resolve results entries.
Proof.
  revert kept. induction entries as [|entry rest IH]; simpl; intros kept.
  - intros [= <-]. reflexivity.
  - destruct (attach results entry) as [o|e] eqn:Ha; simpl; [|discriminate].
    destruct (attach_all results rest) as [rs|e]; simpl; [|discriminate].
    intros [= <-]. apply attach_resolved in Ha. subst o.
    unfold resolve. cbn [omap list_omap]. fold (resolve results rest).
    rewrite <- (IH rs eq_refl). destruct (resolved results entry); reflexivity.
Qed.

(** An item of [resolve] is an input item at the valid index of some entry,
    with that entry's score and explanation, and conversely. *)
Lemma resolve_In (results : list SearchResult) (entries : list json)
  (r : RankedResult) :
  In r (resolve results entries) <->
  exists entry i,
    In entry entries /\
    valid_position results entry = Some i /\
    results !! i = Some (base r) /\
    getitem entry "score" = Ok (relevance_score r) /\
    getitem entry "explanation" = Ok (explanation r).
Proof.
  unfold resolve. rewrite <- list_elem_of_In, list_elem_of_omap. split.
  - intros (entry & Hin & Hres). apply list_elem_of_In in Hin.
    unfold resolved in Hres.
    destruct (valid_position results entry) as [i|] eqn:Hv; [|discriminate].
    destruct (getitem entry "score") as [score|] eqn:Hs; [|discriminate].
    destruct (getitem entry "explanation") as [expl|] eqn:He; [|discriminate].
    destruct (results !! i) as [result|] eqn:Hr; [|discriminate].
    injection Hres as <-. exists entry, i. simpl. auto.
  - intros (entry & i & Hin & Hv & Hr & Hs & He).
    exists entry. split; [apply list_elem_of_In; exact Hin|].
    unfold resolved. rewrite Hv, Hs, He, Hr. destruct r; reflexivity.
Qed.

Lemma valid_position_bounds (results : list SearchResult) (entry : json) (i : nat) :
  valid_position results entry = Some i ->
  exists idx z,
    getitem entry "index" = Ok idx /\ as_int idx = Some z /\
    (0 <= z < Z.of_nat (length results))%Z /\ i = Z.to_nat z.
Proof.
  unfold valid_position.
  destruct (getitem entry "index") as [idx|] eqn:Hidx; [|discriminate].
  destruct (as_int idx) as [z|] eqn:Hz; [|discriminate].
  destruct ((0 <=? z) && (z <? Z.of_nat (length results)))%Z eqn:Hb; [|discriminate].
  apply andb_prop in Hb. destruct Hb as [Hlo Hhi].
  apply Z.leb_le in Hlo. apply Z.ltb_lt in Hhi.
  intros [= <-]. exists idx, z. auto.
Qed.

(** C6, amended: for a non-empty input and a ranking response with which
    the body of the [try] completes, and whose scores are numbers other
    than NaN (integers or fractions alike), the ranker returns one item
    for each entry with a valid 0-based index, entries listed twice
    included, and no others; each is the input item at that index with the
    entry's score and explanation, so title, url and snippet are those of
    an input item; the output is in non-increasing order of
    [relevance_score], and items whose scores tie stand in the order of
    the response. *)
Theorem rank_success_sorted (results : list SearchResult) (query : string)
  (s s' : St) (out : list RankedResult) :
  results <> [] ->
  rank_attempt results query s = (Ok out, s') ->
  Forall (fun r => real_number (relevance_score r) = true) out ->
  rank_search_results results query s = (Ok out, s') /\
  exists entries,
    ranking_entries results query (fst s) entries /\
    Permutation (resolve results entries) out /\
    (forall r, In r out <->
       exists entry i,
         In entry entries /\
         valid_position results entry = Some i /\
         results !! i = Some (base r) /\
         getitem entry "score" = Ok (relevance_score r) /\
         getitem entry "explanation" = Ok (explanation r)) /\
    (forall r, In r out ->
       exists result, In result results /\
         title (base r) = title result /\ url (base r) = url result /\
         snippet (base r) = snippet result) /\
    StronglySorted (not_below relevance_score) out /\
    (forall x, In x out ->
        List.filter (fun r => tie (relevance_score x) (relevance_score r)) out =
        List.filter (fun r => tie (relevance_score x) (relevance_score r))
                    (resolve results entries)).
Proof.
  intros Hne Hrun Hnum. split.
  { destruct results as [|r0 rest]; [congruence|].
    unfold rank_search_results, try_except. rewrite Hrun. reflexivity. }
  rewrite rank_attempt_reply in Hrun. injection Hrun as Hout _.
  destruct (reply (rank_request results query) (fst s)) as [text|] eqn:Ht;
    [|discriminate].
  simpl in Hout. unfold loads in Hout.
  destruct (json_loads text) as [parsed|] eqn:Hj; [|discriminate].
  simpl in Hout. unfold rank_parsed in Hout.
  destruct (getitem parsed "rankings") as [rankings|] eqn:Hr; [|discriminate].
  simpl in Hout.
  destruct (iterate rankings) as [entries|] eqn:Hi; [|discriminate].
  simpl in Hout.
  destruct (attach_all results entries) as [kept|] eqn:Ha; [|discriminate].
  simpl in Hout. apply attach_all_resolve in Ha. subst kept.
  pose proof (sort_desc_perm _ _ _ Hout) as Hperm.
  assert (Hord : ordered (map relevance_score (resolve results entries)) = true).
  { apply real_numbers_ordered. apply Forall_map.
    apply (Permutation_Forall (Permutation_sym Hperm)). exact Hnum. }
  destruct (sort_desc_spec relevance_score _ Hord)
    as (out' & Hout' & _ & Hsorted & Hties).
  rewrite Hout in Hout'. injection Hout' as <-.
  exists entries. split; [|split; [|split; [|split; [|split]]]].
  - exists text, parsed, rankings. auto.
  - exact Hperm.
  - intros r. rewrite <- resolve_In. split; apply Permutation_in;
      [symmetry|]; exact Hperm.
  - intros r Hin. apply (Permutation_in _ (Permutation_sym Hperm)) in Hin.
    apply resolve_In in Hin. destruct Hin as (entry & i & _ & _ & Hres & _).
    exists (base r). split; [|auto].
    apply list_elem_of_In. eapply list_elem_of_lookup_2. exact Hres.
  - exact Hsorted.
  - intros x Hx. apply Hties.
    apply (Permutation_in _ (Permutation_sym Hperm)). exact Hx.
Qed.

(** ** The bound on scraped text *)

Lemma string_length_app (a b : string) :
  String.length (a ++ b) = (String.length a + String.length b)%nat.
Proof. induction a as [|c a IH]; simpl; [reflexivity|]. rewrite IH. reflexivity. Qed.

Lemma string_app_assoc (a b c : string) : (a ++ b) ++ c = a ++ (b ++ c).
Proof.
  induction a as [|x a IH]; [reflexivity|].
  change (String x ((a ++ b) ++ c) = String x (a ++ (b ++ c))).
  f_equal. exact IH.
Qed.

Lemma substring_prefix_length (n : nat) (s : string) :
  (n <= String.length s)%nat -> String.length (String.substring 0 n s) = n.
Proof.
  revert s. induction n as [|n IH]; intros [|c s]; simpl; intros Hn;
    try reflexivity; try lia.
  rewrite IH by lia. reflexivity.
Qed.

Lemma substring_prefix_split (n : nat) (s : string) :
  exists rest, s = String.substring 0 n s ++ rest.
Proof.
  revert s. induction n as [|n IH]; intros [|c s]; simpl.
  - exists "". reflexivity.
  - exists (String c s). reflexivity.
  - exists "". reflexivity.
  - destruct (IH s) as [rest Hrest]. exists rest.
    transitivity (String c (String.substring 0 n s ++ rest));
      [f_equal; exact Hrest|reflexivity].
Qed.

Lemma slice_to_nonneg (n : Z) (s : string) :
  (0 <= n)%Z -> slice_to n s = String.substring 0 (Z.to_nat n) s.
Proof. intros Hn. unfold slice_to. apply Z.leb_le in Hn. rewrite Hn. reflexivity. Qed.

Lemma truncate_long (text : string) :
  (len text > 15000)%Z ->
  truncate text = slice_to 15000 text ++ truncation_marker /\
  len (slice_to 15000 text) = 15000%Z /\
  exists dropped, text = slice_to 15000 text ++ dropped.
Proof.
  intros Hlong. unfold truncate.
  assert (Hgt : (len text >? 15000)%Z = true) by (apply Z.gtb_lt; lia).
  rewrite Hgt. split; [reflexivity|].
  rewrite slice_to_nonneg by lia. split.
  - unfold len in *. rewrite substring_prefix_length; lia.
  - apply substring_prefix_split.
Qed.

Lemma truncate_short (text : string) :
  (len text <= 15000)%Z -> truncate text = text.
Proof.
  intros Hshort. unfold truncate.
  assert (Hgt : (len text >? 15000)%Z = false) by (rewrite Z.gtb_ltb; apply Z.ltb_ge; lia).
  rewrite Hgt. reflexivity.
Qed.

Lemma scrape_webpage_fetched (link page : string) (w' : W) (s : St) :
  page_text link (fst s) = (Ok page, w') ->
  scrape_webpage link s =
  (Ok (truncate (clean_text page)), (w', (snd s ++ [PageFetch link])%list)).
Proof.
  intros Hp. unfold scrape_webpage, try_except, bind, fetch, ret.
  rewrite Hp. reflexivity.
Qed.

(** C9: when the fetched and cleaned text of a page is longer than 15000
    characters, [scrape_webpage] returns its first 15000 characters
    followed by the marker "...[content truncated]", and the section the
    context builder makes of it holds those 15000 characters of the source
    and the marker between its heading and its two closing line feeds. *)
Theorem scrape_truncates_long_pages (link page : string) (w' : W) (s : St) :
  page_text link (fst s) = (Ok page, w') ->
  (len (clean_text page) > 15000)%Z ->
  exists kept dropped,
    clean_text page = kept ++ dropped /\
    len kept = 15000%Z /\
    fst (scrape_webpage link s) = Ok (kept ++ "...[content truncated]") /\
    len (kept ++ "...[content truncated]") = (15000 + 22)%Z /\
    forall (i : nat) (result : RankedResult),
      url (base result) = link ->
      fst (gather i [result] s) =
      Ok ["Source " ++ pretty (i + 1)%nat ++ ": " ++ title (base result)
          ++ " (" ++ link ++ ")" ++ nl ++ nl
          ++ kept ++ "...[content truncated]" ++ nl ++ nl].
Proof.
  intros Hp Hlong.
  destruct (truncate_long _ Hlong) as (Htr & Hlen & dropped & Hsplit).
  exists (slice_to 15000 (clean_text page)), dropped.
  assert (Hout : scrape_webpage link s =
                 (Ok (slice_to 15000 (clean_text page) ++ "...[content truncated]"),
                  (w', (snd s ++ [PageFetch link])%list))).
  { rewrite (scrape_webpage_fetched _ _ _ _ Hp), Htr. reflexivity. }
  split; [exact Hsplit|]. split; [exact Hlen|]. split; [rewrite Hout; reflexivity|].
  split.
  - unfold len in *. rewrite string_length_app.
    change (String.length "...[content truncated]") with 22%nat. lia.
  - intros i result Hurl. cbn [gather]. unfold bind. rewrite Hurl, Hout.
    unfold ret. cbn [fst].
    destruct (String.eqb_spec
                (slice_to 15000 (clean_text page) ++ "...[content truncated]") "")
      as [Hempty|_].
    + exfalso. apply (f_equal String.length) in Hempty.
      rewrite string_length_app in Hempty.
      change (String.length "...[content truncated]") with 22%nat in Hempty.
      simpl in Hempty. lia.
    + unfold source_section. rewrite Hurl.
      rewrite string_app_assoc. reflexivity.
Qed.

(** ** The orchestrator *)

Lemma decide_returns (query : string) (s : St) :
  exists d s1, decide_if_search_needed query s = (Ok d, s1).
Proof.
  unfold decide_if_search_needed, try_except.
  destruct (decide_attempt query s) as [[d|e] s1]; unfold ret; eauto.
Qed.

Lemma search_web_returns (query : string) (n : Z) (s : St) :
  exists results s1, search_web query n s = (Ok results, s1).
Proof.
  unfold search_web, try_except, bind, ret.
  destruct (ddgs query n s) as [[hits|e] s1]; eauto.
Qed.

Lemma direct_branch_reply (query : string) (result : gmap string json) (s : St) :
  direct_branch query result s =
  (match reply (direct_request query) (fst s) with
   | Ok text => Ok (<["initial_answer" := JStr text]>
                    (<["answer" := JStr text]> result))
   | Raise e => Ok (<["answer" := JStr (apology e)]> result)
   end,
   after_completion (direct_request query) s).
Proof. unfold direct_branch, try_except. run_create. Qed.

(** The run of [process_query] that ends at line 445. *)
Lemma process_query_no_results (query : string) (n m : Z) (s s1 s2 : St)
  (search_needed reasoning : json) :
  decide_if_search_needed query s = (Ok (search_needed, reasoning), s1) ->
  truthy search_needed = true ->
  search_web query n s1 = (Ok [], s2) ->
  process_query query n m s =
  (Ok (<["answer" := JStr no_results_answer]>
       (<["search_performed" := JBool true]>
       (<["search_decision_reasoning" := reasoning]> (initial_result query)))),
   s2).
Proof.
  intros Hd Ht Hs. unfold process_query. unfold bind at 1. rewrite Hd.
  cbn [fst snd]. rewrite Ht. unfold bind at 1. rewrite Hs. reflexivity.
Qed.

(** C1, on the code: when the classifier asks for a search and the search
    comes back empty, [process_query] returns at line 445 with the fixed
    answer; the state it leaves is the one right after the search, so the
    follow-up generator is not called, and [follow_up_questions] is the
    empty list of line 428. *)
Theorem no_results_returns_early (query : string) (n m : Z) (s s1 s2 : St)
  (search_needed reasoning : json) :
  decide_if_search_needed query s = (Ok (search_needed, reasoning), s1) ->
  truthy search_needed = true ->
  search_web query n s1 = (Ok [], s2) ->
  exists r,
    process_query query n m s = (Ok r, s2) /\
    r !! "search_performed" = Some (JBool true) /\
    r !! "answer" =
      Some (JStr "I couldn't find any relevant information on the web for your query.") /\
    r !! "follow_up_questions" = Some (JArr []).
Proof.
  intros Hd Ht Hs. eexists. split.
  - apply (process_query_no_results _ _ _ _ _ _ _ _ Hd Ht Hs).
  - repeat split; reflexivity.
Qed.

(** C2, as the code has it: in a result [process_query] returns after a
    search that found something, [answer] is [refined_answer]; after a
    search that found nothing, [answer] is the fixed message and
    [refined_answer] is still empty; without a search, [answer] is the
    model's direct text, also kept as [initial_answer], or the apology when
    that call fails. *)
Theorem answer_field (query : string) (n m : Z) (s s' : St)
  (r : gmap string json) :
  process_query query n m s = (Ok r, s') ->
  exists search_needed reasoning s1,
    decide_if_search_needed query s = (Ok (search_needed, reasoning), s1) /\
    if truthy search_needed then
      r !! "search_performed" = Some (JBool true) /\
      exists search_results s2,
        search_web query n s1 = (Ok search_results, s2) /\
        match search_results with
        | [] => r !! "answer" = Some (JStr no_results_answer) /\
                r !! "refined_answer" = Some (JStr "")
        | _ :: _ => exists refined,
                r !! "answer" = Some refined /\
                r !! "refined_answer" = Some refined
        end
    else
      r !! "search_performed" = Some (JBool false) /\
      match reply (direct_request query) (fst s1) with
      | Ok text => r !! "answer" = Some (JStr text) /\
                   r !! "initial_answer" = Some (JStr text)
      | Raise e => r !! "answer" = Some (JStr (apology e)) /\
                   r !! "initial_answer" = None
      end.
Proof.
  destruct (decide_returns query s) as ([needed reasoning] & s1 & Hd).
  unfold process_query. unfold bind at 1. rewrite Hd. cbn [fst snd].
  intros Hrun. exists needed, reasoning, s1. split; [reflexivity|].
  destruct (truthy needed).
  - unfold bind at 1 in Hrun.
    destruct (search_web_returns query n s1) as (results & s2 & Hs).
    rewrite Hs in Hrun. destruct results as [|r0 rest].
    + unfold ret in Hrun. injection Hrun as <- _.
      split; [reflexivity|]. exists [], s2. split; [exact Hs|].
      split; reflexivity.
    + unfold bind in Hrun.
      destruct (searched_branch _ _ _ _ _) as [[r1|e] s3] eqn:Hb; [|discriminate].
      apply searched_branch_result in Hb.
      destruct Hb as (ia & sc & iss & ref & ctx & ->).
      apply follow_up_step_result in Hrun. destruct Hrun as [f ->].
      split; [reflexivity|]. exists (r0 :: rest), s2. split; [exact Hs|].
      exists ref. split; reflexivity.
  - unfold bind in Hrun. rewrite direct_branch_reply in Hrun.
    destruct (reply (direct_request query) (fst s1)) as [text|e];
      apply follow_up_step_result in Hrun; destruct Hrun as [f ->];
      repeat split; reflexivity.
Qed.

End Facts.

End PipelineFacts.

(** * The tool loop *)

Module MCPFacts.
Import MCP.

Section Facts.
Context {rt : Runtime} {sv : Services}.

(** The registry lookup finds a registered tool by its name. *)
Lemma lookup_tool_registered (tool : MCPTool) (tool_call : json) :
  In tool tools ->
  getitem tool_call "name" = Ok (JStr (name tool)) ->
  lookup_tool tools tool_call = Ok tool.
Proof.
  intros Hin Hname. unfold tools in *. simpl in Hin.
  destruct Hin as [<-|[<-|[]]]; simpl; rewrite Hname; reflexivity.
Qed.

(** With no registered tool of the requested name, the generator runs dry
    and [next] raises [StopIteration]. *)
Lemma lookup_tool_unregistered (tool_call requested : json) :
  getitem tool_call "name" = Ok requested ->
  (forall t, In t tools -> name_is t requested = false) ->
  lookup_tool tools tool_call = Raise (Exn StopIteration "").
Proof.
  intros Hname Hnone. unfold tools in *. simpl. rewrite Hname. simpl.
  rewrite (Hnone file_system) by (simpl; auto).
  rewrite (Hnone database) by (simpl; auto). reflexivity.
Qed.

(** One registered call whose endpoint answers: one POST, one response. *)
Lemma run_call_registered (tool : MCPTool) (tool_call id body : json)
  (parameters : list (string * json)) (s : St) (w' : W) :
  In tool tools ->
  getitem tool_call "name" = Ok (JStr (name tool)) ->
  getitem tool_call "parameters" = Ok (JObj parameters) ->
  getitem tool_call "id" = Ok id ->
  requests_post (server_url tool)
    (request_data (dict_get parameters "method" (JStr ""))
                  (dict_get parameters "params" (JObj []))) (fst s)
    = (Ok body, w') ->
  run_call tool_call s =
  (Ok {| tool_call_id := id; output := json_dumps body |},
   (w', (snd s ++ [Post (server_url tool)
                     (request_data (dict_get parameters "method" (JStr ""))
                                   (dict_get parameters "params" (JObj [])))])%list)).
Proof.
  intros Hin Hname Hparams Hid Hpost.
  unfold run_call, bind, lift, ret, execute, post.
  rewrite (lookup_tool_registered _ _ Hin Hname), Hparams. simpl.
  rewrite Hpost, Hid. reflexivity.
Qed.

(** C4: when the first response requests one call of a registered tool, the
    tool's endpoint answers, and the second response requests no call, the
    loop ends on any fuel of at least one turn with the second response's
    content; what left the process is the first completion call, one POST
    to that tool's endpoint, and the second completion call. *)
Theorem one_tool_call_then_stop (fuel : nat) (prompt : string)
  (tools_to_use : list MCPTool) (s : St) (first final : message)
  (tool : MCPTool) (tool_call id body : json)
  (parameters : list (string * json)) (w1 w2 w3 : W) :
  let payload := request_data (dict_get parameters "method" (JStr ""))
                              (dict_get parameters "params" (JObj [])) in
  let responses := [{| tool_call_id := id; output := json_dumps body |}] in
  client_messages_create (first_request prompt tools_to_use) (fst s)
    = (Ok first, w1) ->
  tool_use first = JArr [tool_call] ->
  In tool tools ->
  getitem tool_call "name" = Ok (JStr (name tool)) ->
  getitem tool_call "parameters" = Ok (JObj parameters) ->
  getitem tool_call "id" = Ok id ->
  requests_post (server_url tool) payload w1 = (Ok body, w2) ->
  client_messages_create (next_request prompt tools_to_use first responses) w2
    = (Ok final, w3) ->
  truthy (tool_use final) = false ->
  call_claude_with_tools (S fuel) prompt tools_to_use s =
  (Ok (Some (content final)),
   (w3, (snd s ++ [Create (first_request prompt tools_to_use);
                   Post (server_url tool) payload;
                   Create (next_request prompt tools_to_use first responses)])%list)).
Proof.
  intros payload responses Hfirst Huse Hin Hname Hparams Hid Hpost Hfinal Hstop.
  unfold call_claude_with_tools. unfold bind at 1. unfold create at 1.
  rewrite Hfirst. cbn [tool_loop]. rewrite Huse. cbn [truthy iterate].
  unfold bind at 1. unfold lift at 1. unfold bind at 1. cbn [run_calls].
  unfold bind at 1.
  rewrite (run_call_registered tool tool_call id body parameters
             (w1, (snd s ++ [Create (first_request prompt tools_to_use)])%list)
             w2 Hin Hname Hparams Hid Hpost).
  cbn [run_calls bind ret fst snd]. unfold bind, ret, create. cbn [fst snd].
  fold responses. rewrite Hfinal.
  destruct fuel; cbn [tool_loop]; rewrite Hstop; unfold ret;
    rewrite <- !app_assoc; reflexivity.
Qed.

Lemma iterate_nonempty_truthy (v : json) (x : json) (l : list json) :
  iterate v = Ok (x :: l) -> truthy v = true.
Proof.
  destruct v as [| | | |str|l'|kvs]; simpl; try discriminate.
  - destruct str; [discriminate|reflexivity].
  - destruct l'; [discriminate|reflexivity].
  - destruct kvs; [discriminate|reflexivity].
Qed.

Lemma run_calls_app (before rest : list json) (s s1 : St)
  (responses : list tool_response) :
  run_calls before s = (Ok responses, s1) ->
  run_calls (before ++ rest) s =
  (rs <- run_calls rest ;; ret (responses ++ rs)%list)%py s1.
Proof.
  revert s responses. induction before as [|c before IH]; intros s responses.
  - simpl. unfold ret at 1. intros [= <- <-]. unfold bind, ret.
    destruct (run_calls rest s) as [[rs|e] s2]; reflexivity.
  - cbn [run_calls app]. unfold bind, ret.
    destruct (run_call c s) as [[r|e] s2]; [|discriminate].
    destruct (run_calls before s2) as [[rs|e] s3] eqn:Hb; [|discriminate].
    intros [= <- <-]. specialize (IH _ _ Hb). unfold bind, ret in IH.
    rewrite IH. destruct (run_calls rest s3) as [[rs'|e] s4]; reflexivity.
Qed.

(** C5, as the code has it: when a response requests a tool whose name no
    registered tool bears, the calls before it in that response having
    run, the loop ends with the [StopIteration] of the registry lookup,
    uncaught: nothing is reported, no POST is sent for that call and no
    further completion call is made.  The same holds of
    [call_claude_with_tools] when the response is the first one. *)
Theorem unregistered_tool_raises (fuel : nat) (prompt : string)
  (tools_to_use : list MCPTool) (m : message) (s s1 : St)
  (before rest : list json) (tool_call requested : json)
  (responses : list tool_response) :
  iterate (tool_use m) = Ok (before ++ tool_call :: rest)%list ->
  run_calls before s = (Ok responses, s1) ->
  getitem tool_call "name" = Ok requested ->
  (forall t, In t tools -> name_is t requested = false) ->
  tool_loop (S fuel) prompt tools_to_use m s = (Raise (Exn StopIteration ""), s1) /\
  forall s0,
    client_messages_create (first_request prompt tools_to_use) (fst s0)
      = (Ok m, fst s) ->
    snd s = (snd s0 ++ [Create (first_request prompt tools_to_use)])%list ->
    call_claude_with_tools (S fuel) prompt tools_to_use s0
      = (Raise (Exn StopIteration ""), s1).
Proof.
  intros Hiter Hbefore Hname Hnone.
  assert (Hloop : tool_loop (S fuel) prompt tools_to_use m s =
                  (Raise (Exn StopIteration ""), s1)).
  { cbn [tool_loop].
    assert (Htruthy : truthy (tool_use m) = true).
    { destruct before; eapply iterate_nonempty_truthy; exact Hiter. }
    rewrite Htruthy, Hiter. unfold bind at 1. unfold lift at 1.
    unfold bind at 1. rewrite (run_calls_app _ _ _ _ _ Hbefore).
    cbn [run_calls]. unfold bind at 1. unfold bind at 1.
    unfold run_call. unfold bind at 1. unfold lift at 1.
    rewrite (lookup_tool_unregistered _ _ Hname Hnone). reflexivity. }
  split; [exact Hloop|].
  intros s0 Hfirst Htrace. unfold call_claude_with_tools, bind, create.
  rewrite Hfirst, <- Htrace. destruct s as [w tr]. exact Hloop.
Qed.

End Facts.

End MCPFacts.

(** * Runs on scripted services *)

Module Runs.
Import Pipeline PipelineSpec PipelineFacts.

(** The completion service is down: the classifier fails, and the pipeline
    searches. *)
Lemma classifier_fails_open_run :
  classifier_fails (rt:=Mock.runtime) (sv:=Mock.no_hits) "latest news" [] /\
  fst (decide_if_search_needed (rt:=Mock.runtime) (sv:=Mock.no_hits)
         "latest news" ([], [])) =
    Ok (JBool true, JStr "Error in decision process, defaulting to search") /\
  (forall (n m : Z) (r : gmap string json) s',
     process_query (rt:=Mock.runtime) (sv:=Mock.no_hits) "latest news" n m ([], [])
       = (Ok r, s') ->
     r !! "search_performed" = Some (JBool true)) /\
  returned (fst (process_query (rt:=Mock.runtime) (sv:=Mock.no_hits)
                   "latest news" 5 3 ([], []))) = true.
Proof.
  assert (Hfail : classifier_fails (rt:=Mock.runtime) (sv:=Mock.no_hits)
                    "latest news" []).
  { eapply classifier_call_fails. reflexivity. }
  split; [exact Hfail|].
  destruct (classifier_fails_open (rt:=Mock.runtime) (sv:=Mock.no_hits)
              "latest news" ([], []) Hfail) as [Hdecide Hsearch].
  split; [exact Hdecide|]. split; [exact Hsearch|].
  vm_compute. reflexivity.
Defined.

(** The critic's reply is not JSON: the draft answer is kept. *)
Lemma evaluate_failure_run :
  exists v,
    fst (evaluate_and_refine_answer (rt:=Mock.runtime) (sv:=Mock.three_hits)
           "q" "Draft answer." "context" ([Ok ["I cannot judge this."]], []))
      = Ok v /\
    getitem v "refined_answer" = Ok (JStr "Draft answer.").
Proof.
  destruct (evaluate_failure_keeps_draft (rt:=Mock.runtime) (sv:=Mock.three_hits)
              "q" "Draft answer." "context" ([Ok ["I cannot judge this."]], []))
    as (v & Hv & _ & _ & _ & Hr).
  - eapply critic_json_malformed; reflexivity.
  - exists v. split; assumption.
Defined.

(** The ranker's reply is not JSON: three hits in, the same three out. *)
Lemma rank_failure_run :
  exists out,
    fst (rank_search_results (rt:=Mock.runtime) (sv:=Mock.three_hits)
           Mock.results "q" ([Ok ["Here are my rankings."]], [])) = Ok out /\
    length out = 3%nat.
Proof.
  destruct (rank_failure_keeps_input (rt:=Mock.runtime) (sv:=Mock.three_hits)
              Mock.results "q" ([Ok ["Here are my rankings."]], []))
    as (out & Hout & Hlen & _).
  - discriminate.
  - eapply ranker_json_malformed; reflexivity.
  - exists out. split; assumption.
Defined.

(** A ranking of three hits with fractional scores, a stray index and a
    tie: the stray entry is dropped, the 9.0 comes first, the two 7.5s stay
    in the order of the response. *)
Lemma rank_success_run :
  exists out s',
    rank_attempt (rt:=Mock.runtime) (sv:=Mock.three_hits)
      Mock.results "q" ([Ok [Mock.fraction_rankings_text]], []) = (Ok out, s') /\
    Forall (fun r => real_number (relevance_score r) = true) out /\
    rank_search_results (rt:=Mock.runtime) (sv:=Mock.three_hits)
      Mock.results "q" ([Ok [Mock.fraction_rankings_text]], []) = (Ok out, s') /\
    map (fun r => (title (base r), explanation r)) out =
      [("Alpha", JStr "best"); ("Beta", JStr "good"); ("Gamma", JStr "fair")] /\
    map relevance_score out =
      [JFloat (Finite (Qmake 9 1)); Mock.seven_and_a_half; Mock.seven_and_a_half] /\
    StronglySorted (not_below relevance_score) out.
Proof.
  eexists _, _. split; [vm_compute; reflexivity|].
  assert (Hnum : Forall (fun r => real_number (relevance_score r) = true)
                   [{| base := {| title := "Alpha"; url := "http://a.example";
                                  snippet := "first" |};
                       relevance_score := JFloat (Finite (Qmake 9 1));
                       explanation := JStr "best" |};
                    {| base := {| title := "Beta"; url := "http://b.example";
                                  snippet := "second" |};
                       relevance_score := Mock.seven_and_a_half;
                       explanation := JStr "good" |};
                    {| base := {| title := "Gamma"; url := "http://c.example";
                                  snippet := "third" |};
                       relevance_score := Mock.seven_and_a_half;
                       explanation := JStr "fair" |}])
    by (repeat constructor).
  split; [exact Hnum|].
  destruct (rank_success_sorted (rt:=Mock.runtime) (sv:=Mock.three_hits)
              Mock.results "q" ([Ok [Mock.fraction_rankings_text]], []) _ _
              ltac:(discriminate) eq_refl Hnum)
    as (Hrun & entries & _ & _ & _ & _ & Hsorted & _).
  split; [exact Hrun|]. split; [reflexivity|]. split; [reflexivity|exact Hsorted].
Defined.

(** C6 fails as stated, in two ways.  A response that parses but whose
    second entry has no explanation gives the fallback: all three hits
    with score 5 in input order, so that Alpha stands before Beta though
    the response lists Beta first, and Gamma, which the response does not
    rank, is returned.  And a response with the scores 5, NaN, 7 comes back
    in that order, which is not non-increasing by score: the sort is left
    to the interpreter, and CPython's leaves these keys where they
    are. *)
Lemma parsed_ranking_not_sorted :
  (ranking_entries (rt:=Mock.runtime) (sv:=Mock.three_hits) Mock.results "q"
     [Ok [Mock.unexplained_rankings_text]]
     [Mock.entry 1 9 "best"; JObj [("index", JNum 0); ("score", JNum 3)]] /\
   fst (rank_search_results (rt:=Mock.runtime) (sv:=Mock.three_hits)
          Mock.results "q" ([Ok [Mock.unexplained_rankings_text]], []))
     = Ok (map ranking_failed Mock.results) /\
   map (fun r => (title (base r), relevance_score r))
       (map ranking_failed Mock.results)
     = [("Alpha", JNum 5); ("Beta", JNum 5); ("Gamma", JNum 5)]) /\
  exists out,
    ranking_entries (rt:=Mock.runtime) (sv:=Mock.three_hits) Mock.results "q"
      [Ok [Mock.nan_rankings_text]]
      [Mock.scored 0 (JNum 5) "low"; Mock.scored 1 (JFloat NaN) "unknown";
       Mock.scored 2 (JNum 7) "high"] /\
    rank_attempt (rt:=Mock.runtime) (sv:=Mock.three_hits) Mock.results "q"
      ([Ok [Mock.nan_rankings_text]], [])
      = (Ok out, ([], [Completion (rank_request Mock.results "q")])) /\
    fst (rank_search_results (rt:=Mock.runtime) (sv:=Mock.three_hits)
           Mock.results "q" ([Ok [Mock.nan_rankings_text]], [])) = Ok out /\
    map (fun r => (title (base r), relevance_score r)) out
      = [("Alpha", JNum 5); ("Beta", JFloat NaN); ("Gamma", JNum 7)] /\
    ~ StronglySorted (not_below relevance_score) out.
Proof.
  split.
  - split; [|split; [vm_compute; reflexivity|reflexivity]].
    exists Mock.unexplained_rankings_text, Mock.unexplained_rankings,
      (JArr [Mock.entry 1 9 "best"; JObj [("index", JNum 0); ("score", JNum 3)]]).
    split; [reflexivity|]. split; [vm_compute; reflexivity|].
    split; reflexivity.
  - eexists. split; [|split; [vm_compute; reflexivity|]].
    + exists Mock.nan_rankings_text, Mock.nan_rankings,
        (JArr [Mock.scored 0 (JNum 5) "low"; Mock.scored 1 (JFloat NaN) "unknown";
               Mock.scored 2 (JNum 7) "high"]).
      split; [reflexivity|]. split; [vm_compute; reflexivity|].
      split; reflexivity.
    + split; [vm_compute; reflexivity|]. split; [reflexivity|].
      intros Hs. apply StronglySorted_inv in Hs. destruct Hs as [_ Hall].
      inversion Hall as [|? ? _ Hall']. inversion Hall' as [|? ? Hbad _].
      apply Hbad. reflexivity.
Defined.

(** A page of 16384 characters is cut to 15000 and marked. *)
Lemma scrape_truncates_run :
  (len (clean_text (Mock.doubled 14 "a")) > 15000)%Z /\
  exists kept dropped,
    clean_text (Mock.doubled 14 "a") = kept ++ dropped /\
    len kept = 15000%Z /\
    fst (scrape_webpage (sv:=Mock.long_hits) "http://a.example" ([], []))
      = Ok (kept ++ "...[content truncated]").
Proof.
  assert (Hlong : (len (clean_text (Mock.doubled 14 "a")) > 15000)%Z)
    by (vm_compute; reflexivity).
  split; [exact Hlong|].
  destruct (scrape_truncates_long_pages (sv:=Mock.long_hits)
              "http://a.example" (Mock.doubled 14 "a") [] ([], [])
              eq_refl Hlong)
    as (kept & dropped & Hsplit & Hlen & Hout & _).
  exists kept, dropped. auto.
Defined.

(** The classifier asks for a search, the provider finds nothing, and a
    reply with two follow-up questions waits in the script: the pipeline
    returns without asking for it, though the follow-up generator, called
    on the same query and answer in the state the pipeline stops in, would
    return the two questions. *)
Lemma no_results_run :
  let s0 : St (sv:=Mock.no_hits) :=
    ([Ok [Mock.decide_yes_text]; Ok [Mock.follow_ups_text]], []) in
  let s2 : St (sv:=Mock.no_hits) :=
    ([Ok [Mock.follow_ups_text]],
     [Completion (decide_request "latest news"); WebSearch "latest news" 5]) in
  (exists r,
     process_query (rt:=Mock.runtime) (sv:=Mock.no_hits) "latest news" 5 3 s0
       = (Ok r, s2) /\
     r !! "search_performed" = Some (JBool true) /\
     r !! "answer" =
       Some (JStr "I couldn't find any relevant information on the web for your query.") /\
     r !! "follow_up_questions" = Some (JArr [])) /\
  fst (generate_follow_up_questions (rt:=Mock.runtime) (sv:=Mock.no_hits)
         "latest news"
         (JStr "I couldn't find any relevant information on the web for your query.")
         s2)
    = Ok (JArr [Mock.question "What next?" "scope" 5;
                Mock.question "Why?" "depth" 2]).
Proof.
  intros s0 s2. split.
  - apply (no_results_returns_early (rt:=Mock.runtime) (sv:=Mock.no_hits)
             "latest news" 5 3 s0
             ([Ok [Mock.follow_ups_text]],
              [Completion (decide_request "latest news")]) s2
             (JBool true) (JStr "needs current data")).
    + vm_compute; reflexivity.
    + reflexivity.
    + vm_compute; reflexivity.
  - vm_compute; reflexivity.
Defined.

(** C2 fails as stated: a result with [search_performed] set whose [answer]
    is not its [refined_answer]. *)
Lemma answer_is_not_refined_answer :
  exists (r : gmap string json) s',
    process_query (rt:=Mock.runtime) (sv:=Mock.no_hits) "latest news" 5 3
      ([Ok [Mock.decide_yes_text]; Ok [Mock.follow_ups_text]], []) = (Ok r, s') /\
    r !! "search_performed" = Some (JBool true) /\
    r !! "answer" =
      Some (JStr "I couldn't find any relevant information on the web for your query.") /\
    r !! "refined_answer" = Some (JStr "") /\
    r !! "answer" <> r !! "refined_answer".
Proof.
  eexists _, _. split.
  - apply (process_query_no_results (rt:=Mock.runtime) (sv:=Mock.no_hits)
             "latest news" 5 3 _
             ([Ok [Mock.follow_ups_text]],
              [Completion (decide_request "latest news")])
             ([Ok [Mock.follow_ups_text]],
              [Completion (decide_request "latest news");
               WebSearch "latest news" 5])
             (JBool true) (JStr "needs current data")).
    + vm_compute; reflexivity.
    + reflexivity.
    + vm_compute; reflexivity.
  - split; [reflexivity|]. split; [reflexivity|]. split; [reflexivity|].
    intros Heq.
    assert (Ha : (<["answer" := JStr no_results_answer]>
                  (<["search_performed" := JBool true]>
                  (<["search_decision_reasoning" := JStr "needs current data"]>
                     (initial_result "latest news"))) : gmap string json)
                   !! "answer" = Some (JStr no_results_answer)) by reflexivity.
    assert (Hr : (<["answer" := JStr no_results_answer]>
                  (<["search_performed" := JBool true]>
                  (<["search_decision_reasoning" := JStr "needs current data"]>
                     (initial_result "latest news"))) : gmap string json)
                   !! "refined_answer" = Some (JStr "")) by reflexivity.
    rewrite Ha, Hr in Heq. discriminate Heq.
Defined.

(** The whole pipeline on three hits, one of which cannot be fetched. *)
Lemma answer_field_run :
  let s0 : St (sv:=Mock.three_hits) :=
    ([Ok [Mock.decide_yes_text]; Ok [Mock.rankings_text];
      Ok ["Draft answer."]; Ok [Mock.evaluation_text];
      Ok [Mock.follow_ups_text]], []) in
  exists (r : gmap string json) s',
    process_query (rt:=Mock.runtime) (sv:=Mock.three_hits) "q" 5 3 s0
      = (Ok r, s') /\
    exists search_needed reasoning s1,
      decide_if_search_needed (rt:=Mock.runtime) (sv:=Mock.three_hits) "q" s0
        = (Ok (search_needed, reasoning), s1) /\
      if truthy search_needed then
        r !! "search_performed" = Some (JBool true) /\
        exists search_results s2,
          search_web (sv:=Mock.three_hits) "q" 5 s1 = (Ok search_results, s2) /\
          match search_results with
          | [] => r !! "answer" = Some (JStr no_results_answer) /\
                  r !! "refined_answer" = Some (JStr "")
          | _ :: _ => exists refined,
                  r !! "answer" = Some refined /\
                  r !! "refined_answer" = Some refined
          end
      else
        r !! "search_performed" = Some (JBool false) /\
        match reply (sv:=Mock.three_hits) (direct_request "q") (fst s1) with
        | Ok text => r !! "answer" = Some (JStr text) /\
                     r !! "initial_answer" = Some (JStr text)
        | Raise e => r !! "answer" = Some (JStr (apology e)) /\
                     r !! "initial_answer" = None
        end.
Proof.
  intros s0.
  assert (Hok : returned (fst (process_query (rt:=Mock.runtime)
                                 (sv:=Mock.three_hits) "q" 5 3 s0)) = true)
    by (vm_compute; reflexivity).
  destruct (process_query (rt:=Mock.runtime) (sv:=Mock.three_hits) "q" 5 3 s0)
    as [[r|e] s'] eqn:Hrun; [|discriminate Hok].
  exists r, s'. split; [reflexivity|].
  apply (answer_field (rt:=Mock.runtime) (sv:=Mock.three_hits) "q" 5 3 s0 s' r
           Hrun).
Defined.

(** The same run, read off at the keys of the result. *)
Example answer_field_values :
  let run :=
    fst (process_query (rt:=Mock.runtime) (sv:=Mock.three_hits) "q" 5 3
           ([Ok [Mock.decide_yes_text]; Ok [Mock.rankings_text];
             Ok ["Draft answer."]; Ok [Mock.evaluation_text];
             Ok [Mock.follow_ups_text]], [])) in
  let field (k : string) : option json :=
    match run with Ok r => r !! k | Raise _ => None end in
  field "answer" = Some (JStr "Refined answer.") /\
  field "refined_answer" = Some (JStr "Refined answer.") /\
  field "initial_answer" = Some (JStr "Draft answer.") /\
  field "issues" = Some (JArr [JStr "minor"]) /\
  field "follow_up_questions" =
    Some (JArr [Mock.question "What next?" "scope" 5;
                Mock.question "Why?" "depth" 2]) /\
  field "context" =
    Some (JStr ("Source 1: Alpha (http://a.example)" ++ nl ++ nl
                ++ "Page" ++ nl ++ "text" ++ nl ++ "of http://a.example"
                ++ nl ++ nl ++ nl
                ++ "Source 2: Beta (http://b.example)" ++ nl ++ nl
                ++ "Failed to scrape content from http://b.example: 404 Client Error"
                ++ nl ++ nl ++ nl
                ++ "Source 3: Gamma (http://c.example)" ++ nl ++ nl
                ++ "Page" ++ nl ++ "text" ++ nl ++ "of http://c.example"
                ++ nl ++ nl)).
Proof.
  vm_compute. repeat split; reflexivity.
Qed.

(** ** The tool loop *)

(** The model asks for [file_system] once and then answers: one POST to
    the file server between two completion calls. *)
Lemma one_tool_call_run :
  let sv := Mock.tool_script (Mock.asks_for "file_system") in
  let payload :=
    MCP.request_data (JStr "read") (JObj [("path", JStr "quarterly_report.txt")]) in
  let responses :=
    [{| MCP.tool_call_id := JStr "call_1"; MCP.output := Mock.tool_body_text |}] in
  MCP.call_claude_with_tools (rt:=Mock.runtime) (sv:=sv) 1 "Summarise the report"
    [MCP.file_system] (0%nat, []) =
  (Ok (Some (JStr "Summary of the report.")),
   (2%nat,
    [MCP.Create (MCP.first_request "Summarise the report" [MCP.file_system]);
     MCP.Post "http://localhost:8080/files" payload;
     MCP.Create (MCP.next_request "Summarise the report" [MCP.file_system]
                   (Mock.asks_for "file_system") responses)])).
Proof.
  intros sv payload responses.
  apply (MCPFacts.one_tool_call_then_stop (rt:=Mock.runtime) (sv:=sv)
           0 "Summarise the report" [MCP.file_system] (0%nat, [])
           (Mock.asks_for "file_system")
           {| MCP.content := JStr "Summary of the report.";
              MCP.tool_use := JArr [] |}
           MCP.file_system (Mock.tool_call "call_1" "file_system")
           (JStr "call_1") Mock.tool_body
           [("method", JStr "read");
            ("params", JObj [("path", JStr "quarterly_report.txt")])]
           1%nat 1%nat 2%nat);
    try reflexivity.
  left. reflexivity.
Defined.

(** The model asks for a tool nobody registered. *)
Lemma unregistered_tool_run :
  let sv := Mock.tool_script (Mock.asks_for "calendar") in
  MCP.call_claude_with_tools (rt:=Mock.runtime) (sv:=sv) 1 "What is on today?"
    MCP.tools (0%nat, []) =
  (Raise (Exn StopIteration ""),
   (1%nat, [MCP.Create (MCP.first_request "What is on today?" MCP.tools)])).
Proof.
  intros sv.
  refine (proj2 (MCPFacts.unregistered_tool_raises (rt:=Mock.runtime) (sv:=sv)
                   0 "What is on today?" MCP.tools (Mock.asks_for "calendar")
                   (1%nat, [MCP.Create (MCP.first_request "What is on today?" MCP.tools)])
                   (1%nat, [MCP.Create (MCP.first_request "What is on today?" MCP.tools)])
                   [] [] (Mock.tool_call "call_1" "calendar") (JStr "calendar") []
                   eq_refl eq_refl eq_refl _) (0%nat, []) eq_refl eq_refl).
  intros t [<-|[<-|[]]]; reflexivity.
Defined.

(** C5 fails as stated: the request for an unregistered tool leaves
    [call_claude_with_tools] through an uncaught [StopIteration]; no value
    is returned and nothing is reported. *)
Lemma unregistered_tool_is_uncaught :
  let run :=
    MCP.call_claude_with_tools (rt:=Mock.runtime)
      (sv:=Mock.tool_script (Mock.asks_for "calendar")) 5 "What is on today?"
      MCP.tools (0%nat, []) in
  fst run = Raise (Exn StopIteration "") /\
  returned (fst run) = false /\
  snd (snd run) = [MCP.Create (MCP.first_request "What is on today?" MCP.tools)].
Proof. vm_compute. repeat split; reflexivity. Defined.

(** C10: the manifest offers [file_system] alone, the model names
    [database], and the database endpoint receives the POST: the lookup
    goes through the registry [tools], which the manifest does not
    narrow. *)
Theorem registry_not_manifest :
  let tools_to_use := [MCP.file_system] in
  let run :=
    MCP.call_claude_with_tools (rt:=Mock.runtime)
      (sv:=Mock.tool_script (Mock.asks_for "database")) 1 "Count the orders"
      tools_to_use (0%nat, []) in
  (forall t, In t tools_to_use -> In t MCP.tools) /\
  In MCP.database MCP.tools /\
  ~ In MCP.database tools_to_use /\
  MCP.tool_configs tools_to_use =
    [{| MCP.config_name := "file_system";
        MCP.config_description := "Access files on the local system" |}] /\
  fst run = Ok (Some (JStr "Summary of the report.")) /\
  In (MCP.Post (MCP.server_url MCP.database)
        (MCP.request_data (JStr "read")
           (JObj [("path", JStr "quarterly_report.txt")])))
     (snd (snd run)) /\
  List.filter (fun e => match e with MCP.Post _ _ => true | _ => false end)
    (snd (snd run)) =
    [MCP.Post "http://localhost:8081/query"
       (MCP.request_data (JStr "read")
          (JObj [("path", JStr "quarterly_report.txt")]))].
Proof.
  intros tools_to_use run. split; [|split; [|split; [|split; [|split; [|split]]]]].
  - intros t [<-|[]]. left. reflexivity.
  - right. left. reflexivity.
  - intros [Heq|[]]. discriminate Heq.
  - reflexivity.
  - vm_compute. reflexivity.
  - vm_compute. right. left. reflexivity.
  - vm_compute. reflexivity.
Qed.

End Runs.

(** * Further properties of the pipeline *)

Module StringFacts.
Import More.

(** ** The brace search of the classifier *)

Lemma from_first_open_skips (pre rest : string) :
  occurs "{" pre = false ->
  from_first_open (pre ++ String "{" rest) = Some (String "{" rest).
Proof.
  induction pre as [|c pre IH]; cbn [occurs]; intros Hpre; [reflexivity|].
  apply orb_false_elim in Hpre. destruct Hpre as [Hc Hpre].
  rewrite Ascii.eqb_sym in Hc.
  change (String c pre ++ String "{" rest) with (String c (pre ++ String "{" rest)).
  cbn [from_first_open]. rewrite Hc. apply IH. exact Hpre.
Qed.

Lemma upto_last_close_none (post : string) :
  occurs "}" post = false -> upto_last_close post = None.
Proof.
  induction post as [|c post IH]; cbn [occurs upto_last_close]; intros Hpost;
    [reflexivity|].
  apply orb_false_elim in Hpost. destruct Hpost as [Hc Hpost].
  rewrite (IH Hpost). rewrite Ascii.eqb_sym in Hc. rewrite Hc. reflexivity.
Qed.

Lemma upto_last_close_keeps (mid post : string) :
  occurs "}" post = false ->
  upto_last_close (mid ++ String "}" post) = Some (mid ++ "}").
Proof.
  intros Hpost. induction mid as [|c mid IH].
  - change ("" ++ String "}" post) with (String "}" post).
    cbn [upto_last_close]. rewrite (upto_last_close_none _ Hpost). reflexivity.
  - change (String c mid ++ String "}" post)
      with (String c (mid ++ String "}" post)).
    cbn [upto_last_close]. rewrite IH. reflexivity.
Qed.

(** The brace search keeps the text from the first opening brace to the
    last closing brace and drops what stands around it; a reply that is a
    bare object passes unchanged. *)
Theorem search_braces_extracts (pre mid post : string) :
  occurs "{" pre = false ->
  occurs "}" post = false ->
  search_braces (pre ++ "{" ++ mid ++ "}" ++ post) = Some ("{" ++ mid ++ "}").
Proof.
  intros Hpre Hpost. unfold search_braces.
  change ("{" ++ mid ++ "}" ++ post) with (String "{" (mid ++ String "}" post)).
  rewrite (from_first_open_skips _ _ Hpre).
  rewrite (upto_last_close_keeps _ _ Hpost). reflexivity.
Qed.

Lemma from_first_open_some (s t : string) :
  from_first_open s = Some t ->
  exists pre rest, s = pre ++ t /\ t = String "{" rest /\ occurs "{" pre = false.
Proof.
  induction s as [|c s IH]; cbn [from_first_open]; [discriminate|].
  destruct (Ascii.eqb c "{") eqn:Hc.
  - intros [= <-]. apply Ascii.eqb_eq in Hc. subst c.
    exists "", s. auto.
  - intros Ht. destruct (IH Ht) as (pre & rest & -> & -> & Hpre).
    exists (String c pre), rest. repeat split.
    cbn [occurs]. rewrite Ascii.eqb_sym, Hc. exact Hpre.
Qed.

Lemma from_first_open_none (s : string) :
  from_first_open s = None -> occurs "{" s = false.
Proof.
  induction s as [|c s IH]; cbn [from_first_open occurs]; [reflexivity|].
  destruct (Ascii.eqb c "{") eqn:Hc; [discriminate|].
  intros Hs. rewrite Ascii.eqb_sym, Hc. apply IH. exact Hs.
Qed.

Lemma upto_last_close_occurs (s : string) :
  upto_last_close s = None -> occurs "}" s = false.
Proof.
  induction s as [|c s IH]; cbn [upto_last_close occurs]; [reflexivity|].
  destruct (upto_last_close s); [discriminate|].
  destruct (Ascii.eqb c "}") eqn:Hc; [discriminate|].
  intros _. rewrite Ascii.eqb_sym, Hc. apply IH. reflexivity.
Qed.

Lemma upto_last_close_some (s p : string) :
  upto_last_close s = Some p ->
  exists mid post, s = p ++ post /\ p = mid ++ "}" /\ occurs "}" post = false.
Proof.
  revert p. induction s as [|c s IH]; cbn [upto_last_close]; intros p;
    [discriminate|].
  destruct (upto_last_close s) as [q|] eqn:Hs.
  - intros [= <-]. destruct (IH q eq_refl) as (mid & post & -> & -> & Hpost).
    exists (String c mid), post. auto.
  - destruct (Ascii.eqb c "}") eqn:Hc; [|discriminate].
    intros [= <-]. apply Ascii.eqb_eq in Hc. subst c.
    exists "", s. repeat split. apply upto_last_close_occurs. exact Hs.
Qed.

Lemma occurs_app (c : ascii) (a b : string) :
  occurs c (a ++ b) = occurs c a || occurs c b.
Proof.
  induction a as [|d a IH]; [reflexivity|].
  change (String d a ++ b) with (String d (a ++ b)). cbn [occurs].
  rewrite IH. apply orb_assoc.
Qed.

Lemma first_open_is_first (pre rest pre' rest' : string) :
  occurs "{" pre = false ->
  pre ++ String "{" rest = pre' ++ String "{" rest' ->
  exists x, String "{" rest = x ++ String "{" rest'.
Proof.
  revert pre'. induction pre as [|c pre IH]; intros pre' Hpre Heq.
  - exists pre'. exact Heq.
  - cbn [occurs] in Hpre. apply orb_false_elim in Hpre. destruct Hpre as [Hc Hpre].
    destruct pre' as [|d pre'].
    + change (String c (pre ++ String "{" rest) = String "{" rest') in Heq.
      injection Heq as -> _. rewrite Ascii.eqb_refl in Hc. discriminate.
    + change (String c (pre ++ String "{" rest) =
              String d (pre' ++ String "{" rest')) in Heq.
      injection Heq as _ Heq. apply (IH pre' Hpre Heq).
Qed.

(** What the brace search returns is a piece of the text that opens with a
    brace and closes with one, with no opening brace before it and no
    closing brace after it; it finds nothing exactly when no opening brace
    is followed by a closing one. *)
Lemma search_braces_cases (content : string) :
  match search_braces content with
  | Some m =>
      exists pre mid post,
        content = pre ++ m ++ post /\ m = "{" ++ mid ++ "}" /\
        occurs "{" pre = false /\ occurs "}" post = false
  | None =>
      forall pre mid post, content <> pre ++ "{" ++ mid ++ "}" ++ post
  end.
Proof.
  unfold search_braces.
  destruct (from_first_open content) as [t|] eqn:Hopen.
  - destruct (from_first_open_some _ _ Hopen) as (pre & rest & -> & -> & Hpre).
    destruct (upto_last_close rest) as [p|] eqn:Hclose.
    + destruct (upto_last_close_some _ _ Hclose) as (mid & post & -> & -> & Hpost).
      exists pre, mid, post. split; [|auto].
      change ("{" ++ mid ++ "}") with (String "{" (mid ++ "}")).
      change (String "{" (mid ++ "}") ++ post)
        with (String "{" ((mid ++ "}") ++ post)).
      reflexivity.
    + intros pre' mid' post' Heq.
      apply upto_last_close_occurs in Hclose.
      change ("{" ++ mid' ++ "}" ++ post')
        with (String "{" (mid' ++ "}" ++ post')) in Heq.
      destruct (first_open_is_first _ _ _ _ Hpre Heq) as [x Hx].
      assert (Hocc : occurs "}" (String "{" rest) = true).
      { rewrite Hx, occurs_app.
        change (String "{" (mid' ++ "}" ++ post'))
          with ("{" ++ mid' ++ "}" ++ post').
        rewrite !occurs_app. cbn [occurs]. rewrite Ascii.eqb_refl.
        rewrite !orb_true_r. reflexivity. }
      cbn [occurs] in Hocc. rewrite Hclose in Hocc. discriminate.
  - intros pre mid post Heq. apply from_first_open_none in Hopen.
    rewrite Heq, !occurs_app in Hopen. cbn [occurs] in Hopen.
    rewrite Ascii.eqb_refl in Hopen. rewrite orb_true_r in Hopen. discriminate.
Qed.

(** ** The clean-up of the scraper *)

Lemma lstrip_head (l : list ascii) (c : ascii) (r : list ascii) :
  lstrip l = c :: r -> is_space c = false.
Proof.
  induction l as [|d l IH]; cbn [lstrip]; [discriminate|].
  destruct (is_space d) eqn:Hd; [exact IH|].
  intros [= <- <-]. exact Hd.
Qed.

Lemma lstrip_suffix (l : list ascii) : exists p, l = (p ++ lstrip l)%list.
Proof.
  induction l as [|d l [p IH]]; cbn [lstrip]; [exists []; reflexivity|].
  destruct (is_space d); [|exists []; reflexivity].
  exists (d :: p). cbn [app]. f_equal. exact IH.
Qed.

Lemma strip_trimmed (l : list ascii) :
  nonempty (strip l) = true -> trimmed (strip l) = true.
Proof.
  unfold strip, trimmed. rewrite reverse_involutive.
  destruct (lstrip (reverse (lstrip l))) as [|d b] eqn:Hb; [discriminate|].
  intros _. pose proof (lstrip_head _ _ _ Hb) as Hd.
  destruct (lstrip_suffix (reverse (lstrip l))) as [p Hp]. rewrite Hb in Hp.
  apply (f_equal reverse) in Hp.
  rewrite reverse_involutive, reverse_app in Hp.
  destruct (reverse (d :: b)) as [|c t] eqn:Hr.
  { apply (f_equal length) in Hr. rewrite length_reverse in Hr. discriminate. }
  cbn [app] in Hp. rewrite (lstrip_head _ _ _ Hp), Hd. reflexivity.
Qed.

Section Kept.
Variable P : ascii -> Prop.

Lemma lstrip_keeps (l : list ascii) : Forall P l -> Forall P (lstrip l).
Proof.
  induction 1 as [|c l Hc Hl IH]; cbn [lstrip]; [constructor|].
  destruct (is_space c); [exact IH|constructor; assumption].
Qed.

Lemma reverse_keeps (l : list ascii) : Forall P l -> Forall P (reverse l).
Proof.
  intros H. apply Forall_reverse. exact H.
Qed.

Lemma strip_keeps (l : list ascii) : Forall P l -> Forall P (strip l).
Proof.
  intros H. unfold strip.
  apply reverse_keeps, lstrip_keeps, reverse_keeps, lstrip_keeps, H.
Qed.

Lemma split_two_spaces_keeps (n : nat) (l cur : list ascii) :
  (length l <= n)%nat -> Forall P cur -> Forall P l ->
  Forall (Forall P) (split_two_spaces cur l).
Proof.
  revert l cur. induction n as [|n IH]; intros l cur Hn Hcur Hl.
  - destruct l; [|simpl in Hn; lia]. cbn. constructor; [|constructor].
    apply reverse_keeps, Hcur.
  - destruct l as [|c r]; cbn [split_two_spaces].
    + constructor; [|constructor]. apply reverse_keeps, Hcur.
    + inversion Hl as [|? ? Hc Hr]; subst.
      destruct r as [|d r'].
      * constructor; [|constructor]. apply reverse_keeps.
        constructor; assumption.
      * inversion Hr as [|? ? Hd Hr']; subst. simpl in Hn.
        destruct (Ascii.eqb c " " && Ascii.eqb d " ").
        -- constructor; [apply reverse_keeps, Hcur|].
           apply IH; [lia|constructor|exact Hr'].
        -- apply IH; [simpl; lia|constructor; assumption|exact Hr].
Qed.

End Kept.

Lemma splitlines_from_one_line (l cur : list ascii) (after_cr : bool) :
  Forall (fun c => is_linebreak c = false) cur ->
  Forall (Forall (fun c => is_linebreak c = false))
         (splitlines_from cur after_cr l).
Proof.
  revert cur after_cr. induction l as [|c r IH]; intros cur after_cr Hcur;
    cbn [splitlines_from].
  - destruct cur; [constructor|].
    constructor; [|constructor]. apply reverse_keeps, Hcur.
  - destruct (after_cr && Ascii.eqb c "010"); [apply IH, Hcur|].
    destruct (is_linebreak c) eqn:Hc.
    + constructor; [apply reverse_keeps, Hcur|]. apply IH. constructor.
    + apply IH. constructor; assumption.
Qed.

(** What the clean-up leaves: the cleaned text is its chunks joined by
    line feeds, and every chunk is non-empty, begins and ends with a
    character that is not white space, and holds no line end, so that the
    chunks are the lines of the cleaned text, none of them blank. *)
Theorem clean_text_lines (text : string) :
  exists chunks,
    clean_text text = join nl (map string_of_list_ascii chunks) /\
    Forall (fun chunk => trimmed chunk = true /\ one_line chunk = true) chunks.
Proof.
  unfold clean_text. eexists. split; [reflexivity|].
  apply List.Forall_forall. intros chunk Hin.
  apply List.filter_In in Hin. destruct Hin as [Hin Hne].
  apply List.in_flat_map in Hin. destruct Hin as (line & Hline & Hin).
  apply List.in_map_iff in Hin. destruct Hin as (piece & <- & Hpiece).
  apply List.in_map_iff in Hline. destruct Hline as (raw & <- & Hraw).
  split; [apply strip_trimmed, Hne|].
  unfold one_line. apply forallb_forall. intros c Hc.
  assert (Hkept : Forall (fun c => is_linebreak c = false) (strip piece)).
  { apply strip_keeps.
    assert (Hpieces : Forall (Forall (fun c => is_linebreak c = false))
                        (split_two_spaces [] (strip raw))).
    { apply (split_two_spaces_keeps _ (length (strip raw))); [lia|constructor|].
      apply strip_keeps.
      pose proof (splitlines_from_one_line (list_ascii_of_string text) [] false
                    (List.Forall_nil _)) as Hlines.
      rewrite List.Forall_forall in Hlines. apply Hlines. exact Hraw. }
    rewrite List.Forall_forall in Hpieces. apply Hpieces. exact Hpiece. }
  rewrite List.Forall_forall in Hkept. rewrite (Hkept c Hc). reflexivity.
Qed.

End StringFacts.

Module PipelineMore.
Import Pipeline PipelineSpec PipelineFacts More.

Section Facts.
Context {rt : Runtime} {sv : Services}.

Ltac run_create :=
  unfold bind, lift, ret, create, reply, after_completion; simpl;
  destruct (messages_create _ _) as [[content|e] w']; simpl;
  [destruct content as [|text rest]; simpl|]; try reflexivity.

(** ** Lengths *)

Lemma substring_prefix_min (n : nat) (s : string) :
  String.length (String.substring 0 n s) = Nat.min n (String.length s).
Proof.
  revert s. induction n as [|n IH]; intros [|c s]; simpl; try reflexivity.
  rewrite IH. reflexivity.
Qed.

Lemma slice_to_len (n : Z) (s : string) :
  (0 <= n)%Z -> len (slice_to n s) = Z.min n (len s).
Proof.
  intros Hn. rewrite slice_to_nonneg by exact Hn. unfold len.
  rewrite substring_prefix_min. lia.
Qed.

Lemma truncate_len (text : string) : (len (truncate text) <= 15022)%Z.
Proof.
  destruct (Z_gt_le_dec (len text) 15000) as [Hlong|Hshort].
  - destruct (truncate_long _ Hlong) as (-> & Hlen & _).
    unfold len in *. rewrite string_length_app.
    change (String.length truncation_marker) with 22%nat. lia.
  - rewrite (truncate_short _ Hshort). lia.
Qed.

(** ** [scrape_webpage] *)

Lemma scrape_webpage_failed (link : string) (e : exn) (w' : W) (s : St) :
  page_text link (fst s) = (Raise e, w') ->
  scrape_webpage link s = (Ok (scrape_failure link e), after_fetch link s).
Proof.
  intros Hp. unfold scrape_webpage, try_except, bind, fetch, ret, after_fetch.
  rewrite Hp. reflexivity.
Qed.

Lemma scrape_webpage_run (link : string) (s : St) :
  scrape_webpage link s =
  (Ok (match fst (page_text link (fst s)) with
       | Ok page => truncate (clean_text page)
       | Raise e => scrape_failure link e
       end), after_fetch link s).
Proof.
  unfold scrape_webpage, try_except, bind, fetch, ret, after_fetch.
  destruct (page_text link (fst s)) as [[page|e] w']; reflexivity.
Qed.

(** A fetched page is returned cleaned and whole when it has at most
    15000 characters, and what [scrape_webpage] returns for a fetched
    page never has more than 15022. *)
Theorem scrape_output_bounded (link page : string) (w' : W) (s : St) :
  page_text link (fst s) = (Ok page, w') ->
  exists out,
    scrape_webpage link s = (Ok out, (w', (snd s ++ [PageFetch link])%list)) /\
    (len out <= 15022)%Z /\
    ((len (clean_text page) <= 15000)%Z -> out = clean_text page).
Proof.
  intros Hp. exists (truncate (clean_text page)).
  split; [apply scrape_webpage_fetched; exact Hp|].
  split; [apply truncate_len|apply truncate_short].
Qed.

(** [scrape_webpage] never raises and asks for the page exactly once; a
    fetch that fails gives "Failed to scrape content from <url>: <error>",
    which is never the empty string. *)
Theorem scrape_never_raises (link : string) (s : St) :
  exists out,
    scrape_webpage link s = (Ok out, after_fetch link s) /\
    snd (after_fetch link s) = (snd s ++ [PageFetch link])%list /\
    forall e w', page_text link (fst s) = (Raise e, w') ->
      out = "Failed to scrape content from " ++ link ++ ": " ++ exn_msg e /\
      out <> "".
Proof.
  rewrite scrape_webpage_run. eexists. split; [reflexivity|].
  split; [reflexivity|]. intros e w' Hp. rewrite Hp. cbn [fst].
  split; [reflexivity|]. discriminate.
Qed.

(** The critic's prompt holds the first 3000 characters of the context
    and nothing of what follows them: the prompt is a fixed text around
    the query and the answer, then the longest prefix of the context of at
    most 3000 characters, then a fixed text. *)
Theorem evaluate_prompt_bounded (query answer : string) :
  exists before after,
    forall context,
    exists kept dropped,
      context = kept ++ dropped /\
      len kept = Z.min 3000 (len context) /\
      evaluate_prompt query answer context = before ++ kept ++ after.
Proof.
  pose proof (eq_refl (evaluate_prompt query answer "")) as Hshape.
  unfold evaluate_prompt at 2 in Hshape.
  match type of Hshape with
  | _ = ?a ++ query ++ ?b ++ answer ++ ?c ++ _ ++ ?d =>
      exists (a ++ query ++ b ++ answer ++ c), d
  end.
  clear Hshape. intros context.
  destruct (substring_prefix_split 3000 context) as [dropped Hsplit].
  exists (slice_to 3000 context), dropped.
  split; [rewrite slice_to_nonneg by lia; exact Hsplit|].
  split; [apply slice_to_len; lia|].
  unfold evaluate_prompt. rewrite !string_app_assoc. reflexivity.
Qed.

(** ** Every stage returns, and leaves one call behind *)

Lemma decide_run (query : string) (s : St) :
  exists d,
    decide_if_search_needed query s =
    (Ok d, after_completion (decide_request query) s).
Proof.
  unfold decide_if_search_needed, try_except. rewrite decide_attempt_reply.
  match goal with |- context [match ?o with _ => _ end] => destruct o end;
    unfold ret; eauto.
Qed.

Lemma evaluate_run (query answer context : string) (s : St) :
  evaluate_and_refine_answer query answer context s =
  (Ok (match (text <~ reply (evaluate_request query answer context) (fst s) ;;
              loads text)%py with
       | Ok v => v
       | Raise _ => evaluate_default answer
       end),
   after_completion (evaluate_request query answer context) s).
Proof.
  unfold evaluate_and_refine_answer, try_except. rewrite evaluate_attempt_reply.
  match goal with |- context [match ?o with _ => _ end] => destruct o end;
    reflexivity.
Qed.

Lemma answer_run (query context : string) (s : St) :
  answer_with_context query context s =
  (Ok (match reply (answer_request query context) (fst s) with
       | Ok text => text
       | Raise e => apology e
       end),
   after_completion (answer_request query context) s).
Proof. unfold answer_with_context, try_except. run_create. Qed.

Lemma rank_run (results : list SearchResult) (query : string) (s : St) :
  results <> [] ->
  exists out,
    rank_search_results results query s =
    (Ok out, after_completion (rank_request results query) s) /\
    (fst (rank_attempt results query s) = Ok out \/
     (exists e, fst (rank_attempt results query s) = Raise e) /\
     out = map ranking_failed results).
Proof.
  intros Hne. destruct results as [|r0 rest]; [congruence|].
  unfold rank_search_results, try_except.
  pose proof (rank_attempt_reply (r0 :: rest) query s) as Hr.
  destruct (rank_attempt (r0 :: rest) query s) as [[out|e] s1];
    injection Hr as _ ->; eexists; (split; [reflexivity|]); cbn [fst]; eauto.
Qed.

Lemma search_web_run (query : string) (n : Z) (s : St) :
  search_web query n s =
  (Ok (match fst (ddgs_text query n (fst s)) with
       | Ok hits => map format_hit hits
       | Raise _ => []
       end), after_search query n s).
Proof.
  unfold search_web, try_except, bind, ddgs, ret, after_search.
  destruct (ddgs_text query n (fst s)) as [[hits|e] w']; reflexivity.
Qed.

Lemma follow_up_attempt_reply (query : string) (answer : json) (s : St) :
  follow_up_attempt query answer s =
  ((text <~ reply (follow_up_request query answer) (fst s) ;;
    parsed <~ loads text ;;
    follow_ups <~ getitem parsed "follow_up_questions" ;;
    match follow_ups with
    | JArr l =>
        sorted <~ sort_by_key_desc (fun x => getitem x "priority") l ;;
        Ok (JArr sorted)
    | _ => Raise (Exn AttributeError (quoted (class_name follow_ups)
                                      ++ " object has no attribute 'sort'"))
    end)%py,
   after_completion (follow_up_request query answer) s).
Proof.
  unfold follow_up_attempt. run_create.
  destruct (loads text) as [p|e]; simpl; [|reflexivity].
  destruct (getitem p "follow_up_questions") as [f|e]; simpl; [|reflexivity].
  destruct f; try reflexivity. unfold raise.
  destruct (sort_by_key_desc _ l); reflexivity.
Qed.

Lemma follow_up_run (query : string) (answer : json) (s : St) :
  exists l,
    generate_follow_up_questions query answer s =
    (Ok (JArr l), after_completion (follow_up_request query answer) s) /\
    (fst (follow_up_attempt query answer s) = Ok (JArr l) \/
     (exists e, fst (follow_up_attempt query answer s) = Raise e) /\ l = []).
Proof.
  unfold generate_follow_up_questions, try_except.
  rewrite follow_up_attempt_reply. cbn [fst].
  destruct (reply (follow_up_request query answer) (fst s)) as [text|e]; simpl;
    [|exists []; unfold ret; eauto].
  destruct (loads text) as [p|e]; simpl; [|exists []; unfold ret; eauto].
  destruct (getitem p "follow_up_questions") as [f|e]; simpl;
    [|exists []; unfold ret; eauto].
  destruct f; try (exists []; unfold ret; eauto; fail).
  destruct (sort_by_key_desc _ l) as [sorted|e]; simpl;
    [exists sorted; auto|exists []; unfold ret; eauto].
Qed.

(** ** The sort with computed keys *)

Lemma map_outcome_keys {A} (f : A -> outcome json) (g : A -> json)
  (l : list A) (ks : list json) :
  (forall x k, f x = Ok k -> g x = k) ->
  map_outcome f l = Ok ks ->
  ks = map g l /\ Forall (fun x => f x = Ok (g x)) l.
Proof.
  intros Hfg. revert ks. induction l as [|x xs IH]; simpl; intros ks.
  - intros [= <-]. split; [reflexivity|constructor].
  - destruct (f x) as [k|e] eqn:Hx; simpl; [|discriminate].
    destruct (map_outcome f xs) as [ks'|e]; simpl; [|discriminate].
    intros [= <-]. destruct (IH ks' eq_refl) as [-> Hall].
    pose proof (Hfg x k Hx) as Hg. split; [rewrite Hg; reflexivity|].
    constructor; [rewrite Hg; exact Hx|exact Hall].
Qed.

Lemma map_outcome_raises {A B} (f : A -> outcome B) (l : list A) (x : A) (e : exn) :
  In x l -> f x = Raise e -> exists e', map_outcome f l = Raise e'.
Proof.
  intros Hin Hx. induction l as [|y ys IH]; [destruct Hin|].
  simpl. destruct Hin as [->|Hin].
  - rewrite Hx. simpl. eauto.
  - destruct (f y); simpl; [|eauto].
    destruct (IH Hin) as [e' ->]. simpl. eauto.
Qed.

Lemma place_desc_decorated {A} (key : A -> json) (x : A) (acc : list A) :
  place_desc fst (key x, x) (map (fun y => (key y, y)) acc) =
  map (fun y => (key y, y)) (place_desc key x acc).
Proof.
  induction acc as [|y ys IH]; simpl; [reflexivity|].
  destruct (below (key x) (key y)); simpl; [|reflexivity].
  rewrite IH. reflexivity.
Qed.

Lemma sorted_desc_decorated {A} (key : A -> json) (l : list A) :
  sorted_desc fst (map (fun y => (key y, y)) l) =
  map (fun y => (key y, y)) (sorted_desc key l).
Proof.
  induction l as [|x xs IH]; simpl; [reflexivity|].
  rewrite IH. apply place_desc_decorated.
Qed.

Lemma exchange_map {A B} (f : A -> B) (l : list A) (ij : nat * nat) :
  exchange (map f l) ij = map f (exchange l ij).
Proof.
  unfold exchange. change (map f l) with (f <$> l). rewrite !list_lookup_fmap.
  destruct (l !! ij.1) as [a|]; simpl; [|reflexivity].
  destruct (l !! ij.2) as [b|]; simpl; [|reflexivity].
  change (map f) with (fmap (M:=list) f). rewrite !list_fmap_insert. reflexivity.
Qed.

Lemma exchanged_map {A B} (f : A -> B) (swaps : list (nat * nat)) (l : list A) :
  exchanged swaps (map f l) = map f (exchanged swaps l).
Proof.
  unfold exchanged. revert l.
  induction swaps as [|ij swaps IH]; intros l; cbn [fold_left]; [reflexivity|].
  rewrite exchange_map. apply IH.
Qed.

Lemma sort_desc_decorated {A} (key : A -> json) (l : list A) :
  sort_desc fst (map (fun y => (key y, y)) l) =
  match sort_desc key l with
  | Ok r => Ok (map (fun y => (key y, y)) r)
  | Raise e => Raise e
  end.
Proof.
  unfold sort_desc. rewrite length_map, map_map. cbn [fst].
  destruct ((length l <? 2)%nat || ordered (map key l)).
  - rewrite sorted_desc_decorated. reflexivity.
  - destruct (sort_exchanges (map key l)) as [swaps|e]; simpl; [|reflexivity].
    rewrite exchanged_map. reflexivity.
Qed.

Lemma combine_map_self {A B} (g : A -> B) (l : list A) :
  combine (map g l) l = map (fun y => (g y, y)) l.
Proof. induction l as [|x xs IH]; simpl; [reflexivity|]. rewrite IH. reflexivity. Qed.

(** With keys that do not raise, the keyed sort is the sort on the keys'
    values. *)
Lemma sort_by_key_desc_total {A} (f : A -> outcome json) (g : A -> json)
  (l r : list A) :
  (forall x k, f x = Ok k -> g x = k) ->
  sort_by_key_desc f l = Ok r ->
  sort_desc g l = Ok r /\ Forall (fun x => f x = Ok (g x)) l.
Proof.
  intros Hfg. unfold sort_by_key_desc.
  destruct (map_outcome f l) as [ks|e] eqn:Hks; simpl; [|discriminate].
  destruct (map_outcome_keys f g l ks Hfg Hks) as [-> Hall].
  rewrite combine_map_self, sort_desc_decorated.
  destruct (sort_desc g l) as [s|e]; simpl; [|discriminate].
  intros [= <-]. split; [|exact Hall].
  rewrite map_map. simpl. rewrite map_id. reflexivity.
Qed.

Lemma priority_of_ok (x k : json) : getitem x "priority" = Ok k -> priority_of x = k.
Proof. unfold priority_of. intros ->. reflexivity. Qed.

(** ** [generate_follow_up_questions] *)

(** When the reply is read without error and the priorities are numbers
    other than NaN, the follow-up questions come back as the reply lists
    them, reordered by non-increasing priority, questions of equal
    priority in the order of the reply. *)
Theorem follow_ups_sorted (query : string) (answer : json)
  (sorted : list json) (s s' : St) :
  follow_up_attempt query answer s = (Ok (JArr sorted), s') ->
  Forall (fun x => real_number (priority_of x) = true) sorted ->
  exists text parsed questions,
    reply (follow_up_request query answer) (fst s) = Ok text /\
    json_loads text = Some parsed /\
    getitem parsed "follow_up_questions" = Ok (JArr questions) /\
    generate_follow_up_questions query answer s = (Ok (JArr sorted), s') /\
    Permutation questions sorted /\
    Forall (fun x => getitem x "priority" = Ok (priority_of x)) questions /\
    StronglySorted (not_below priority_of) sorted /\
    forall x, In x sorted ->
      List.filter (fun y => tie (priority_of x) (priority_of y)) sorted =
      List.filter (fun y => tie (priority_of x) (priority_of y)) questions.
Proof.
  intros Hrun Hnum.
  assert (Hgen : generate_follow_up_questions query answer s
                 = (Ok (JArr sorted), s')).
  { unfold generate_follow_up_questions, try_except. rewrite Hrun. reflexivity. }
  rewrite follow_up_attempt_reply in Hrun. injection Hrun as Hv _.
  destruct (reply (follow_up_request query answer) (fst s)) as [text|] eqn:Ht;
    [|discriminate].
  simpl in Hv. unfold loads in Hv.
  destruct (json_loads text) as [parsed|] eqn:Hj; [|discriminate].
  simpl in Hv.
  destruct (getitem parsed "follow_up_questions") as [f|] eqn:Hf; [|discriminate].
  simpl in Hv. destruct f as [| | | | |questions|]; try discriminate.
  destruct (sort_by_key_desc _ questions) as [sorted'|] eqn:Hsort; [|discriminate].
  simpl in Hv. injection Hv as ->.
  destruct (sort_by_key_desc_total _ priority_of _ _ priority_of_ok Hsort)
    as [Hs Hkeys].
  pose proof (sort_desc_perm _ _ _ Hs) as Hperm.
  assert (Hord : ordered (map priority_of questions) = true).
  { apply real_numbers_ordered. apply Forall_map.
    apply (Permutation_Forall (Permutation_sym Hperm)). exact Hnum. }
  destruct (sort_desc_spec priority_of _ Hord) as (r & Hr & _ & Hsorted & Hties).
  rewrite Hs in Hr. injection Hr as <-.
  exists text, parsed, questions. repeat split; auto.
  intros x Hx. apply Hties.
  apply (Permutation_in _ (Permutation_sym Hperm)). exact Hx.
Qed.

(** [generate_follow_up_questions] never raises, always returns a list
    and makes exactly one completion call; the list is empty unless the
    whole reply was read without error. *)
Theorem follow_ups_never_raise (query : string) (answer : json) (s : St) :
  exists l,
    generate_follow_up_questions query answer s =
    (Ok (JArr l), (snd (messages_create (follow_up_request query answer) (fst s)),
                   (snd s ++ [Completion (follow_up_request query answer)])%list)) /\
    (l <> [] -> fst (follow_up_attempt query answer s) = Ok (JArr l)).
Proof.
  destruct (follow_up_run query answer s) as (l & Hrun & Hcase).
  exists l. split; [exact Hrun|].
  intros Hl. destruct Hcase as [Hok|[_ Hnil]]; [exact Hok|congruence].
Qed.

(** One question without a [priority] key empties the whole list: the
    keys are computed before the sort and the [KeyError] is caught by the
    function's [except]. *)
Theorem follow_up_without_priority (query text : string) (answer parsed x : json)
  (questions : list json) (e : exn) (s : St) :
  reply (follow_up_request query answer) (fst s) = Ok text ->
  json_loads text = Some parsed ->
  getitem parsed "follow_up_questions" = Ok (JArr questions) ->
  In x questions ->
  getitem x "priority" = Raise e ->
  fst (generate_follow_up_questions query answer s) = Ok (JArr []).
Proof.
  intros Ht Hj Hf Hin Hx.
  unfold generate_follow_up_questions, try_except.
  rewrite follow_up_attempt_reply, Ht. simpl.
  rewrite (loads_Some _ _ Hj). simpl. rewrite Hf. simpl.
  unfold sort_by_key_desc.
  destruct (map_outcome_raises (fun y => getitem y "priority") questions x e
              Hin Hx) as [e' ->].
  reflexivity.
Qed.

(** ** [rank_search_results] *)

Lemma rank_attempt_ok (results : list SearchResult) (query : string) (s : St)
  (out : list RankedResult) :
  fst (rank_attempt results query s) = Ok out ->
  exists entries,
    ranking_entries results query (fst s) entries /\
    attach_all results entries = Ok (resolve results entries) /\
    sort_desc relevance_score (resolve results entries) = Ok out.
Proof.
  rewrite rank_attempt_reply. cbn [fst]. intros Hout.
  destruct (reply (rank_request results query) (fst s)) as [text|] eqn:Ht;
    [|discriminate].
  simpl in Hout. unfold loads in Hout.
  destruct (json_loads text) as [parsed|] eqn:Hj; [|discriminate].
  simpl in Hout. unfold rank_parsed in Hout.
  destruct (getitem parsed "rankings") as [rankings|] eqn:Hr; [|discriminate].
  simpl in Hout.
  destruct (iterate rankings) as [entries|] eqn:Hi; [|discriminate].
  simpl in Hout.
  destruct (attach_all results entries) as [kept|] eqn:Ha; [|discriminate].
  simpl in Hout. pose proof (attach_all_resolve _ _ _ Ha) as ->.
  exists entries. split; [|auto]. exists text, parsed, rankings. auto.
Qed.

Lemma ranking_failed_sorted (results : list SearchResult) :
  StronglySorted (not_below relevance_score) (map ranking_failed results).
Proof.
  induction results as [|r rest IH]; simpl; constructor; [exact IH|].
  apply List.Forall_forall. intros x Hx. apply in_map_iff in Hx.
  destruct Hx as (y & <- & _). unfold not_below. simpl. discriminate.
Qed.

(** Whatever the completion service answers, [rank_search_results]
    returns: every item it returns is an input item with a score and an
    explanation added, and when [<] puts the scores in one order (as it
    does with numbers other than NaN) the items stand in non-increasing
    order of score.  For an empty input it returns the empty list without
    any call; otherwise it makes exactly one completion call. *)
Theorem rank_output_always (results : list SearchResult) (query : string)
  (s : St) :
  exists out s',
    rank_search_results results query s = (Ok out, s') /\
    (forall r, In r out -> In (base r) results) /\
    (ordered (map relevance_score out) = true ->
     StronglySorted (not_below relevance_score) out) /\
    (Forall (fun r => real_number (relevance_score r) = true) out ->
     ordered (map relevance_score out) = true) /\
    (results = [] -> out = [] /\ s' = s) /\
    (results <> [] ->
     s' = (snd (messages_create (rank_request results query) (fst s)),
           (snd s ++ [Completion (rank_request results query)])%list)).
Proof.
  destruct results as [|r0 rest] eqn:Hres.
  { exists [], s. split; [reflexivity|]. split; [intros r []|].
    split; [constructor|]. split; [reflexivity|]. split; [auto|congruence]. }
  rewrite <- Hres. assert (Hne : results <> []) by (rewrite Hres; discriminate).
  clear Hres. destruct (rank_run results query s Hne) as (out & Hrun & Hcase).
  exists out, (after_completion (rank_request results query) s).
  split; [exact Hrun|].
  assert (Hprops : (forall r, In r out -> In (base r) results) /\
                   (ordered (map relevance_score out) = true ->
                    StronglySorted (not_below relevance_score) out)).
  { destruct Hcase as [Hok|[_ ->]].
    - destruct (rank_attempt_ok _ _ _ _ Hok) as (entries & _ & _ & Hsort).
      pose proof (sort_desc_perm _ _ _ Hsort) as Hperm.
      split.
      + intros r Hin. apply (Permutation_in _ (Permutation_sym Hperm)) in Hin.
        apply resolve_In in Hin. destruct Hin as (entry & i & _ & _ & Hi & _).
        apply list_elem_of_In. eapply list_elem_of_lookup_2. exact Hi.
      + intros Hord.
        assert (Hord' : ordered (map relevance_score (resolve results entries))
                        = true).
        { apply (ordered_perm (map relevance_score out)); [|exact Hord].
          apply Permutation_map, Permutation_sym, Hperm. }
        destruct (sort_desc_spec relevance_score _ Hord')
          as (r & Hr & _ & Hsorted & _).
        rewrite Hsort in Hr. injection Hr as <-. exact Hsorted.
    - split; [|intros _; apply ranking_failed_sorted].
      intros r Hin. apply in_map_iff in Hin. destruct Hin as (y & <- & Hy).
      exact Hy. }
  destruct Hprops as [Hfrom Hsorted].
  split; [exact Hfrom|]. split; [exact Hsorted|].
  split; [intros Hnum; apply real_numbers_ordered, Forall_map; exact Hnum|].
  split; [congruence|].
  intros _. reflexivity.
Qed.

Lemma attach_valid (results : list SearchResult) (entry : json)
  (o : option RankedResult) :
  attach results entry = Ok o ->
  valid_entry results entry = match o with Some _ => true | None => false end.
Proof.
  unfold attach, valid_entry, valid_position.
  destruct (getitem entry "index") as [idx|e]; cbn [obind]; [|discriminate].
  destruct (as_int idx) as [i|] eqn:Hi.
  - rewrite (py_le_ints (JNum 0) idx 0 i eq_refl Hi). cbn [obind].
    destruct (0 <=? i)%Z eqn:Hlo; cbn [andb].
    2: { intros [= <-]. reflexivity. }
    rewrite (py_lt_ints idx (JNum (Z.of_nat (length results))) i _ Hi eq_refl).
    cbn [obind].
    destruct (i <? Z.of_nat (length results))%Z eqn:Hhi.
    2: { intros [= <-]. reflexivity. }
    destruct (results !! Z.to_nat i) as [result|] eqn:Hr; [|discriminate].
    destruct (getitem entry "score") as [score|e]; cbn [obind]; [|discriminate].
    destruct (getitem entry "explanation") as [expl|e]; cbn [obind];
      [|discriminate].
    intros [= <-]. reflexivity.
  - destruct idx as [|[]|n|f|t|l|kvs]; try discriminate Hi; try discriminate.
    rewrite (py_le_numbers (JNum 0) (JFloat f) _ f eq_refl eq_refl).
    cbn [obind]. destruct (float_le _ f); [|intros [= <-]; reflexivity].
    rewrite (py_lt_numbers (JFloat f) (JNum (Z.of_nat (length results))) f _
               eq_refl eq_refl).
    cbn [obind]. destruct (float_lt f _); [discriminate|].
    intros [= <-]. reflexivity.
Qed.

Lemma attach_all_length (results : list SearchResult) (entries : list json)
  (kept : list RankedResult) :
  attach_all results entries = Ok kept ->
  length kept = length (List.filter (valid_entry results) entries).
Proof.
  revert kept. induction entries as [|entry rest IH]; simpl; intros kept.
  - intros [= <-]. reflexivity.
  - destruct (attach results entry) as [o|e] eqn:Ha; simpl; [|discriminate].
    destruct (attach_all results rest) as [rs|e]; simpl; [|discriminate].
    intros [= <-]. rewrite (attach_valid _ _ _ Ha).
    destruct o; simpl; rewrite (IH rs eq_refl); reflexivity.
Qed.

(** A ranking that is read without error gives one output item per entry
    with a valid index: an index the response names twice gives its item
    twice, and an input item no entry names is left out. *)
Theorem rank_output_length (results : list SearchResult) (query : string)
  (s s' : St) (out : list RankedResult) :
  results <> [] ->
  rank_attempt results query s = (Ok out, s') ->
  rank_search_results results query s = (Ok out, s') /\
  exists entries,
    ranking_entries results query (fst s) entries /\
    length out = length (List.filter (valid_entry results) entries).
Proof.
  intros Hne Hrun. split.
  { destruct results as [|r0 rest]; [congruence|].
    unfold rank_search_results, try_except. rewrite Hrun. reflexivity. }
  assert (Hok : fst (rank_attempt results query s) = Ok out)
    by (rewrite Hrun; reflexivity).
  destruct (rank_attempt_ok _ _ _ _ Hok) as (entries & Hentries & Hattach & Hsort).
  exists entries. split; [exact Hentries|].
  rewrite <- (Permutation_length (sort_desc_perm _ _ _ Hsort)).
  apply attach_all_length. exact Hattach.
Qed.

(** ** [get_context_from_results] *)

Lemma after_fetches_trace (links : list string) (s : St) :
  snd (after_fetches links s) = (snd s ++ map PageFetch links)%list.
Proof.
  revert s. induction links as [|l rest IH]; intros s; simpl.
  - rewrite app_nil_r. reflexivity.
  - rewrite IH. simpl. rewrite <- app_assoc. reflexivity.
Qed.

Lemma gather_run (i : nat) (top_results : list RankedResult) (s : St) :
  exists sections,
    gather i top_results s =
    (Ok sections, after_fetches (map link_of top_results) s) /\
    (length sections <= length top_results)%nat.
Proof.
  revert i s. induction top_results as [|r rest IH]; intros i s.
  - exists []. split; [reflexivity|]. simpl. lia.
  - cbn [gather]. unfold bind. rewrite scrape_webpage_run.
    destruct (IH (S i) (after_fetch (url (base r)) s)) as (later & Hlater & Hlen).
    rewrite Hlater. unfold ret. eexists. split; [reflexivity|].
    destruct (String.eqb _ ""); simpl; lia.
Qed.

Lemma get_context_run (ranked_results : list RankedResult) (m : Z) (s : St) :
  exists context,
    get_context_from_results ranked_results m s =
    (Ok context,
     after_fetches (map link_of (list_slice_to m ranked_results)) s).
Proof.
  unfold get_context_from_results, bind.
  destruct (gather_run 0 (list_slice_to m ranked_results) s) as (secs & -> & _).
  unfold ret. eauto.
Qed.

(** With a non-negative [max_results], the context builder fetches the
    pages of the first [max_results] ranked results (all of them when
    there are fewer), in rank order, and nothing else: it never fetches
    more than [max_results] pages, makes no other call, and never
    raises. *)
Theorem context_fetches_top (ranked_results : list RankedResult) (m : Z) (s : St) :
  (0 <= m)%Z ->
  exists context s',
    get_context_from_results ranked_results m s = (Ok context, s') /\
    snd s' = (snd s ++ map PageFetch
                (map link_of (firstn (Z.to_nat m) ranked_results)))%list /\
    Z.of_nat (length (firstn (Z.to_nat m) ranked_results)) =
      Z.min m (Z.of_nat (length ranked_results)).
Proof.
  intros Hm. destruct (get_context_run ranked_results m s) as (context & Hrun).
  exists context. eexists. split; [exact Hrun|].
  rewrite after_fetches_trace. unfold list_slice_to.
  apply Z.leb_le in Hm. rewrite Hm. split; [reflexivity|].
  rewrite length_firstn. lia.
Qed.

(** A negative [max_results] does not mean "none": as a slice bound it
    drops that many results from the end, and the pages of all the others
    are fetched. *)
Theorem context_negative_bound (ranked_results : list RankedResult) (m : Z)
  (s : St) :
  (m < 0)%Z ->
  exists context s',
    get_context_from_results ranked_results m s = (Ok context, s') /\
    snd s' = (snd s ++ map PageFetch
                (map link_of
                   (firstn (length ranked_results - Z.to_nat (- m))
                           ranked_results)))%list.
Proof.
  intros Hm. destruct (get_context_run ranked_results m s) as (context & Hrun).
  exists context. eexists. split; [exact Hrun|].
  rewrite after_fetches_trace. unfold list_slice_to.
  assert (Hneg : (0 <=? m)%Z = false) by (apply Z.leb_gt; lia).
  rewrite Hneg.
  replace (Z.to_nat (Z.of_nat (length ranked_results) + m))
    with (length ranked_results - Z.to_nat (- m))%nat by lia.
  reflexivity.
Qed.

(** A page that cannot be fetched does not stop the loop: its section is
    there, with the failure text in place of the content, and the
    sections of the pages after it follow. *)
Theorem failed_page_keeps_section (i : nat) (result : RankedResult)
  (rest : list RankedResult) (e : exn) (w' : W) (s : St) :
  page_text (url (base result)) (fst s) = (Raise e, w') ->
  exists later s',
    gather (S i) rest (w', (snd s ++ [PageFetch (url (base result))])%list)
      = (Ok later, s') /\
    gather i (result :: rest) s =
    (Ok (("Source " ++ pretty (i + 1)%nat ++ ": " ++ title (base result)
          ++ " (" ++ url (base result) ++ ")" ++ nl ++ nl
          ++ "Failed to scrape content from " ++ url (base result) ++ ": "
          ++ exn_msg e ++ nl ++ nl) :: later), s').
Proof.
  intros Hp.
  destruct (gather_run (S i) rest
              (w', (snd s ++ [PageFetch (url (base result))])%list))
    as (later & Hlater & _).
  exists later. eexists. split; [exact Hlater|].
  cbn [gather]. unfold bind.
  rewrite (scrape_webpage_failed _ _ _ _ Hp). unfold after_fetch. rewrite Hp.
  cbn [snd]. rewrite Hlater. unfold ret, scrape_failure, source_section.
  cbn [String.eqb]. rewrite !string_app_assoc. reflexivity.
Qed.

(** A page whose cleaned text is empty gets no section; the sections after
    it keep the numbers of their ranks, so the numbering shows a gap. *)
Theorem empty_page_skipped (i : nat) (result : RankedResult)
  (rest : list RankedResult) (page : string) (w' : W) (s : St) :
  page_text (url (base result)) (fst s) = (Ok page, w') ->
  clean_text page = "" ->
  gather i (result :: rest) s =
  gather (S i) rest (w', (snd s ++ [PageFetch (url (base result))])%list).
Proof.
  intros Hp Hempty. cbn [gather]. unfold bind.
  rewrite (scrape_webpage_fetched _ _ _ _ Hp), Hempty.
  change (truncate "") with "". cbn [String.eqb].
  destruct (gather (S i) rest _) as [[later|e] s']; reflexivity.
Qed.

(** ** [process_query] *)

Lemma follow_up_step_run (query : string) (result : gmap string json)
  (answer : json) (s : St) :
  result !! "answer" = Some answer ->
  exists l,
    follow_up_step query result s =
    (Ok (<["follow_up_questions" := JArr l]> result),
     after_completion (follow_up_request query answer) s).
Proof.
  intros Ha. unfold follow_up_step. rewrite Ha. unfold bind.
  destruct (follow_up_run query answer s) as (l & -> & _).
  exists l. reflexivity.
Qed.

(** The branch with search results at hand, stage by stage. *)
Lemma searched_branch_run (query : string) (m : Z)
  (search_results : list SearchResult) (result : gmap string json) (s : St) :
  search_results <> [] ->
  exists ranked context initial evaluation,
    rank_search_results search_results query s =
      (Ok ranked, after_completion (rank_request search_results query) s) /\
    let s1 := after_completion (rank_request search_results query) s in
    let s2 := after_fetches (map link_of (list_slice_to m ranked)) s1 in
    let s3 := after_completion (answer_request query context) s2 in
    let s4 := after_completion (evaluate_request query initial context) s3 in
    get_context_from_results ranked m s1 = (Ok context, s2) /\
    answer_with_context query context s2 = (Ok initial, s3) /\
    evaluate_and_refine_answer query initial context s3 = (Ok evaluation, s4) /\
    (evaluation = evaluate_default initial \/
     exists text, json_loads text = Some evaluation) /\
    searched_branch query m search_results result s =
    (match getitem evaluation "evaluation", getitem evaluation "issues",
           getitem evaluation "refined_answer" with
     | Ok scores, Ok issues, Ok refined =>
         Ok (<["context" := JStr context]>
             (<["answer" := refined]>
             (<["refined_answer" := refined]>
             (<["issues" := issues]>
             (<["evaluation" := scores]>
             (<["initial_answer" := JStr initial]> result))))))
     | Raise e, _, _ => Raise e
     | Ok _, Raise e, _ => Raise e
     | Ok _, Ok _, Raise e => Raise e
     end, s4).
Proof.
  intros Hne. destruct (rank_run search_results query s Hne) as (ranked & Hrank & _).
  destruct (get_context_run ranked m
              (after_completion (rank_request search_results query) s))
    as (context & Hctx).
  pose proof (answer_run query context
                (after_fetches (map link_of (list_slice_to m ranked))
                   (after_completion (rank_request search_results query) s)))
    as Hans.
  remember (match reply (answer_request query context) _ with
            | Ok text => text
            | Raise e => apology e
            end) as initial eqn:Hinit in Hans.
  pose proof (evaluate_run query initial context
                (after_completion (answer_request query context)
                   (after_fetches (map link_of (list_slice_to m ranked))
                      (after_completion (rank_request search_results query) s))))
    as Hev.
  remember (match (text <~ reply (evaluate_request query initial context) _ ;;
                   loads text)%py with
            | Ok v => v
            | Raise _ => evaluate_default initial
            end) as evaluation eqn:Hval in Hev.
  exists ranked, context, initial, evaluation. split; [exact Hrank|].
  cbn zeta. split; [exact Hctx|]. split; [exact Hans|]. split; [exact Hev|]. split.
  - destruct (text <~ reply (evaluate_request query initial context) _ ;;
              loads text)%py as [v|e] eqn:Hv in Hval; [right|left; exact Hval].
    subst evaluation.
    destruct (reply (evaluate_request query initial context) _) as [text|];
      [|discriminate].
    simpl in Hv. unfold loads in Hv.
    destruct (json_loads text) eqn:Hj; [|discriminate].
    injection Hv as <-. eauto.
  - unfold searched_branch, bind, lift, ret.
    rewrite Hrank, Hctx, Hans, Hev.
    destruct (getitem evaluation "evaluation"); [|reflexivity].
    destruct (getitem evaluation "issues"); [|reflexivity].
    destruct (getitem evaluation "refined_answer"); reflexivity.
Qed.

Lemma after_completion_trace (r : request) (s : St) :
  snd (after_completion r s) = (snd s ++ [Completion r])%list.
Proof. reflexivity. Qed.

(** The order of the calls on the full search path.  A result with a
    [context] comes from: the classifier; the search, which found
    something; the ranker on what the search found; the fetches of the
    pages of the first [max_context_results] results the ranker returned,
    in its order; the answer on the context built from them; the critic on
    that answer and context; and the follow-up generator on the refined
    answer.  Seven stages, each called once, and no other call. *)
Theorem search_path_calls (query : string) (n m : Z) (s s' : St)
  (r : gmap string json) (context : string) :
  process_query query n m s = (Ok r, s') ->
  r !! "context" = Some (JStr context) ->
  exists search_results ranked initial refined,
    let s1 := after_search query n (after_completion (decide_request query) s) in
    let s2 := after_completion (rank_request search_results query) s1 in
    let s3 := after_fetches (map link_of (list_slice_to m ranked)) s2 in
    search_web query n (after_completion (decide_request query) s)
      = (Ok search_results, s1) /\
    search_results <> [] /\
    rank_search_results search_results query s1 = (Ok ranked, s2) /\
    get_context_from_results ranked m s2 = (Ok context, s3) /\
    answer_with_context query context s3
      = (Ok initial, after_completion (answer_request query context) s3) /\
    r !! "initial_answer" = Some (JStr initial) /\
    r !! "answer" = Some refined /\
    snd s' =
      (snd s
       ++ [Completion (decide_request query);
           WebSearch query n;
           Completion (rank_request search_results query)]
       ++ map PageFetch (map link_of (list_slice_to m ranked))
       ++ [Completion (answer_request query context);
           Completion (evaluate_request query initial context);
           Completion (follow_up_request query refined)])%list.
Proof.
  unfold process_query. unfold bind at 1.
  destruct (decide_run query s) as ([needed reasoning] & ->). cbn [fst snd].
  destruct (truthy needed).
  - unfold bind at 1.
    pose proof (search_web_run query n
                  (after_completion (decide_request query) s)) as Hweb.
    rewrite Hweb.
    match type of Hweb with
      _ = (Ok ?found, _) => remember found as search_results eqn:Hfound
    end.
    destruct search_results as [|r0 rest] eqn:Hres.
    { unfold ret. intros [= <- _] Hc. discriminate Hc. }
    rewrite <- Hres in *. assert (Hne : search_results <> [])
      by (rewrite Hres; discriminate).
    clear Hres. unfold bind.
    match goal with |- context [searched_branch query m ?rs ?res ?st] =>
      destruct (searched_branch_run query m rs res st Hne)
        as (ranked & ctx & initial & evaluation & Hrank & Hctx & Hans & _ & _ & ->)
    end.
    destruct (getitem evaluation "evaluation") as [scores|]; [|discriminate].
    destruct (getitem evaluation "issues") as [issues|]; [|discriminate].
    destruct (getitem evaluation "refined_answer") as [refined|]; [|discriminate].
    match goal with |- context [follow_up_step query ?res ?st] =>
      destruct (follow_up_step_run query res refined st eq_refl) as (l & ->) end.
    intros [= <- <-] Hc.
    assert (Hsame : ctx = context).
    { rewrite lookup_insert_ne in Hc by discriminate.
      rewrite lookup_insert_eq in Hc. congruence. }
    subst ctx. exists search_results, ranked, initial, refined. cbn zeta.
    split; [reflexivity|]. split; [exact Hne|]. split; [exact Hrank|].
    split; [exact Hctx|]. split; [exact Hans|].
    split; [reflexivity|]. split; [reflexivity|].
    repeat first [rewrite after_completion_trace
                 |rewrite after_fetches_trace
                 |progress (unfold after_search; cbn [snd])].
    rewrite <- !app_assoc. reflexivity.
  - unfold bind. rewrite direct_branch_reply.
    destruct (reply (direct_request query) _) as [text|e];
      match goal with |- context [follow_up_step query ?res ?st] =>
        destruct (follow_up_step_run query res _ st eq_refl) as (l & ->) end;
      intros [= <- _] Hc; discriminate Hc.
Qed.

(** A result with [search_performed] false comes from three completion
    calls and nothing else: the classifier, the direct answer and the
    follow-up generator on that answer.  Nothing was searched or fetched,
    and the result has no [context]. *)
Theorem direct_path_calls (query : string) (n m : Z) (s s' : St)
  (r : gmap string json) :
  process_query query n m s = (Ok r, s') ->
  r !! "search_performed" = Some (JBool false) ->
  exists answer,
    r !! "answer" = Some answer /\
    r !! "context" = None /\
    snd s' =
      (snd s ++ [Completion (decide_request query);
                 Completion (direct_request query);
                 Completion (follow_up_request query answer)])%list.
Proof.
  unfold process_query. unfold bind at 1.
  destruct (decide_run query s) as ([needed reasoning] & ->). cbn [fst snd].
  destruct (truthy needed).
  - unfold bind at 1. rewrite search_web_run.
    match goal with |- context [match ?o with Ok hits => _ | Raise _ => _ end] =>
      destruct o as [hits|] end.
    2: { unfold ret. intros [= <- _] Hc. discriminate Hc. }
    destruct (map format_hit hits) as [|r0 rest] eqn:Hres.
    { unfold ret. intros [= <- _] Hc. discriminate Hc. }
    rewrite <- Hres. assert (Hne : map format_hit hits <> [])
      by (rewrite Hres; discriminate).
    clear Hres. unfold bind.
    match goal with |- context [searched_branch query m ?rs ?res ?st] =>
      destruct (searched_branch_run query m rs res st Hne)
        as (ranked & ctx & initial & evaluation & _ & _ & _ & _ & _ & ->) end.
    destruct (getitem evaluation "evaluation") as [scores|]; [|discriminate].
    destruct (getitem evaluation "issues") as [issues|]; [|discriminate].
    destruct (getitem evaluation "refined_answer") as [refined|]; [|discriminate].
    match goal with |- context [follow_up_step query ?res ?st] =>
      destruct (follow_up_step_run query res refined st eq_refl) as (l & ->) end.
    intros [= <- _] Hc. discriminate Hc.
  - unfold bind. rewrite direct_branch_reply.
    destruct (reply (direct_request query) _) as [text|e];
      match goal with |- context [follow_up_step query ?res ?st] =>
        destruct (follow_up_step_run query res _ st eq_refl) as (l & ->) end;
      intros [= <- <-] _; eexists; (split; [reflexivity|]);
      (split; [reflexivity|]);
      rewrite !after_completion_trace, <- !app_assoc; reflexivity.
Qed.

(** [process_query] raises in one case only: the critic's reply was
    parsed, and the parsed value lacks [evaluation], [issues] or
    [refined_answer] (or is no object at all).  The exception is the one
    of that lookup, the critic's call is the last call made, and no
    result is returned. *)
Theorem process_query_raises_only_on_critic (query : string) (n m : Z)
  (s s' : St) (e : exn) :
  process_query query n m s = (Raise e, s') ->
  exists text evaluation k initial context,
    json_loads text = Some evaluation /\
    In k ["evaluation"; "issues"; "refined_answer"] /\
    getitem evaluation k = Raise e /\
    (exn_class e = KeyError \/ exn_class e = TypeError) /\
    last (snd s') = Some (Completion (evaluate_request query initial context)).
Proof.
  unfold process_query. unfold bind at 1.
  destruct (decide_run query s) as ([needed reasoning] & ->). cbn [fst snd].
  destruct (truthy needed).
  - unfold bind at 1. rewrite search_web_run.
    match goal with |- context [match ?o with Ok hits => _ | Raise _ => _ end] =>
      destruct o as [hits|] end.
    2: { unfold ret. discriminate. }
    destruct (map format_hit hits) as [|r0 rest] eqn:Hres.
    { unfold ret. discriminate. }
    rewrite <- Hres. assert (Hne : map format_hit hits <> [])
      by (rewrite Hres; discriminate).
    clear Hres. unfold bind.
    match goal with |- context [searched_branch query m ?rs ?res ?st] =>
      destruct (searched_branch_run query m rs res st Hne)
        as (ranked & ctx & initial & evaluation & _ & _ & _ & _ & Hfrom & ->) end.
    assert (Hclass : forall k e0, getitem evaluation k = Raise e0 ->
                       exn_class e0 = KeyError \/ exn_class e0 = TypeError).
    { intros k e0. unfold getitem. destruct evaluation; try (intros [= <-]; auto).
      destruct (assoc k kvs); [discriminate|]. intros [= <-]. auto. }
    assert (Hparsed : forall k e0, getitem evaluation k = Raise e0 ->
                        In k ["evaluation"; "issues"; "refined_answer"] ->
                        exists text, json_loads text = Some evaluation).
    { intros k e0 Hk Hin. destruct Hfrom as [->|Hex]; [|exact Hex].
      simpl in Hin. destruct Hin as [<-|[<-|[<-|[]]]]; discriminate Hk. }
    destruct (getitem evaluation "evaluation") as [scores|e1] eqn:H1.
    2: { intros [= <- <-].
         destruct (Hparsed _ _ H1 ltac:(simpl; auto)) as [text Ht].
         exists text, evaluation, "evaluation", initial, ctx.
         split; [exact Ht|]. split; [simpl; auto|]. split; [exact H1|].
         split; [exact (Hclass _ _ H1)|].
         rewrite after_completion_trace. apply last_snoc. }
    destruct (getitem evaluation "issues") as [issues|e2] eqn:H2.
    2: { intros [= <- <-].
         destruct (Hparsed _ _ H2 ltac:(simpl; auto)) as [text Ht].
         exists text, evaluation, "issues", initial, ctx.
         split; [exact Ht|]. split; [simpl; auto|]. split; [exact H2|].
         split; [exact (Hclass _ _ H2)|].
         rewrite after_completion_trace. apply last_snoc. }
    destruct (getitem evaluation "refined_answer") as [refined|e3] eqn:H3.
    2: { intros [= <- <-].
         destruct (Hparsed _ _ H3 ltac:(simpl; auto)) as [text Ht].
         exists text, evaluation, "refined_answer", initial, ctx.
         split; [exact Ht|]. split; [simpl; auto|]. split; [exact H3|].
         split; [exact (Hclass _ _ H3)|].
         rewrite after_completion_trace. apply last_snoc. }
    match goal with |- context [follow_up_step query ?res ?st] =>
      destruct (follow_up_step_run query res refined st eq_refl) as (l & ->) end.
    discriminate.
  - unfold bind. rewrite direct_branch_reply.
    destruct (reply (direct_request query) _) as [text|e0];
      match goal with |- context [follow_up_step query ?res ?st] =>
        destruct (follow_up_step_run query res _ st eq_refl) as (l & ->) end;
      discriminate.
Qed.

(** What every result records about the run: the query, the classifier's
    reasoning under [search_decision_reasoning], and whether its
    [search_needed] value was true in Python's sense, so that a non-empty
    string (even "false") or a non-zero number counts as yes.  The
    [reasoning] key of the initial record is never written again and is
    always the empty string. *)
Theorem result_bookkeeping (query : string) (n m : Z) (s s' : St)
  (r : gmap string json) :
  process_query query n m s = (Ok r, s') ->
  exists search_needed reasoning,
    decide_if_search_needed query s =
      (Ok (search_needed, reasoning),
       (snd (messages_create (decide_request query) (fst s)),
        (snd s ++ [Completion (decide_request query)])%list)) /\
    r !! "original_query" = Some (JStr query) /\
    r !! "search_performed" = Some (JBool (truthy search_needed)) /\
    r !! "search_decision_reasoning" = Some reasoning /\
    r !! "reasoning" = Some (JStr "") /\
    exists l, r !! "follow_up_questions" = Some (JArr l).
Proof.
  unfold process_query. unfold bind at 1.
  destruct (decide_run query s) as ([needed reasoning] & Hd). rewrite Hd.
  cbn [fst snd]. intros Hrun. exists needed, reasoning. split; [reflexivity|].
  destruct (truthy needed).
  - unfold bind at 1 in Hrun. rewrite search_web_run in Hrun.
    match type of Hrun with context [match ?o with Ok hits => _ | Raise _ => _ end] =>
      destruct o as [hits|] end.
    2: { unfold ret in Hrun. injection Hrun as <- _.
         repeat split; try reflexivity. exists []. reflexivity. }
    destruct (map format_hit hits) as [|r0 rest] eqn:Hres.
    { unfold ret in Hrun. injection Hrun as <- _.
      repeat split; try reflexivity. exists []. reflexivity. }
    unfold bind in Hrun.
    destruct (searched_branch _ _ _ _ _) as [[r1|e] s3] eqn:Hb; [|discriminate].
    apply searched_branch_result in Hb.
    destruct Hb as (ia & sc & iss & ref & ctx & ->).
    match type of Hrun with context [follow_up_step query ?res ?st] =>
      destruct (follow_up_step_run query res ref st eq_refl) as (l & Hf) end.
    rewrite Hf in Hrun. injection Hrun as <- _.
    repeat split; try reflexivity. exists l. reflexivity.
  - unfold bind in Hrun. rewrite direct_branch_reply in Hrun.
    destruct (reply (direct_request query) _) as [text|e];
      match type of Hrun with context [follow_up_step query ?res ?st] =>
        destruct (follow_up_step_run query res _ st eq_refl) as (l & Hf) end;
      rewrite Hf in Hrun; injection Hrun as <- _;
      repeat split; try reflexivity; exists l; reflexivity.
Qed.

(** The classifier tolerates prose around its JSON: when the reply holds
    an object between its first opening and its last closing brace, the
    text before and after is dropped, and the decision is read from the
    object alone. *)
Theorem decide_tolerates_prose (query pre mid post : string)
  (decision search_needed reasoning : json) (s : St) :
  reply (decide_request query) (fst s) = Ok (pre ++ "{" ++ mid ++ "}" ++ post) ->
  occurs "{" pre = false ->
  occurs "}" post = false ->
  json_loads ("{" ++ mid ++ "}") = Some decision ->
  getitem decision "search_needed" = Ok search_needed ->
  getitem decision "reasoning" = Ok reasoning ->
  decide_if_search_needed query s =
  (Ok (search_needed, reasoning), after_completion (decide_request query) s).
Proof.
  intros Hreply Hpre Hpost Hloads Hneeded Hreasoning.
  unfold decide_if_search_needed, try_except. rewrite decide_attempt_reply.
  rewrite Hreply. cbn [obind].
  assert (Hpart : json_part (pre ++ "{" ++ mid ++ "}" ++ post) = "{" ++ mid ++ "}").
  { unfold json_part, search_braces.
    change ("{" ++ mid ++ "}" ++ post) with (String "{" (mid ++ String "}" post)).
    rewrite (StringFacts.from_first_open_skips _ _ Hpre).
    rewrite (StringFacts.upto_last_close_keeps _ _ Hpost). reflexivity. }
  rewrite Hpart, (loads_Some _ _ Hloads). cbn [obind].
  rewrite Hneeded. cbn [obind]. rewrite Hreasoning. reflexivity.
Qed.

(** A search that fails reads as a search that finds nothing: when the
    classifier asks for a search and the provider raises, the pipeline
    returns the fixed no-results answer, with [search_performed] set, and
    makes no further call. *)
Theorem search_failure_reads_as_no_results (query : string) (n m : Z) (s : St)
  (search_needed reasoning : json) (e : exn) :
  fst (decide_if_search_needed query s) = Ok (search_needed, reasoning) ->
  truthy search_needed = true ->
  fst (ddgs_text query n (snd (messages_create (decide_request query) (fst s))))
    = Raise e ->
  exists r s',
    process_query query n m s = (Ok r, s') /\
    r !! "answer" =
      Some (JStr "I couldn't find any relevant information on the web for your query.") /\
    r !! "search_performed" = Some (JBool true) /\
    r !! "follow_up_questions" = Some (JArr []) /\
    snd s' = (snd s ++ [Completion (decide_request query); WebSearch query n])%list.
Proof.
  intros Hdecide Hneeded Hsearch.
  destruct (decide_run query s) as (d & Hd). rewrite Hd in Hdecide.
  cbn [fst] in Hdecide. injection Hdecide as ->.
  assert (Hweb : search_web query n (after_completion (decide_request query) s)
                 = (Ok [], after_search query n
                             (after_completion (decide_request query) s))).
  { rewrite search_web_run.
    change (fst (after_completion (decide_request query) s))
      with (snd (messages_create (decide_request query) (fst s))).
    rewrite Hsearch. reflexivity. }
  eexists _, _. split.
  - apply (process_query_no_results query n m s _ _ search_needed reasoning Hd
             Hneeded Hweb).
  - split; [reflexivity|]. split; [reflexivity|]. split; [reflexivity|].
    unfold after_search, after_completion. cbn [snd].
    rewrite <- app_assoc. reflexivity.
Qed.

End Facts.

Section Classifier.
Context {sv : Services}.

(** What the classifier hands to [json.loads], whatever the runtime: when
    the reply has an opening brace with a closing brace somewhere after it,
    the piece from the first opening brace to the last closing brace, with
    no opening brace before it and no closing brace after it; and the
    reply itself, unchanged, when it has no such pair.  Nothing else of the
    reply reaches the decision. *)
Theorem classifier_reads_braces (query content : string) (s : St) :
  reply (decide_request query) (fst s) = Ok content ->
  exists text,
    ((exists pre mid post,
        content = pre ++ text ++ post /\ text = "{" ++ mid ++ "}" /\
        occurs "{" pre = false /\ occurs "}" post = false) \/
     (text = content /\
      forall pre mid post, content <> pre ++ "{" ++ mid ++ "}" ++ post)) /\
    forall rt : Runtime,
      decide_attempt (rt:=rt) query s =
      ((decision <~ loads (rt:=rt) text ;;
        search_needed <~ getitem decision "search_needed" ;;
        reasoning <~ getitem decision "reasoning" ;;
        Ok (search_needed, reasoning))%py,
       after_completion (decide_request query) s).
Proof.
  intros Hreply. exists (json_part content). split.
  - unfold json_part. pose proof (StringFacts.search_braces_cases content) as Hcases.
    destruct (search_braces content) as [found|]; [left|right].
    + exact Hcases.
    + split; [reflexivity|exact Hcases].
  - intros rt. rewrite decide_attempt_reply, Hreply. reflexivity.
Qed.

End Classifier.

End PipelineMore.

(** * The first version of the pipeline *)

Module BasicFacts.
Import Pipeline PipelineSpec PipelineFacts More PipelineMore.

Section Facts.
Context {rt : Runtime} {sv : Services} {jc : Basic.JsonCompletion}.

Lemma basic_rank_run (results : list SearchResult) (query : string) (s : St) :
  results <> [] ->
  exists out w',
    Basic.rank_search_results results query s =
    (Ok out, (w', (snd s ++ [Completion (rank_request results query)])%list)).
Proof.
  intros Hne. destruct results as [|r0 rest]; [congruence|].
  unfold Basic.rank_search_results, try_except, Basic.rank_attempt, bind,
    Basic.create_json, lift, ret.
  destruct (Basic.messages_create_json _ _) as [[content|e] w']; [|eauto].
  destruct (first_text content) as [text|e]; [|eauto].
  destruct (loads text) as [parsed|e]; [|eauto].
  destruct (rank_parsed (r0 :: rest) parsed); eauto.
Qed.

(** The first version of [process_query] always returns a string and
    never raises.  With no search result it is the fixed message, after
    the search alone; otherwise it is what [answer_with_context] returns
    (the model's text, or the apology) on the context built from the
    ranker's output on what the search found: one search, one ranking
    call, the fetches of the pages of the first [max_context_results]
    results the ranker returned, in its order, and the answer call. *)
Theorem basic_process_query_returns (query : string) (n m : Z) (s : St) :
  exists search_results answer s',
    search_web query n s = (Ok search_results, after_search query n s) /\
    Basic.process_query query n m s = (Ok answer, s') /\
    (search_results = [] ->
     answer = "I couldn't find any relevant information on the web for your query."
     /\ snd s' = (snd s ++ [WebSearch query n])%list) /\
    (search_results <> [] ->
     exists ranked context w2,
       let s1 := after_search query n s in
       let s2 := (w2, (snd s1 ++ [Completion (rank_request search_results query)])%list) in
       let s3 := after_fetches (map link_of (list_slice_to m ranked)) s2 in
       Basic.rank_search_results search_results query s1 = (Ok ranked, s2) /\
       get_context_from_results ranked m s2 = (Ok context, s3) /\
       answer_with_context query context s3 = (Ok answer, s') /\
       snd s' =
         (snd s
          ++ [WebSearch query n; Completion (rank_request search_results query)]
          ++ map PageFetch (map link_of (list_slice_to m ranked))
          ++ [Completion (answer_request query context)])%list).
Proof.
  pose proof (search_web_run query n s) as Hweb.
  match type of Hweb with
    _ = (Ok ?found, _) => remember found as search_results eqn:Hfound
  end.
  exists search_results.
  unfold Basic.process_query. unfold bind at 1. rewrite Hweb.
  destruct search_results as [|r0 rest] eqn:Hres.
  { unfold ret. eexists _, _. split; [reflexivity|]. split; [reflexivity|].
    split; [intros _; split; reflexivity|congruence]. }
  assert (Hne : r0 :: rest <> []) by discriminate.
  unfold bind.
  destruct (basic_rank_run (r0 :: rest) query (after_search query n s) Hne)
    as (ranked & w2 & Hrank). rewrite Hrank.
  destruct (get_context_run ranked m
              (w2, (snd (after_search query n s)
                    ++ [Completion (rank_request (r0 :: rest) query)])%list))
    as (context & Hctx). rewrite Hctx.
  rewrite answer_run. unfold ret.
  eexists _, _. split; [reflexivity|]. split; [reflexivity|].
  split; [congruence|].
  intros _. exists ranked, context, w2. cbn zeta.
  split; [reflexivity|]. split; [exact Hctx|]. split; [apply answer_run|].
  rewrite after_completion_trace, after_fetches_trace.
  unfold after_search. cbn [snd]. rewrite <- !app_assoc. reflexivity.
Qed.

End Facts.

End BasicFacts.

(** * Further properties of the tool loop *)

Module MCPMore.
Import MCP MoreMCP MCPFacts.

Section Facts.
Context {rt : Runtime} {sv : Services}.

(** When the first response requests no tool, the loop body never runs:
    one completion call, no POST, and the content of that response is
    returned, whatever the fuel. *)
Theorem no_tool_requested (fuel : nat) (prompt : string)
  (tools_to_use : list MCPTool) (s : St) (m : message) (w1 : W) :
  client_messages_create (first_request prompt tools_to_use) (fst s) = (Ok m, w1) ->
  truthy (tool_use m) = false ->
  call_claude_with_tools fuel prompt tools_to_use s =
  (Ok (Some (content m)),
   (w1, (snd s ++ [Create (first_request prompt tools_to_use)])%list)).
Proof.
  intros Hfirst Hstop. unfold call_claude_with_tools, bind, create.
  rewrite Hfirst. destruct fuel; cbn [tool_loop]; rewrite Hstop; reflexivity.
Qed.

Lemma lookup_tool_found (tool_call : json) (tool : MCPTool) :
  lookup_tool tools tool_call = Ok tool -> In tool tools.
Proof.
  unfold tools. cbn [lookup_tool].
  destruct (getitem tool_call "name") as [requested|e]; cbn [obind];
    [|discriminate].
  destruct (name_is file_system requested); [intros [= <-]; left; reflexivity|].
  destruct (name_is database requested);
    [intros [= <-]; right; left; reflexivity|discriminate].
Qed.

(** The registry lookup: it returns a registered tool of the requested
    name; it raises what the lookup of [name] raises when the call has no
    name; and it raises [StopIteration] when the name, string or not, is
    that of no registered tool. *)
Theorem lookup_tool_spec (tool_call : json) :
  match lookup_tool tools tool_call with
  | Ok tool =>
      In tool tools /\ getitem tool_call "name" = Ok (JStr (name tool))
  | Raise e =>
      getitem tool_call "name" = Raise e \/
      e = Exn StopIteration "" /\
      exists requested,
        getitem tool_call "name" = Ok requested /\
        forall tool, In tool tools -> name_is tool requested = false
  end.
Proof.
  unfold tools. cbn [lookup_tool].
  destruct (getitem tool_call "name") as [requested|e] eqn:Hname; cbn [obind];
    [|left; reflexivity].
  destruct (name_is file_system requested) eqn:H1.
  { split; [left; reflexivity|]. unfold name_is in H1.
    destruct requested; try discriminate. apply String.eqb_eq in H1.
    rewrite <- H1. reflexivity. }
  destruct (name_is database requested) eqn:H2.
  { split; [right; left; reflexivity|]. unfold name_is in H2.
    destruct requested; try discriminate. apply String.eqb_eq in H2.
    rewrite <- H2. reflexivity. }
  right. split; [reflexivity|]. exists requested. split; [reflexivity|].
  intros tool [<-|[<-|[]]]; assumption.
Qed.

Lemma run_call_posts (tool_call : json) (s : St) :
  well_formed tool_call ->
  exists post_event,
    expected_post tool_call = Some post_event /\
    exists o w',
      run_call tool_call s = (o, (w', (snd s ++ [post_event])%list)) /\
      (returned o = true <->
       exists endpoint payload,
         post_event = Post endpoint payload /\
         returned (fst (requests_post endpoint payload (fst s))) = true).
Proof.
  intros (tool & parameters & id & Hin & Hname & Hparams & Hid).
  unfold expected_post. rewrite (lookup_tool_registered _ _ Hin Hname), Hparams.
  eexists. split; [reflexivity|].
  unfold run_call, bind, lift, ret, execute, post.
  rewrite (lookup_tool_registered _ _ Hin Hname), Hparams. simpl.
  destruct (requests_post _ _ (fst s)) as [[body|e] w'] eqn:Hpost.
  - rewrite Hid. eexists _, _. split; [reflexivity|]. split; [|reflexivity].
    intros _. eexists _, _. split; [reflexivity|]. rewrite Hpost. reflexivity.
  - eexists _, _. split; [reflexivity|]. split; [discriminate|].
    intros (endpoint & payload & [= <- <-] & Hret). rewrite Hpost in Hret.
    discriminate.
Qed.

(** With endpoints that answer, a batch of well-formed tool calls is
    carried out in the order of the request: one POST per call, each to
    the endpoint of the tool the call names, one response per call, and no
    completion call in between. *)
Theorem batch_posts_in_order (tool_calls : list json) (s : St) :
  Forall well_formed tool_calls ->
  (forall endpoint payload w,
      returned (fst (requests_post endpoint payload w)) = true) ->
  exists responses s',
    run_calls tool_calls s = (Ok responses, s') /\
    length responses = length tool_calls /\
    Forall2 (fun tool_call response =>
               getitem tool_call "id" = Ok (tool_call_id response))
            tool_calls responses /\
    snd s' = (snd s ++ omap expected_post tool_calls)%list /\
    length (omap expected_post tool_calls) = length tool_calls.
Proof.
  intros Hwf Hanswers. revert s.
  induction Hwf as [|tool_call rest Hcall Hrest IH]; intros s.
  - exists [], s. cbn. rewrite app_nil_r. repeat split; constructor.
  - destruct Hcall as (tool & parameters & id & Hin & Hname & Hparams & Hid).
    pose proof (Hanswers (server_url tool)
                  (request_data (dict_get parameters "method" (JStr ""))
                                (dict_get parameters "params" (JObj [])))
                  (fst s)) as Hpost.
    destruct (requests_post _ _ (fst s)) as [[body|e] w'] eqn:Hp;
      [|discriminate Hpost].
    cbn [run_calls]. unfold bind at 1.
    rewrite (run_call_registered tool tool_call id body parameters s w'
               Hin Hname Hparams Hid Hp).
    destruct (IH (w', (snd s ++ [Post (server_url tool)
                   (request_data (dict_get parameters "method" (JStr ""))
                                 (dict_get parameters "params" (JObj [])))])%list))
      as (responses & s' & Hrun & Hlen & Hids & Htrace & Hposts).
    unfold bind. rewrite Hrun. unfold ret. eexists _, s'.
    split; [reflexivity|]. split; [simpl; lia|].
    split; [constructor; [exact Hid|exact Hids]|].
    assert (Hexp : expected_post tool_call =
                   Some (Post (server_url tool)
                           (request_data (dict_get parameters "method" (JStr ""))
                                         (dict_get parameters "params" (JObj []))))).
    { unfold expected_post.
      rewrite (lookup_tool_registered _ _ Hin Hname), Hparams. reflexivity. }
    cbn [omap list_omap]. rewrite Hexp.
    split; [|simpl; f_equal; exact Hposts].
    rewrite Htrace. cbn [snd]. rewrite <- app_assoc. reflexivity.
Qed.

Lemma tool_loop_first_call (fuel : nat) (prompt : string)
  (tools_to_use : list MCPTool) (m : message) (s s1 : St)
  (tool_call : json) (rest : list json) (e : exn) :
  iterate (tool_use m) = Ok (tool_call :: rest) ->
  run_call tool_call s = (Raise e, s1) ->
  tool_loop (S fuel) prompt tools_to_use m s = (Raise e, s1).
Proof.
  intros Hiter Hcall. cbn [tool_loop].
  rewrite (iterate_nonempty_truthy _ _ _ Hiter), Hiter.
  unfold bind at 1. unfold lift at 1. unfold bind at 1. cbn [run_calls].
  unfold bind at 1. rewrite Hcall. reflexivity.
Qed.

(** A tool endpoint that fails ends the whole call: the exception of the
    POST leaves [call_claude_with_tools] uncaught, the calls after it in
    the response are not carried out, and the model is not called
    again. *)
Theorem post_failure_escapes (fuel : nat) (prompt : string)
  (tools_to_use : list MCPTool) (m : message) (s : St)
  (tool : MCPTool) (tool_call : json) (rest : list json)
  (parameters : list (string * json)) (e : exn) (w' : W) :
  let payload := request_data (dict_get parameters "method" (JStr ""))
                              (dict_get parameters "params" (JObj [])) in
  iterate (tool_use m) = Ok (tool_call :: rest) ->
  In tool tools ->
  getitem tool_call "name" = Ok (JStr (name tool)) ->
  getitem tool_call "parameters" = Ok (JObj parameters) ->
  requests_post (server_url tool) payload (fst s) = (Raise e, w') ->
  tool_loop (S fuel) prompt tools_to_use m s =
  (Raise e, (w', (snd s ++ [Post (server_url tool) payload])%list)).
Proof.
  intros payload Hiter Hin Hname Hparams Hpost.
  apply (tool_loop_first_call _ _ _ _ _ _ _ _ _ Hiter).
  unfold run_call, bind, lift, ret, execute, post.
  rewrite (lookup_tool_registered _ _ Hin Hname), Hparams. simpl.
  fold payload. rewrite Hpost. reflexivity.
Qed.

(** A tool call without an [id] is carried out all the same: the POST is
    sent and answered, and only then does the lookup of [id] raise, which
    ends the call with the tool's work done and its output lost. *)
Theorem missing_id_after_post (fuel : nat) (prompt : string)
  (tools_to_use : list MCPTool) (m : message) (s : St)
  (tool : MCPTool) (tool_call body : json) (rest : list json)
  (parameters : list (string * json)) (e : exn) (w' : W) :
  let payload := request_data (dict_get parameters "method" (JStr ""))
                              (dict_get parameters "params" (JObj [])) in
  iterate (tool_use m) = Ok (tool_call :: rest) ->
  In tool tools ->
  getitem tool_call "name" = Ok (JStr (name tool)) ->
  getitem tool_call "parameters" = Ok (JObj parameters) ->
  getitem tool_call "id" = Raise e ->
  requests_post (server_url tool) payload (fst s) = (Ok body, w') ->
  tool_loop (S fuel) prompt tools_to_use m s =
  (Raise e, (w', (snd s ++ [Post (server_url tool) payload])%list)).
Proof.
  intros payload Hiter Hin Hname Hparams Hid Hpost.
  apply (tool_loop_first_call _ _ _ _ _ _ _ _ _ Hiter).
  unfold run_call, bind, lift, ret, execute, post.
  rewrite (lookup_tool_registered _ _ Hin Hname), Hparams. simpl.
  fold payload. rewrite Hpost, Hid. reflexivity.
Qed.

(** A tool call without [parameters], or whose [parameters] is not an
    object, raises before anything is sent. *)
Theorem bad_parameters_before_post (fuel : nat) (prompt : string)
  (tools_to_use : list MCPTool) (m : message) (s : St)
  (tool : MCPTool) (tool_call : json) (rest : list json) :
  iterate (tool_use m) = Ok (tool_call :: rest) ->
  In tool tools ->
  getitem tool_call "name" = Ok (JStr (name tool)) ->
  (forall kvs, getitem tool_call "parameters" <> Ok (JObj kvs)) ->
  exists e,
    tool_loop (S fuel) prompt tools_to_use m s = (Raise e, s) /\
    (exn_class e = KeyError \/ exn_class e = TypeError \/
     exn_class e = AttributeError).
Proof.
  intros Hiter Hin Hname Hbad.
  assert (Hclass : forall v k e0, getitem v k = Raise e0 ->
                     exn_class e0 = KeyError \/ exn_class e0 = TypeError).
  { intros v k e0. unfold getitem.
    destruct v as [| | | | | |kvs]; try (intros [= <-]; auto).
    destruct (assoc k kvs); [discriminate|]. intros [= <-]. auto. }
  destruct (getitem tool_call "parameters") as [p|e] eqn:Hp.
  - exists (Exn AttributeError (quoted (class_name p)
                               ++ " object has no attribute 'get'")). split.
    + apply (tool_loop_first_call _ _ _ _ _ _ _ _ _ Hiter).
      unfold run_call, bind, lift, ret.
      rewrite (lookup_tool_registered _ _ Hin Hname), Hp.
      destruct p as [| | | | | |kvs]; try reflexivity.
      exfalso. apply (Hbad kvs). reflexivity.
    + auto.
  - exists e. split.
    + apply (tool_loop_first_call _ _ _ _ _ _ _ _ _ Hiter).
      unfold run_call, bind, lift, ret.
      rewrite (lookup_tool_registered _ _ Hin Hname), Hp. reflexivity.
    + destruct (Hclass _ _ _ Hp); auto.
Qed.

Lemma posted_app (a b : list event) : posted (a ++ b) = (posted a ++ posted b)%list.
Proof. unfold posted. apply omap_app. Qed.

Lemma creates_app (a b : list event) : creates (a ++ b) = (creates a ++ creates b)%list.
Proof. unfold creates. apply omap_app. Qed.

(** The loop has no bound of its own: against a model that asks for a
    tool in every response (the endpoints answering), no number of turns
    suffices.  After [fuel] turns the loop is still going, and it has made
    [fuel] POSTs and [fuel] further completion calls. *)
Theorem loop_has_no_bound (prompt : string) (tools_to_use : list MCPTool)
  (asks : message) (tool_call : json) :
  (forall r w, fst (client_messages_create r w) = Ok asks) ->
  (forall endpoint payload w,
      returned (fst (requests_post endpoint payload w)) = true) ->
  iterate (tool_use asks) = Ok [tool_call] ->
  well_formed tool_call ->
  forall (fuel : nat) (s : St),
  exists s',
    call_claude_with_tools fuel prompt tools_to_use s = (Ok None, s') /\
    length (creates (snd s')) = (length (creates (snd s)) + fuel + 1)%nat /\
    length (posted (snd s')) = (length (posted (snd s)) + fuel)%nat.
Proof.
  intros Hasks Hanswers Hiter Hwf.
  assert (Hsingle : forall s : St, exists response w' endpoint payload,
             run_calls [tool_call] s =
             (Ok [response], (w', (snd s ++ [Post endpoint payload])%list))).
  { intros s.
    destruct Hwf as (tool & parameters & id & Hin & Hname & Hparams & Hid).
    pose proof (Hanswers (server_url tool)
                  (request_data (dict_get parameters "method" (JStr ""))
                                (dict_get parameters "params" (JObj [])))
                  (fst s)) as Hpost.
    destruct (requests_post _ _ (fst s)) as [[body|e] w'] eqn:Hp;
      [|discriminate Hpost].
    eexists _, w', _, _. cbn [run_calls]. unfold bind at 1.
    rewrite (run_call_registered tool tool_call id body parameters s w'
               Hin Hname Hparams Hid Hp).
    reflexivity. }
  assert (Hloop : forall fuel s, exists s',
             tool_loop fuel prompt tools_to_use asks s = (Ok None, s') /\
             length (creates (snd s')) = (length (creates (snd s)) + fuel)%nat /\
             length (posted (snd s')) = (length (posted (snd s)) + fuel)%nat).
  { induction fuel as [|fuel IH]; intros s.
    - cbn [tool_loop]. rewrite (iterate_nonempty_truthy _ _ _ Hiter).
      exists s. split; [reflexivity|]. lia.
    - cbn [tool_loop]. rewrite (iterate_nonempty_truthy _ _ _ Hiter), Hiter.
      unfold bind at 1. unfold lift at 1. unfold bind at 1.
      destruct (Hsingle s) as (response & w' & endpoint & payload & Hs1).
      remember (w', (snd s ++ [Post endpoint payload])%list) as s1 eqn:Es1.
      rewrite Hs1.
      unfold bind at 1. unfold create.
      pose proof (Hasks (next_request prompt tools_to_use asks [response]) (fst s1))
        as Hnext.
      destruct (client_messages_create _ (fst s1)) as [o w2].
      cbn [fst] in Hnext. subst o.
      destruct (IH (w2, (snd s1 ++ [Create (next_request prompt tools_to_use
                                              asks [response])])%list))
        as (s' & -> & Hc & Hp).
      exists s'. split; [reflexivity|].
      cbn [snd] in Hc, Hp. rewrite Hc, Hp, Es1. cbn [snd].
      rewrite !creates_app, !posted_app, !length_app. simpl. lia. }
  intros fuel s. unfold call_claude_with_tools, bind, create.
  pose proof (Hasks (first_request prompt tools_to_use) (fst s)) as Hfirst.
  destruct (client_messages_create _ (fst s)) as [o w1].
  cbn [fst] in Hfirst. subst o.
  destruct (Hloop fuel (w1, (snd s ++ [Create (first_request prompt tools_to_use)])%list))
    as (s' & -> & Hc & Hp).
  exists s'. split; [reflexivity|]. cbn [snd] in Hc, Hp.
  rewrite Hc, Hp, creates_app, posted_app, !length_app. simpl. lia.
Qed.





End Facts.

End MCPMore.

(** * More runs on scripted services *)

Module RunsMore.
Import Pipeline PipelineSpec More PipelineMore.

(** A decision wrapped in prose. *)
Lemma search_braces_run :
  search_braces ("Here is my decision: " ++ MockMore.decide_string_text
                 ++ " Hope this helps.")
  = Some MockMore.decide_string_text.
Proof.
  apply (StringFacts.search_braces_extracts "Here is my decision: "
           (Mock.q "search_needed" ++ ": " ++ Mock.q "false" ++ ", "
            ++ Mock.q "reasoning" ++ ": " ++ Mock.q "common knowledge")
           " Hope this helps."); reflexivity.
Defined.

(** A short page comes back cleaned and whole. *)
Lemma scrape_short_run :
  exists out,
    scrape_webpage (sv:=Mock.three_hits) "http://a.example" ([], [])
      = (Ok out, ([], [PageFetch "http://a.example"])) /\
    (len out <= 15022)%Z /\
    out = "Page" ++ nl ++ "text" ++ nl ++ "of http://a.example".
Proof.
  destruct (scrape_output_bounded (sv:=Mock.three_hits) "http://a.example"
              ("  Page  text " ++ nl ++ "of http://a.example") [] ([], [])
              eq_refl) as (out & Hrun & Hlen & Hshort).
  exists out. split; [exact Hrun|]. split; [exact Hlen|].
  rewrite Hshort; [reflexivity|]. vm_compute. discriminate.
Defined.

(** Two follow-up questions with the priorities 2.5 and 4: the second
    comes first. *)
Lemma follow_ups_sorted_run :
  let s0 : St (sv:=Mock.no_hits) :=
    ([Ok [MockMore.fraction_follow_ups_text]], []) in
  exists sorted s',
    follow_up_attempt (rt:=MockMore.runtime) (sv:=Mock.no_hits) "q" (JStr "a") s0
      = (Ok (JArr sorted), s') /\
    Forall (fun x => real_number (priority_of x) = true) sorted /\
    generate_follow_up_questions (rt:=MockMore.runtime) (sv:=Mock.no_hits)
      "q" (JStr "a") s0 = (Ok (JArr sorted), s') /\
    map priority_of sorted = [JNum 4; JFloat (Finite (Qmake 5 2))] /\
    StronglySorted (not_below priority_of) sorted.
Proof.
  intros s0.
  eexists _, _. split; [vm_compute; reflexivity|].
  assert (Hnum : Forall (fun x => real_number (priority_of x) = true)
                   [MockMore.asked "What next?" "scope" (JNum 4);
                    MockMore.asked "Why?" "depth" (JFloat (Finite (Qmake 5 2)))])
    by (repeat constructor).
  split; [exact Hnum|].
  destruct (follow_ups_sorted (rt:=MockMore.runtime) (sv:=Mock.no_hits)
              "q" (JStr "a") _ s0 _ eq_refl Hnum)
    as (text & parsed & questions & _ & _ & _ & Hgen & _ & _ & Hs & _).
  split; [exact Hgen|]. split; [reflexivity|exact Hs].
Defined.

Example follow_ups_sorted_values :
  fst (generate_follow_up_questions (rt:=Mock.runtime) (sv:=Mock.no_hits)
         "q" (JStr "a") ([Ok [Mock.follow_ups_text]], []))
  = Ok (JArr [Mock.question "What next?" "scope" 5;
              Mock.question "Why?" "depth" 2]).
Proof.
  vm_compute. reflexivity.
Qed.

(** The second question has no priority: both are lost. *)
Lemma follow_up_without_priority_run :
  fst (generate_follow_up_questions (rt:=MockMore.runtime) (sv:=Mock.no_hits)
         "q" (JStr "a") ([Ok [MockMore.unranked_follow_ups_text]], []))
  = Ok (JArr []).
Proof.
  apply (follow_up_without_priority (rt:=MockMore.runtime) (sv:=Mock.no_hits)
           "q" MockMore.unranked_follow_ups_text (JStr "a")
           MockMore.unranked_follow_ups
           (JObj [("question", JStr "How?"); ("rationale", JStr "method")])
           [Mock.question "Why?" "depth" 2;
            JObj [("question", JStr "How?"); ("rationale", JStr "method")]]
           (Exn KeyError (quoted "priority"))).
  - reflexivity.
  - vm_compute. reflexivity.
  - reflexivity.
  - right. left. reflexivity.
  - reflexivity.
Defined.

(** Three hits, five entries: index 0 three times, index 2 once, and -1,
    which is no position.  Four items come back. *)
Lemma rank_output_length_run :
  let s0 : St (sv:=Mock.three_hits) :=
    ([Ok [MockMore.repeated_rankings_text]], []) in
  exists out s',
    rank_attempt (rt:=MockMore.runtime) (sv:=Mock.three_hits)
      Mock.results "q" s0 = (Ok out, s') /\
    rank_search_results (rt:=MockMore.runtime) (sv:=Mock.three_hits)
      Mock.results "q" s0 = (Ok out, s') /\
    exists entries,
      ranking_entries (rt:=MockMore.runtime) (sv:=Mock.three_hits)
        Mock.results "q" (fst s0) entries /\
      length out = length (List.filter (valid_entry Mock.results) entries).
Proof.
  intros s0.
  assert (Hok : returned (fst (rank_attempt (rt:=MockMore.runtime)
                                 (sv:=Mock.three_hits) Mock.results "q" s0)) = true)
    by (vm_compute; reflexivity).
  destruct (rank_attempt (rt:=MockMore.runtime) (sv:=Mock.three_hits)
              Mock.results "q" s0) as [[out|e] s'] eqn:Hrun; [|discriminate Hok].
  exists out, s'. split; [reflexivity|].
  apply (rank_output_length (rt:=MockMore.runtime) (sv:=Mock.three_hits)
           Mock.results "q" s0 s' out); [discriminate|exact Hrun].
Defined.

Example rank_output_length_values :
  match fst (rank_search_results (rt:=MockMore.runtime) (sv:=Mock.three_hits)
               Mock.results "q" ([Ok [MockMore.repeated_rankings_text]], [])) with
  | Ok out => map (fun r => (title (base r), relevance_score r)) out
  | Raise _ => []
  end
  = [("Alpha", JNum 8); ("Gamma", JNum 8); ("Alpha", JNum 6); ("Alpha", JNum 4)].
Proof.
  vm_compute. reflexivity.
Qed.

(** Four ranked results, at most two pages. *)
Lemma context_fetches_top_run :
  exists context s',
    get_context_from_results (sv:=Mock.three_hits) MockMore.four_ranked 2 ([], [])
      = (Ok context, s') /\
    snd s' = [PageFetch "http://a.example"; PageFetch "http://b.example"].
Proof.
  destruct (context_fetches_top (sv:=Mock.three_hits) MockMore.four_ranked 2
              ([], []) ltac:(lia)) as (context & s' & Hrun & Htrace & _).
  exists context, s'. split; [exact Hrun|exact Htrace].
Defined.

(** Four ranked results and a bound of -1: three pages are fetched. *)
Lemma context_negative_bound_run :
  exists context s',
    get_context_from_results (sv:=Mock.three_hits) MockMore.four_ranked (-1)
      ([], []) = (Ok context, s') /\
    snd s' = [PageFetch "http://a.example"; PageFetch "http://b.example";
              PageFetch "http://c.example"].
Proof.
  destruct (context_negative_bound (sv:=Mock.three_hits) MockMore.four_ranked (-1)
              ([], []) ltac:(lia)) as (context & s' & Hrun & Htrace).
  exists context, s'. split; [exact Hrun|exact Htrace].
Defined.

(** The second page cannot be fetched; the third one still gets its
    section. *)
Lemma failed_page_run :
  exists later s',
    gather (sv:=Mock.three_hits) 1 (tl MockMore.four_ranked) ([], [])
    = (Ok (("Source 2: Beta (http://b.example)" ++ nl ++ nl
            ++ "Failed to scrape content from http://b.example: 404 Client Error"
            ++ nl ++ nl) :: later), s') /\
    length later = 2%nat.
Proof.
  destruct (failed_page_keeps_section (sv:=Mock.three_hits) 1
              (MockMore.ranked "Beta" "http://b.example" 8)
              (tl (tl MockMore.four_ranked))
              (Exn ExternalError "404 Client Error") [] ([], []) eq_refl)
    as (later & s' & Hlater & Hrun).
  exists later, s'. split; [exact Hrun|].
  vm_compute in Hlater. injection Hlater as <- _. reflexivity.
Defined.

(** The first page holds white space only: the context starts with
    "Source 2". *)
Lemma empty_page_run :
  gather (sv:=MockMore.blank_first) 0 (firstn 2 MockMore.four_ranked) ([], [])
  = gather (sv:=MockMore.blank_first) 1 [MockMore.ranked "Beta" "http://b.example" 8]
      ([], [PageFetch "http://a.example"]).
Proof.
  apply (empty_page_skipped (sv:=MockMore.blank_first) 0
           (MockMore.ranked "Alpha" "http://a.example" 9)
           [MockMore.ranked "Beta" "http://b.example" 8]
           ("   " ++ nl ++ "  " ++ nl) [] ([], [])); reflexivity.
Defined.

(** The whole pipeline on three hits: seven calls besides the page
    fetches, in the order of the source. *)
Lemma search_path_run :
  let s0 : St (sv:=Mock.three_hits) :=
    ([Ok [Mock.decide_yes_text]; Ok [Mock.rankings_text];
      Ok ["Draft answer."]; Ok [Mock.evaluation_text];
      Ok [Mock.follow_ups_text]], []) in
  exists (r : gmap string json) s' context,
    process_query (rt:=Mock.runtime) (sv:=Mock.three_hits) "q" 5 3 s0
      = (Ok r, s') /\
    r !! "context" = Some (JStr context) /\
    exists search_results ranked initial refined,
      let s1 := after_search (sv:=Mock.three_hits) "q" 5
                  (after_completion (decide_request "q") s0) in
      let s2 := after_completion (rank_request search_results "q") s1 in
      let s3 := after_fetches (map link_of (list_slice_to 3 ranked)) s2 in
      search_web (sv:=Mock.three_hits) "q" 5
        (after_completion (decide_request "q") s0) = (Ok search_results, s1) /\
      search_results <> [] /\
      rank_search_results (rt:=Mock.runtime) search_results "q" s1
        = (Ok ranked, s2) /\
      get_context_from_results ranked 3 s2 = (Ok context, s3) /\
      answer_with_context "q" context s3
        = (Ok initial, after_completion (answer_request "q" context) s3) /\
      r !! "initial_answer" = Some (JStr initial) /\
      r !! "answer" = Some refined /\
      snd s' =
        ([]
         ++ [Completion (decide_request "q");
             WebSearch "q" 5;
             Completion (rank_request search_results "q")]
         ++ map PageFetch (map link_of (list_slice_to 3 ranked))
         ++ [Completion (answer_request "q" context);
             Completion (evaluate_request "q" initial context);
             Completion (follow_up_request (rt:=Mock.runtime) "q" refined)])%list.
Proof.
  intros s0.
  assert (Hok : match fst (process_query (rt:=Mock.runtime)
                             (sv:=Mock.three_hits) "q" 5 3 s0) with
                | Ok r => match r !! "context" with
                          | Some (JStr _) => true
                          | _ => false
                          end
                | Raise _ => false
                end = true)
    by (vm_compute; reflexivity).
  destruct (process_query (rt:=Mock.runtime) (sv:=Mock.three_hits) "q" 5 3 s0)
    as [[r|e] s'] eqn:Hrun; [|discriminate Hok].
  cbn [fst] in Hok.
  destruct (r !! "context") as [[| | | |context| |]|] eqn:Hcontext;
    try discriminate Hok.
  exists r, s', context. split; [reflexivity|]. split; [exact Hcontext|].
  apply (search_path_calls (rt:=Mock.runtime) (sv:=Mock.three_hits)
           "q" 5 3 s0 s' r context Hrun Hcontext).
Defined.

Example search_path_trace :
  map (fun e => match e with
                | Completion _ => "completion"
                | WebSearch _ _ => "search"
                | PageFetch link => link
                end)
      (snd (snd (process_query (rt:=Mock.runtime) (sv:=Mock.three_hits) "q" 5 3
                   ([Ok [Mock.decide_yes_text]; Ok [Mock.rankings_text];
                     Ok ["Draft answer."]; Ok [Mock.evaluation_text];
                     Ok [Mock.follow_ups_text]], []))))
  = ["completion"; "search"; "completion";
     "http://a.example"; "http://b.example"; "http://c.example";
     "completion"; "completion"; "completion"].
Proof.
  vm_compute. reflexivity.
Qed.

(** The classifier sees no need to search: three completions, no search,
    no page. *)
Lemma direct_path_run :
  let s0 : St (sv:=Mock.three_hits) :=
    ([Ok [Mock.decide_no_text]; Ok ["Paris."]; Ok [Mock.follow_ups_text]], []) in
  exists (r : gmap string json) s' answer,
    process_query (rt:=Mock.runtime) (sv:=Mock.three_hits) "q" 5 3 s0
      = (Ok r, s') /\
    r !! "search_performed" = Some (JBool false) /\
    r !! "answer" = Some answer /\
    r !! "context" = None /\
    snd s' = [Completion (decide_request "q");
              Completion (direct_request "q");
              Completion (follow_up_request (rt:=Mock.runtime) "q" answer)].
Proof.
  intros s0.
  assert (Hok : match fst (process_query (rt:=Mock.runtime)
                             (sv:=Mock.three_hits) "q" 5 3 s0) with
                | Ok r => match r !! "search_performed" with
                          | Some (JBool false) => true
                          | _ => false
                          end
                | Raise _ => false
                end = true)
    by (vm_compute; reflexivity).
  destruct (process_query (rt:=Mock.runtime) (sv:=Mock.three_hits) "q" 5 3 s0)
    as [[r|e] s'] eqn:Hrun; [|discriminate Hok].
  cbn [fst] in Hok.
  destruct (r !! "search_performed") as [[|[|]| | | | |]|] eqn:Hperformed;
    try discriminate Hok.
  destruct (direct_path_calls (rt:=Mock.runtime) (sv:=Mock.three_hits)
              "q" 5 3 s0 s' r Hrun Hperformed)
    as (answer & Hanswer & Hnone & Htrace).
  exists r, s', answer. split; [reflexivity|]. split; [exact Hperformed|].
  split; [exact Hanswer|]. split; [exact Hnone|exact Htrace].
Defined.

(** The critic's JSON has no "refined_answer": the KeyError leaves
    [process_query]. *)
Lemma critic_key_missing_run :
  let s0 : St (sv:=Mock.three_hits) :=
    ([Ok [Mock.decide_yes_text]; Ok [Mock.rankings_text];
      Ok ["Draft answer."]; Ok [MockMore.partial_evaluation_text];
      Ok [Mock.follow_ups_text]], []) in
  exists e s',
    process_query (rt:=MockMore.runtime) (sv:=Mock.three_hits) "q" 5 3 s0
      = (Raise e, s') /\
    exists text evaluation k initial context,
      json_loads (Runtime:=MockMore.runtime) text = Some evaluation /\
      In k ["evaluation"; "issues"; "refined_answer"] /\
      getitem evaluation k = Raise e /\
      (exn_class e = KeyError \/ exn_class e = TypeError) /\
      last (snd s') = Some (Completion (evaluate_request "q" initial context)).
Proof.
  intros s0.
  assert (Hok : returned (fst (process_query (rt:=MockMore.runtime)
                                 (sv:=Mock.three_hits) "q" 5 3 s0)) = false)
    by (vm_compute; reflexivity).
  destruct (process_query (rt:=MockMore.runtime) (sv:=Mock.three_hits) "q" 5 3 s0)
    as [[r|e] s'] eqn:Hrun; [discriminate Hok|].
  exists e, s'. split; [reflexivity|].
  apply (process_query_raises_only_on_critic (rt:=MockMore.runtime)
           (sv:=Mock.three_hits) "q" 5 3 s0 s' e Hrun).
Defined.

Example critic_key_missing_value :
  fst (process_query (rt:=MockMore.runtime) (sv:=Mock.three_hits) "q" 5 3
         ([Ok [Mock.decide_yes_text]; Ok [Mock.rankings_text];
           Ok ["Draft answer."]; Ok [MockMore.partial_evaluation_text];
           Ok [Mock.follow_ups_text]], []))
  = Raise (Exn KeyError (quoted "refined_answer")).
Proof.
  vm_compute. reflexivity.
Qed.

(** The classifier answers with the string "false" for [search_needed]:
    a non-empty string is true, and the pipeline searches. *)
Lemma result_bookkeeping_run :
  let s0 : St (sv:=Mock.no_hits) :=
    ([Ok ["Here is my decision: " ++ MockMore.decide_string_text]], []) in
  exists (r : gmap string json) s',
    process_query (rt:=MockMore.runtime) (sv:=Mock.no_hits) "q" 5 3 s0
      = (Ok r, s') /\
    exists search_needed reasoning,
      decide_if_search_needed (rt:=MockMore.runtime) (sv:=Mock.no_hits) "q" s0 =
        (Ok (search_needed, reasoning),
         (snd (messages_create (Services:=Mock.no_hits) (decide_request "q") (fst s0)),
          (snd s0 ++ [Completion (decide_request "q")])%list)) /\
      r !! "original_query" = Some (JStr "q") /\
      r !! "search_performed" = Some (JBool (truthy search_needed)) /\
      r !! "search_decision_reasoning" = Some reasoning /\
      r !! "reasoning" = Some (JStr "") /\
      exists l, r !! "follow_up_questions" = Some (JArr l).
Proof.
  intros s0.
  assert (Hok : returned (fst (process_query (rt:=MockMore.runtime)
                                 (sv:=Mock.no_hits) "q" 5 3 s0)) = true)
    by (vm_compute; reflexivity).
  destruct (process_query (rt:=MockMore.runtime) (sv:=Mock.no_hits) "q" 5 3 s0)
    as [[r|e] s'] eqn:Hrun; [|discriminate Hok].
  exists r, s'. split; [reflexivity|].
  apply (result_bookkeeping (rt:=MockMore.runtime) (sv:=Mock.no_hits)
           "q" 5 3 s0 s' r Hrun).
Defined.

Example string_false_searches :
  match fst (process_query (rt:=MockMore.runtime) (sv:=Mock.no_hits) "q" 5 3
               ([Ok ["Here is my decision: " ++ MockMore.decide_string_text]], []))
  with
  | Ok r => r !! "search_performed"
  | Raise _ => None
  end = Some (JBool true).
Proof.
  vm_compute. reflexivity.
Qed.

(** A reply without braces goes to [json.loads] as it is. *)
Lemma classifier_reads_braces_run :
  exists text,
    ((exists pre mid post,
        "Search, please." = pre ++ text ++ post /\ text = "{" ++ mid ++ "}" /\
        occurs "{" pre = false /\ occurs "}" post = false) \/
     (text = "Search, please." /\
      forall pre mid post,
        "Search, please." <> pre ++ "{" ++ mid ++ "}" ++ post)) /\
    forall rt : Runtime,
      decide_attempt (rt:=rt) (sv:=Mock.no_hits) "q" ([Ok ["Search, please."]], []) =
      ((decision <~ loads (rt:=rt) text ;;
        search_needed <~ getitem decision "search_needed" ;;
        reasoning <~ getitem decision "reasoning" ;;
        Ok (search_needed, reasoning))%py,
       after_completion (sv:=Mock.no_hits) (decide_request "q")
         ([Ok ["Search, please."]], [])).
Proof.
  apply (classifier_reads_braces (sv:=Mock.no_hits) "q" "Search, please."
           ([Ok ["Search, please."]], []) eq_refl).
Defined.

Example classifier_reads_braces_values :
  json_part "Search, please." = "Search, please." /\
  json_part ("Sure. " ++ Mock.decide_no_text ++ " Anything else?")
    = Mock.decide_no_text.
Proof.
  split; reflexivity.
Qed.

(** The decision stands between a greeting and a closing remark. *)
Lemma decide_tolerates_prose_run :
  decide_if_search_needed (rt:=MockMore.runtime) (sv:=Mock.no_hits) "q"
    ([Ok ["Here is my decision: " ++ MockMore.decide_string_text
          ++ " Hope this helps."]], [])
  = (Ok (JStr "false", JStr "common knowledge"),
     ([], [Completion (decide_request "q")])).
Proof.
  apply (decide_tolerates_prose (rt:=MockMore.runtime) (sv:=Mock.no_hits) "q"
           "Here is my decision: "
           (Mock.q "search_needed" ++ ": " ++ Mock.q "false" ++ ", "
            ++ Mock.q "reasoning" ++ ": " ++ Mock.q "common knowledge")
           " Hope this helps." MockMore.decide_string
           (JStr "false") (JStr "common knowledge")
           ([Ok ["Here is my decision: " ++ MockMore.decide_string_text
                 ++ " Hope this helps."]], [])).
  - reflexivity.
  - reflexivity.
  - reflexivity.
  - vm_compute. reflexivity.
  - reflexivity.
  - reflexivity.
Defined.

(** The search provider refuses the request: the user is told that
    nothing was found. *)
Lemma search_failure_run :
  let s0 : St (sv:=MockMore.search_down) :=
    ([Ok [Mock.decide_yes_text]; Ok [Mock.follow_ups_text]], []) in
  exists (r : gmap string json) s',
    process_query (rt:=Mock.runtime) (sv:=MockMore.search_down) "q" 5 3 s0
      = (Ok r, s') /\
    r !! "answer" =
      Some (JStr "I couldn't find any relevant information on the web for your query.") /\
    r !! "search_performed" = Some (JBool true) /\
    r !! "follow_up_questions" = Some (JArr []) /\
    snd s' = [Completion (decide_request "q"); WebSearch "q" 5].
Proof.
  intros s0.
  apply (search_failure_reads_as_no_results (rt:=Mock.runtime)
           (sv:=MockMore.search_down) "q" 5 3 s0
           (JBool true) (JStr "needs current data")
           (Exn ExternalError "Ratelimit")).
  - vm_compute. reflexivity.
  - reflexivity.
  - reflexivity.
Defined.

(** A page with blank lines, indentation and a double space. *)
Example clean_text_run :
  clean_text ("  Title  here " ++ nl ++ nl ++ "   " ++ nl ++ " body text ")
  = "Title" ++ nl ++ "here" ++ nl ++ "body text".
Proof.
  vm_compute. reflexivity.
Qed.

(** The first version of the pipeline on the same three hits: one search,
    the ranking, three pages, the answer. *)
Example basic_process_query_run :
  let run :=
    Basic.process_query (rt:=Mock.runtime) (sv:=Mock.three_hits)
      (jc:=MockMore.json_from_script) "q" 5 3
      ([Ok [Mock.rankings_text]; Ok ["Draft answer."]], []) in
  fst run = Ok "Draft answer." /\
  map (fun e => match e with
                | Completion _ => "completion"
                | WebSearch _ _ => "search"
                | PageFetch link => link
                end) (snd (snd run))
  = ["search"; "completion";
     "http://a.example"; "http://b.example"; "http://c.example";
     "completion"].
Proof.
  vm_compute. split; reflexivity.
Qed.

End RunsMore.

(** * More runs of the tool loop *)

Module RunsMCP.
Import MCP MoreMCP MCPMore.

(** The first response asks for no tool: its content is the result. *)
Lemma no_tool_run :
  call_claude_with_tools (rt:=Mock.runtime) (sv:=Mock.tool_script MockMore.plain_answer) 5
    "What is the capital of France?" tools (0%nat, [])
  = (Ok (Some (JStr "Paris.")),
     (1%nat, [Create (first_request "What is the capital of France?" tools)])).
Proof.
  apply (no_tool_requested (rt:=Mock.runtime) (sv:=Mock.tool_script MockMore.plain_answer) 5
           "What is the capital of France?" tools (0%nat, [])
           MockMore.plain_answer 1%nat); reflexivity.
Defined.

(** Two calls in one response: the database endpoint is posted to first,
    then the file system's. *)
Lemma batch_run :
  let tool_calls := [Mock.tool_call "c1" "database";
                     Mock.tool_call "c2" "file_system"] in
  exists responses s',
    run_calls (rt:=Mock.runtime) (sv:=Mock.tool_script (MockMore.asks tool_calls)) tool_calls
      (1%nat, []) = (Ok responses, s') /\
    map tool_call_id responses = [JStr "c1"; JStr "c2"] /\
    posted (snd s') = ["http://localhost:8081/query"; "http://localhost:8080/files"].
Proof.
  intros tool_calls.
  destruct (batch_posts_in_order
              (rt:=Mock.runtime) (sv:=Mock.tool_script (MockMore.asks tool_calls)) tool_calls
              (1%nat, []))
    as (responses & s' & Hrun & _ & Hids & Htrace & _).
  - constructor; [|constructor; [|constructor]].
    + exists database, [("method", JStr "read");
                        ("params", JObj [("path", JStr "quarterly_report.txt")])],
        (JStr "c1").
      split; [right; left; reflexivity|]. split; [reflexivity|].
      split; reflexivity.
    + exists file_system, [("method", JStr "read");
                           ("params", JObj [("path", JStr "quarterly_report.txt")])],
        (JStr "c2").
      split; [left; reflexivity|]. split; [reflexivity|].
      split; reflexivity.
  - intros endpoint payload w. reflexivity.
  - exists responses, s'. split; [exact Hrun|]. split.
    + inversion Hids as [|c1 r1 cs rs H1 Hrest]; subst.
      inversion Hrest as [|c2 r2 cs' rs' H2 Hnil]; subst.
      inversion Hnil; subst.
      cbn in H1, H2. cbn [map]. congruence.
    + rewrite Htrace. reflexivity.
Defined.

(** The endpoint refuses the connection: the error leaves the loop. *)
Lemma post_failure_run :
  tool_loop (rt:=Mock.runtime) (sv:=MockMore.endpoints_down (Mock.asks_for "database")) 3
    "Read the report" tools (Mock.asks_for "database") (1%nat, [])
  = (Raise (Exn ExternalError "Connection refused"),
     (1%nat,
      [Post "http://localhost:8081/query"
         (request_data (JStr "read")
            (JObj [("path", JStr "quarterly_report.txt")]))])).
Proof.
  apply (post_failure_escapes
           (rt:=Mock.runtime) (sv:=MockMore.endpoints_down (Mock.asks_for "database")) 2
           "Read the report" tools (Mock.asks_for "database") (1%nat, [])
           database (Mock.tool_call "call_1" "database") []
           [("method", JStr "read");
            ("params", JObj [("path", JStr "quarterly_report.txt")])]
           (Exn ExternalError "Connection refused") 1%nat).
  - reflexivity.
  - right. left. reflexivity.
  - reflexivity.
  - reflexivity.
  - reflexivity.
Defined.

(** A call without an id: the file system has been asked to delete
    before the KeyError is raised. *)
Lemma missing_id_run :
  tool_loop (rt:=Mock.runtime) (sv:=Mock.tool_script (MockMore.asks [MockMore.call_without_id])) 3
    "Clean up" tools (MockMore.asks [MockMore.call_without_id]) (1%nat, [])
  = (Raise (Exn KeyError (quoted "id")),
     (1%nat,
      [Post "http://localhost:8080/files" (request_data (JStr "delete") (JObj []))])).
Proof.
  apply (missing_id_after_post
           (rt:=Mock.runtime) (sv:=Mock.tool_script (MockMore.asks [MockMore.call_without_id])) 2
           "Clean up" tools (MockMore.asks [MockMore.call_without_id])
           (1%nat, []) file_system MockMore.call_without_id Mock.tool_body []
           [("method", JStr "delete")] (Exn KeyError (quoted "id")) 1%nat).
  - reflexivity.
  - left. reflexivity.
  - reflexivity.
  - reflexivity.
  - reflexivity.
  - reflexivity.
Defined.

(** Parameters given as a string: nothing is posted. *)
Lemma bad_parameters_run :
  exists e,
    tool_loop
      (rt:=Mock.runtime) (sv:=Mock.tool_script (MockMore.asks [MockMore.call_with_bad_parameters])) 3
      "Query" tools (MockMore.asks [MockMore.call_with_bad_parameters])
      (1%nat, [])
    = (Raise e, (1%nat, [])) /\
    (exn_class e = KeyError \/ exn_class e = TypeError \/
     exn_class e = AttributeError).
Proof.
  apply (bad_parameters_before_post
           (rt:=Mock.runtime) (sv:=Mock.tool_script (MockMore.asks [MockMore.call_with_bad_parameters]))
           2 "Query" tools (MockMore.asks [MockMore.call_with_bad_parameters])
           (1%nat, []) database MockMore.call_with_bad_parameters []).
  - reflexivity.
  - right. left. reflexivity.
  - reflexivity.
  - intros kvs. discriminate.
Defined.

(** A model that asks for the database in every response: after seven
    rounds the loop is still running. *)
Lemma loop_has_no_bound_run :
  exists s',
    call_claude_with_tools (rt:=Mock.runtime) (sv:=MockMore.always_asks) 7
      "Read the report" tools (0%nat, []) = (Ok None, s') /\
    length (creates (snd s')) = 8%nat /\
    length (posted (snd s')) = 7%nat.
Proof.
  apply (loop_has_no_bound (rt:=Mock.runtime) (sv:=MockMore.always_asks)
           "Read the report" tools
           (Mock.asks_for "database") (Mock.tool_call "call_1" "database")).
  - intros r w. reflexivity.
  - intros endpoint payload w. reflexivity.
  - reflexivity.
  - exists database, [("method", JStr "read");
                      ("params", JObj [("path", JStr "quarterly_report.txt")])],
      (JStr "call_1").
    split; [right; left; reflexivity|]. split; [reflexivity|].
    split; reflexivity.
Defined.


End RunsMCP.
